(** * python-digitalocean: the request engine of [digitalocean/baseapi.py]

    A shallow embedding of the [Requester] class: token rotation, request
    construction, response classification, the pagination walk and the
    rate-limit bookkeeping, followed by the properties proved about them.

    Python objects are modelled as follows.
    - Decoded JSON bodies and parameter values are values of [json]
      (numbers are integers: nothing here depends on a fraction); a Python
      [dict] is an insertion-ordered association list whose first binding
      of a key is the live one.
    - Exceptions are values of [exn]; a computation is a function from the
      [world] to an [outcome] and the world it leaves behind, so that the
      mutations made before an exception is raised stay visible.
    - The [requests] library and [urllib.parse] are outside the repository:
      what they compute is taken from the interface [PyLib], and the remote
      service is a script of responses handed out in order. *)

From Stdlib Require Import String Ascii List ZArith QArith Lia Bool Arith Permutation.
Import ListNotations.
Close Scope Q_scope.
Open Scope string_scope.
Open Scope list_scope.

(** ** Python values *)

#[local] Unset Elimination Schemes.
Inductive json : Type :=
| JNull
| JBool (b : bool)
| JNum (n : Z)
| JStr (s : string)
| JList (l : list json)
| JDict (d : list (string * json)).
#[local] Set Elimination Schemes.

Definition dict := list (string * json).

(** Python truthiness of a decoded value. *)
Definition truthy (v : json) : bool :=
  match v with
  | JNull => false
  | JBool b => b
  | JNum n => negb (n =? 0)%Z
  | JStr s => negb (s =? "")
  | JList l => negb (Nat.eqb (length l) 0)
  | JDict d => negb (Nat.eqb (length d) 0)
  end.

(** [isinstance(value, list)] *)
Definition is_list (v : json) : bool :=
  match v with JList _ => true | _ => false end.

Module Dict.

(** [d.get(k)] as an option. *)
Fixpoint get (d : dict) (k : string) : option json :=
  match d with
  | [] => None
  | (k', v) :: r => if k' =? k then Some v else get r k
  end.

(** [k in d] *)
Definition mem (k : string) (d : dict) : bool :=
  match get d k with Some _ => true | None => false end.

(** [d[k] = v]: an existing key keeps its position, a new key goes last. *)
Fixpoint set (d : dict) (k : string) (v : json) : dict :=
  match d with
  | [] => [(k, v)]
  | (k', v') :: r => if k' =? k then (k, v) :: r else (k', v') :: set r k v
  end.

(** [d.setdefault(k, v)] *)
Definition setdefault (d : dict) (k : string) (v : json) : dict :=
  if mem k d then d else set d k v.

Fixpoint items_from (seen : list string) (d : dict) : dict :=
  match d with
  | [] => []
  | (k, v) :: r =>
      if existsb (String.eqb k) seen then items_from seen r
      else (k, v) :: items_from (k :: seen) r
  end.

(** [d.items()]: every key once, in insertion order. *)
Definition items (d : dict) : dict := items_from [] d.

End Dict.

(** ** Exceptions and outcomes *)

Inductive exn : Type :=
| TokenError (msg : string)
| DataReadError (msg : json)
| JSONReadError (msg : string)
| NotFoundError
| EndPointError (msg : string)
| AttributeError
| IndexError
| KeyError
| TypeError
| ValueError (msg : string).

(** [Stalled] is not a Python outcome: the scripted service has no response
    left for a request the code has just issued. *)
Inductive outcome (A : Type) : Type :=
| Return (a : A)
| Raise (e : exn)
| Stalled.
Arguments Return {A} a.
Arguments Raise {A} e.
Arguments Stalled {A}.

(** ** HTTP messages *)

Inductive pyfloat : Type :=
| Finite (q : Q)
| Infinite (negative : bool)
| NaN.

Definition float_truthy (f : pyfloat) : bool :=
  match f with
  | Finite q => negb (Qeq_bool q 0%Q)
  | _ => true
  end.

(** The callables in the verb table of [_perform_request]. *)
Inductive transport : Type :=
| session_get | requests_patch | requests_post | session_put | session_delete.

Inductive payload : Type :=
| params_kw (p : dict)        (* params=params *)
| data_kw (body : string).    (* data=json.dumps(params) *)

Record request : Type := mkRequest {
  rq_via : transport;
  rq_url : string;
  rq_headers : list (string * string);
  rq_payload : payload;
  rq_timeout : option pyfloat
}.

(** A response as the code observes it: [json] is what [req.json()] gives,
    [inl msg] when decoding raises [ValueError(msg)]. *)
Record response : Type := mkResponse {
  status_code : Z;
  headers : list (string * string);
  json_body : string + json
}.

(** [requests.Response.ok]: [raise_for_status] raises for 400..599 only. *)
Definition ok (r : response) : bool :=
  negb ((400 <=? status_code r)%Z && (status_code r <? 600)%Z).

Definition lower_ascii (c : ascii) : ascii :=
  let n := nat_of_ascii c in
  if (65 <=? n)%nat && (n <=? 90)%nat then ascii_of_nat (n + 32) else c.

Fixpoint lower (s : string) : string :=
  match s with
  | EmptyString => EmptyString
  | String c r => String (lower_ascii c) (lower r)
  end.

(** [headers.get(name, None)] on the case-insensitive header mapping. *)
Fixpoint header_get (h : list (string * string)) (name : string) : option string :=
  match h with
  | [] => None
  | (k, v) :: r => if lower k =? lower name then Some v else header_get r name
  end.

(** ** The session object and its surroundings *)

Record ParseResult : Type := mkParseResult {
  scheme : string;
  netloc : string;
  path : string
}.

(** What the code takes from [urllib.parse], [json], the package metadata
    and [float]. *)
Class PyLib : Type := {
  urlparse : string -> ParseResult;
  urljoin : string -> string -> string;
  parse_qs : string -> list (string * list string);
  json_dumps : dict -> string;
  float : string -> option pyfloat;
  version : string;
  requests_version : string
}.

Record environ : Type := mkEnviron {
  DIGITALOCEAN_ACCESS_TOKEN : option string;
  DIGITALOCEAN_END_POINT : option string;
  PYTHON_DIGITALOCEAN_REQUEST_TIMEOUT_SEC : option string
}.

(** An instance attribute that has not been assigned yet is [None]. *)
Record Requester : Type := mkRequester {
  tokens : list string;
  _last_used : nat;
  end_point : string;
  ratelimit_limit : option (option string);
  ratelimit_remaining : option (option string);
  ratelimit_reset : option (option string)
}.

(** The world a call runs in: the session object, the mapping object that
    [get_data] knows as [params] (the caller's own mapping when one was
    supplied), the process environment, the responses the service will give,
    the requests issued so far (newest last) and the number of times the
    [token] property has been read. *)
Record world : Type := mkWorld {
  self : Requester;
  params : dict;
  os_environ : environ;
  network : list response;
  sent : list request;
  token_reads : nat
}.

Definition M (A : Type) : Type := world -> outcome A * world.

Definition ret {A} (a : A) : M A := fun w => (Return a, w).
Definition raise {A} (e : exn) : M A := fun w => (Raise e, w).
Definition bind {A B} (m : M A) (f : A -> M B) : M B :=
  fun w =>
    match m w with
    | (Return a, w') => f a w'
    | (Raise e, w') => (Raise e, w')
    | (Stalled, w') => (Stalled, w')
    end.

Declare Scope py_scope.
Delimit Scope py_scope with py.
Notation "x <- m ;; k" := (bind m (fun x => k))
  (at level 61, m at next level, right associativity) : py_scope.
Notation "m ;;; k" := (bind m (fun _ => k))
  (at level 61, right associativity) : py_scope.
Open Scope py_scope.

(** Lifting of a pure step that may raise. *)
Definition lift {A} (r : exn + A) : M A :=
  match r with inl e => raise e | inr a => ret a end.

Definition set_self (r : Requester) : M unit :=
  fun w => (Return tt, mkWorld r (params w) (os_environ w) (network w) (sent w) (token_reads w)).

Definition set_params (p : dict) : M unit :=
  fun w => (Return tt, mkWorld (self w) p (os_environ w) (network w) (sent w) (token_reads w)).

Definition get_self : M Requester := fun w => (Return (self w), w).
Definition get_params : M dict := fun w => (Return (params w), w).
Definition get_environ : M environ := fun w => (Return (os_environ w), w).

Definition count_token_read : M unit :=
  fun w => (Return tt, mkWorld (self w) (params w) (os_environ w) (network w) (sent w) (S (token_reads w))).

(** The call of a [requests] method: the request is recorded and the next
    scripted response comes back. *)
Definition send (rq : request) : M response :=
  fun w =>
    match network w with
    | [] => (Stalled, mkWorld (self w) (params w) (os_environ w) [] (sent w ++ [rq]) (token_reads w))
    | r :: rest => (Return r, mkWorld (self w) (params w) (os_environ w) rest (sent w ++ [rq]) (token_reads w))
    end.

(** ** Python operations on decoded values *)

(** [obj.get(key, default)]; only a mapping has the method. *)
Definition py_get (obj : json) (key : string) (default : json) : exn + json :=
  match obj with
  | JDict d => inr (match Dict.get d key with Some v => v | None => default end)
  | _ => inl AttributeError
  end.

(** [obj.items()] *)
Definition py_items (obj : json) : exn + dict :=
  match obj with
  | JDict d => inr (Dict.items d)
  | _ => inl AttributeError
  end.

Fixpoint prefix_of (p s : string) : bool :=
  match p, s with
  | EmptyString, _ => true
  | String a p', String b s' => Ascii.eqb a b && prefix_of p' s'
  | String _ _, EmptyString => false
  end.

Fixpoint infix_of (p s : string) : bool :=
  prefix_of p s ||
  match s with
  | EmptyString => false
  | String _ s' => infix_of p s'
  end.

(** [m in obj] for a string [m]. *)
Definition py_contains (m : string) (obj : json) : exn + bool :=
  match obj with
  | JDict d => inr (Dict.mem m d)
  | JList l => inr (existsb (fun v => match v with JStr s => s =? m | _ => false end) l)
  | JStr s => inr (infix_of m s)
  | _ => inl TypeError
  end.

(** [obj[m]] for a string [m]. *)
Definition py_getitem (obj : json) (m : string) : exn + json :=
  match obj with
  | JDict d => match Dict.get d m with Some v => inr v | None => inl KeyError end
  | _ => inl TypeError
  end.

(** [s.split("?", 1)] unpacked into two names. *)
Fixpoint split_once (s : string) : option (string * string) :=
  match s with
  | EmptyString => None
  | String c r =>
      if Ascii.eqb c "?"%char then Some (EmptyString, r)
      else match split_once r with
           | Some (a, b) => Some (String c a, b)
           | None => None
           end
  end.

(** [url, query = nxt.split("?", 1)] *)
Definition split_next (nxt : json) : exn + (string * string) :=
  match nxt with
  | JStr s =>
      match split_once s with
      | Some uq => inr uq
      | None => inl (ValueError "not enough values to unpack (expected 2, got 1)")
      end
  | _ => inl AttributeError
  end.

(** [data.get("links", {}).get("pages", {}).get("next")] *)
Definition next_link (data : json) : exn + json :=
  match py_get data "links" (JDict []) with
  | inl e => inl e
  | inr links =>
      match py_get links "pages" (JDict []) with
      | inl e => inl e
      | inr pages => py_get pages "next" JNull
      end
  end.

(** [[data[m] for m in ("id", "message") if m in data]] *)
Fixpoint error_fields (data : json) (names : list string) : exn + list json :=
  match names with
  | [] => inr []
  | m :: rest =>
      match py_contains m data with
      | inl e => inl e
      | inr false => error_fields data rest
      | inr true =>
          match py_getitem data m with
          | inl e => inl e
          | inr v =>
              match error_fields data rest with
              | inl e => inl e
              | inr vs => inr (v :: vs)
              end
          end
      end
  end.

(** [[...][1]] *)
Definition error_message (data : json) : exn + json :=
  match error_fields data ["id"; "message"] with
  | inl e => inl e
  | inr vs =>
      match nth_error vs 1 with
      | Some v => inr v
      | None => inl IndexError
      end
  end.

(** The body of the merge loop of [_deal_with_pagination] for one item. *)
Definition merge_item (all_data : json) (kv : string * json) : exn + json :=
  let (key, value) := kv in
  match all_data with
  | JDict d =>
      if is_list value && Dict.mem key d then
        (* all_data[key] += value *)
        match Dict.get d key, value with
        | Some (JList old), JList new => inr (JDict (Dict.set d key (JList (old ++ new))))
        | _, _ => inl TypeError
        end
      else inr (JDict (Dict.set d key value))
  | _ => inl TypeError
  end.

Fixpoint merge_items (all_data : json) (its : dict) : exn + json :=
  match its with
  | [] => inr all_data
  | kv :: rest =>
      match merge_item all_data kv with
      | inl e => inl e
      | inr all_data' => merge_items all_data' rest
      end
  end.

(** [for key, value in parse_qs(query).items(): params[key] = value] *)
Definition merge_query (p : dict) (qs : list (string * list string)) : dict :=
  fold_left (fun acc kv => Dict.set acc (fst kv) (JList (map JStr (snd kv)))) qs p.

(** ** The class [Requester] *)

Definition GET := "GET".
Definition POST := "POST".
Definition DELETE := "DELETE".
Definition PUT := "PUT".
Definition PATCH := "PATCH".

(** The value given to the [token] setter. *)
Inductive token_arg : Type :=
| TokStr (s : string)
| TokList (l : list string).

Definition token_arg_truthy (t : token_arg) : bool :=
  match t with
  | TokStr s => negb (s =? "")
  | TokList l => negb (Nat.eqb (length l) 0)
  end.

(** The [token] setter, on the object. *)
Definition assign_token (t : token_arg) (r : Requester) : Requester :=
  mkRequester
    (match t with TokList l => l | TokStr s => [s] end)
    0
    (end_point r) (ratelimit_limit r) (ratelimit_remaining r) (ratelimit_reset r).

(** The [token] getter, on the object: the token read and the object after
    the read. *)
Definition read_token (r : Requester) : string * Requester :=
  match tokens r with
  | [] => ("", r)
  | _ :: _ =>
      let i := (_last_used r + 1) mod length (tokens r) in
      (nth i (tokens r) "",
       mkRequester (tokens r) i (end_point r)
         (ratelimit_limit r) (ratelimit_remaining r) (ratelimit_reset r))
  end.

(** [self.token = t] *)
Definition token_setter (t : token_arg) : M unit :=
  r <- get_self ;; set_self (assign_token t r).

(** [self.token] *)
Definition token : M string :=
  r <- get_self ;;
  count_token_read ;;;
  set_self (snd (read_token r)) ;;;
  ret (fst (read_token r)).

(** [__init_ratelimit] *)
Definition __init_ratelimit (h : list (string * string)) : M unit :=
  r <- get_self ;;
  set_self (mkRequester (tokens r) (_last_used r) (end_point r)
              (Some (header_get h "Ratelimit-Limit"))
              (Some (header_get h "Ratelimit-Remaining"))
              (Some (header_get h "Ratelimit-Reset"))).

(** [end_point or os.getenv("DIGITALOCEAN_END_POINT", default)]: the end
    point the constructor keeps and parses. *)
Definition effective_end_point (env : environ) (end_point_opt : option string) : string :=
  let default_ep :=
    match DIGITALOCEAN_END_POINT env with
    | Some s => s
    | None => "https://api.digitalocean.com/v2/"
    end in
  match end_point_opt with
  | Some s => if negb (s =? "") then s else default_ep
  | None => default_ep
  end.

Section WithLibrary.

Context {L : PyLib}.

(** [Requester.__init__]; the class attributes give [tokens] and
    [_last_used] their values before the setter runs. *)
Definition Requester_init (env : environ)
    (token_opt : option token_arg) (end_point_opt : option string)
    : exn + Requester :=
  let tok :=
    match token_opt with
    | Some t => if token_arg_truthy t then t
                else TokStr (match DIGITALOCEAN_ACCESS_TOKEN env with Some s => s | None => "" end)
    | None => TokStr (match DIGITALOCEAN_ACCESS_TOKEN env with Some s => s | None => "" end)
    end in
  let ep := effective_end_point env end_point_opt in
  let r := assign_token tok (mkRequester [] 0 ep None None None) in
  let parsed_url := urlparse ep in
  if (scheme parsed_url =? "") || (netloc parsed_url =? "") then
    inl (EndPointError "Provided end point is not a valid URL. Please use a valid URL")
  else if path parsed_url =? "" then
    inr (mkRequester (tokens r) (_last_used r) (ep ++ "/")%string None None None)
  else inr r.

(** [get_timeout]; the error log line is not modelled. *)
Definition get_timeout : M (option pyfloat) :=
  env <- get_environ ;;
  match PYTHON_DIGITALOCEAN_REQUEST_TIMEOUT_SEC env with
  | Some timeout_str => if negb (timeout_str =? "") then ret (float timeout_str) else ret None
  | None => ret None
  end.

(** The verb table of [_perform_request]. *)
Definition lookup (type : string) (p : dict)
    : option (transport * list (string * string) * payload) :=
  if type =? GET then Some (session_get, [("Content-type", "application/json")], params_kw p)
  else if type =? PATCH then Some (requests_patch, [("Content-type", "application/json")], data_kw (json_dumps p))
  else if type =? POST then Some (requests_post, [("Content-type", "application/json")], data_kw (json_dumps p))
  else if type =? PUT then Some (session_put, [("Content-type", "application/json")], data_kw (json_dumps p))
  else if type =? DELETE then Some (session_delete, [("content-type", "application/json")], data_kw (json_dumps p))
  else None.

Definition agent : string :=
  ("python-digitalocean" ++ "/" ++ version ++ " " ++ "requests" ++ "/" ++ requests_version)%string.

(** [_perform_request]; the debug log line is not modelled. *)
Definition _perform_request (url : string) (type : string) (params_opt : option dict)
    : M response :=
  let p := match params_opt with Some p => p | None => [] end in
  t <- token ;;
  if t =? "" then raise (TokenError "No token provided. Please use a valid token")
  else
    r <- get_self ;;
    let url := urljoin (end_point r) url in
    match lookup type p with
    | None => raise KeyError
    | Some (requests_method, hdrs, pl) =>
        t <- token ;;
        let hdrs := hdrs ++ [("Authorization", ("Bearer " ++ t)%string); ("User-Agent", agent)] in
        timeout <- get_timeout ;;
        let timeout_kw :=
          match timeout with
          | Some f => if float_truthy f then Some f else None
          | None => None
          end in
        send (mkRequest requests_method url hdrs pl timeout_kw)
    end.

(** The loop of [_deal_with_pagination].  Every turn consumes a scripted
    response, so the length of the script bounds the number of turns. *)
Fixpoint pagination_loop (fuel : nat) (url method : string) (all_data data : json)
    : M json :=
  match fuel with
  | O => fun w => (Stalled, w)
  | S fuel' =>
      nxt <- lift (next_link data) ;;
      if truthy nxt then
        uq <- lift (split_next nxt) ;;
        p <- get_params ;;
        set_params (merge_query p (parse_qs (snd uq))) ;;;
        p <- get_params ;;
        resp <- _perform_request (fst uq) method (Some p) ;;
        data' <- match json_body resp with
                 | inl msg => raise (ValueError msg)
                 | inr d => ret d
                 end ;;
        its <- lift (py_items data') ;;
        all_data' <- lift (merge_items all_data its) ;;
        pagination_loop fuel' (fst uq) method all_data' data'
      else ret all_data
  end.

Definition _deal_with_pagination (url method : string) (data : json) : M json :=
  fun w => pagination_loop (S (length (network w))) url method data data w.

(** [get_data]. [type is GET] is taken as equality of the verb names. *)
Definition get_data (url : string) (type : string) (params_opt : option dict) : M json :=
  set_params (match params_opt with Some p => p | None => [] end) ;;;
  (if type =? GET then
     p <- get_params ;; set_params (Dict.setdefault p "per_page" (JNum 200))
   else ret tt) ;;;
  p <- get_params ;;
  req <- _perform_request url type (Some p) ;;
  if (status_code req =? 204)%Z then ret (JBool true)
  else if (status_code req =? 404)%Z then raise NotFoundError
  else
    match json_body req with
    | inl msg => raise (JSONReadError ("Read failed from DigitalOcean: " ++ msg)%string)
    | inr data =>
        (if negb (ok req) then
           msg <- lift (error_message data) ;; raise (DataReadError msg)
         else ret tt) ;;;
        __init_ratelimit (headers req) ;;;
        links <- lift (py_get data "links" (JDict [])) ;;
        pages <- lift (py_get links "pages" (JDict [])) ;;
        nxt <- lift (py_get pages "next" JNull) ;;
        p <- get_params ;;
        if truthy nxt && negb (Dict.mem "page" p) then
          _deal_with_pagination url type data
        else ret data
    end.

End WithLibrary.

(** ** Notions used in the statements *)

(** [n] successive reads of the [token] property. *)
Fixpoint read_tokens (n : nat) (r : Requester) : list string * Requester :=
  match n with
  | O => ([], r)
  | S n' =>
      let (t, r1) := read_token r in
      let (ts, r2) := read_tokens n' r1 in
      (t :: ts, r2)
  end.

(** The session object once a request has gone out: the [token] property
    has been read twice. *)
Definition after_request (r : Requester) : Requester :=
  snd (read_token (snd (read_token r))).

(** The session can send: it holds tokens and none of them is empty. *)
Definition usable (r : Requester) : Prop :=
  tokens r <> [] /\ Forall (fun t => t <> "") (tokens r).

(** The verbs of the table in [_perform_request]. *)
Definition verbs : list string := [GET; PATCH; POST; PUT; DELETE].

(** The [Authorization] header a request carries. *)
Definition authorization (rq : request) : option string :=
  header_get (rq_headers rq) "Authorization".

(** Calls of [_perform_request] one after the other, whatever the outcome
    of each. *)
Fixpoint perform_requests {L : PyLib}
    (calls : list (string * string * option dict)) (w : world) : world :=
  match calls with
  | [] => w
  | (url, type, p) :: rest =>
      perform_requests rest (snd (_perform_request url type p w))
  end.

(** The world with the session object and the read counter replaced. *)
Definition with_self (r : Requester) (reads : nat) (w : world) : world :=
  mkWorld r (params w) (os_environ w) (network w) (sent w) reads.

(** The world with the [params] mapping replaced. *)
Definition with_params (p : dict) (w : world) : world :=
  mkWorld (self w) p (os_environ w) (network w) (sent w) (token_reads w).

(** The session object after [__init_ratelimit]. *)
Definition with_ratelimit (h : list (string * string)) (r : Requester) : Requester :=
  mkRequester (tokens r) (_last_used r) (end_point r)
    (Some (header_get h "Ratelimit-Limit"))
    (Some (header_get h "Ratelimit-Remaining"))
    (Some (header_get h "Ratelimit-Reset")).

(** The world after [__init_ratelimit]. *)
Definition record_ratelimit (h : list (string * string)) (w : world) : world :=
  mkWorld (with_ratelimit h (self w)) (params w) (os_environ w) (network w)
    (sent w) (token_reads w).

(** The three rate-limit attributes of a session. *)
Definition ratelimit (r : Requester)
    : option (option string) * option (option string) * option (option string) :=
  (ratelimit_limit r, ratelimit_remaining r, ratelimit_reset r).

(** The mapping [get_data] sends with its first request. *)
Definition first_params (type : string) (po : option dict) : dict :=
  let p := match po with Some p => p | None => [] end in
  if type =? GET then Dict.setdefault p "per_page" (JNum 200) else p.

(** The part of [get_data] that follows the first request. *)
Definition after_first_response {L : PyLib} (url type : string) (req : response) : M json :=
  if (status_code req =? 204)%Z then ret (JBool true)
  else if (status_code req =? 404)%Z then raise NotFoundError
  else
    match json_body req with
    | inl msg => raise (JSONReadError ("Read failed from DigitalOcean: " ++ msg)%string)
    | inr data =>
        (if negb (ok req) then
           msg <- lift (error_message data) ;; raise (DataReadError msg)
         else ret tt) ;;;
        __init_ratelimit (headers req) ;;;
        links <- lift (py_get data "links" (JDict [])) ;;
        pages <- lift (py_get links "pages" (JDict [])) ;;
        nxt <- lift (py_get pages "next" JNull) ;;
        p <- get_params ;;
        if truthy nxt && negb (Dict.mem "page" p) then
          _deal_with_pagination url type data
        else ret data
    end.

(** No list-valued field of [later] meets a value of [earlier] that is not
    a list. *)
Definition list_fields_agree (earlier later : dict) : bool :=
  forallb (fun kv =>
             match snd kv, Dict.get earlier (fst kv) with
             | JList _, Some v => is_list v
             | _, _ => true
             end) later.

(** What the merge leaves under a key, given what the accumulator and the
    page hold there. *)
Definition merged (acc page : option json) : option json :=
  match page with
  | None => acc
  | Some (JList new) =>
      match acc with
      | Some (JList old) => Some (JList (old ++ new))
      | _ => page
      end
  | Some _ => page
  end.

(** The mapping after the parameters of the queries [queries] have been
    written into it, one query after the other. *)
Definition written {L : PyLib} (queries : list string) (p : dict) : dict :=
  fold_left (fun acc q => merge_query acc (parse_qs q)) queries p.

(** A computation whose only effect on [params] is to write queries. *)
Definition writes_queries {L : PyLib} {A : Type} (m : M A) : Prop :=
  forall w, exists queries, params (snd (m w)) = written queries (params w).

(** ** A library instance and worlds for concrete runs

    [urlparse] knows the default end point and takes anything else for a
    path, as it does a bare host name; [parse_qs] knows the queries of the
    pages below. *)

Definition run_urlparse (u : string) : ParseResult :=
  if u =? "https://api.digitalocean.com/v2/" then
    mkParseResult "https" "api.digitalocean.com" "/v2/"
  else mkParseResult "" "" u.

Definition run_parse_qs (q : string) : list (string * list string) :=
  if q =? "page=2&per_page=200" then [("page", ["2"]); ("per_page", ["200"])]
  else if q =? "page=3&per_page=200" then [("page", ["3"]); ("per_page", ["200"])]
  else [].

Definition run_lib : PyLib := {|
  urlparse := run_urlparse;
  urljoin := fun base url => (base ++ url)%string;
  parse_qs := run_parse_qs;
  json_dumps := fun _ => "{}";
  float := fun _ => None;
  version := "1.17.0";
  requests_version := "2.31.0"
|}.

Definition no_environ : environ := mkEnviron None None None.

(** A session holding [toks], as the setter leaves it. *)
Definition session_with (toks : list string) : Requester :=
  assign_token (TokList toks)
    (mkRequester [] 0 "https://api.digitalocean.com/v2/" None None None).

Definition world_of (r : Requester) (net : list response) : world :=
  mkWorld r [] no_environ net [] 0.

Definition one_token_world (net : list response) : world :=
  world_of (session_with ["dop_v1_secret"]) net.

Definition rate_headers (remaining : string) : list (string * string) :=
  [("Content-Type", "application/json");
   ("Ratelimit-Limit", "5000");
   ("Ratelimit-Remaining", remaining);
   ("Ratelimit-Reset", "1700000000")].

(** A plain successful response with an empty mapping as its body. *)
Definition empty_page : response := mkResponse 200 [] (inr (JDict [])).

Definition no_content : response :=
  mkResponse 204 (rate_headers "4999") (inl "Expecting value: line 1 column 1 (char 0)").

Definition page_response (remaining : string) (page : dict) : response :=
  mkResponse 200 (rate_headers remaining) (inr (JDict page)).

Definition error_response (status : Z) (body : dict) : response :=
  mkResponse status (rate_headers "4990") (inr (JDict body)).

Definition links_to (nxt : string) : json :=
  JDict [("pages", JDict [("next", JStr nxt)])].

Definition droplets_page_1 : dict :=
  [("droplets", JList [JNum 1; JNum 2]);
   ("links", links_to "https://api.digitalocean.com/v2/droplets?page=2&per_page=200");
   ("meta", JDict [("total", JNum 5)]);
   ("page", JNum 1)].

Definition droplets_page_2 : dict :=
  [("droplets", JList [JNum 3; JNum 4]);
   ("links", links_to "https://api.digitalocean.com/v2/droplets?page=3&per_page=200");
   ("meta", JDict [("total", JNum 5)]);
   ("page", JNum 2)].

Definition droplets_page_3 : dict :=
  [("droplets", JList [JNum 5]);
   ("links",
    JDict [("pages",
            JDict [("prev", JStr "https://api.digitalocean.com/v2/droplets?page=2&per_page=200")])]);
   ("meta", JDict [("total", JNum 5)]);
   ("page", JNum 3)].

Definition account_page : dict := [("account", JDict [("droplet_limit", JNum 25)])].

Definition not_found_body : dict :=
  [("id", JStr "not_found");
   ("message", JStr "The resource you were accessing could not be found.")].

Definition page_one_params : dict := [("page", JNum 1)].

Definition tag_params : dict := [("tag_name", JStr "web")].

Definition two_pages_world : world :=
  one_token_world [page_response "4998" droplets_page_1;
                   page_response "4997" droplets_page_2].

Definition three_pages_world : world :=
  one_token_world [page_response "4998" droplets_page_1;
                   page_response "4997" droplets_page_2;
                   page_response "4996" droplets_page_3].

(** A successful read followed by a deletion answered with 204. *)
Definition read_then_delete_world : world :=
  one_token_world [page_response "4998" account_page;
                   mkResponse 204 (rate_headers "4997") (inl "Expecting value")].

(** ** Notions used in the further properties *)

(** The first response sends [get_data] into the pagination walk, given the
    mapping the request was sent with. *)
Definition enters_walk (req : response) (p : dict) : bool :=
  negb (status_code req =? 204)%Z && negb (status_code req =? 404)%Z &&
  match json_body req with
  | inl _ => false
  | inr data =>
      ok req &&
      match next_link data with
      | inl _ => false
      | inr nxt => truthy nxt && negb (Dict.mem "page" p)
      end
  end.

(** Two scripts whose responses have, one by one, the same decoded body (or
    the same decoding failure); status and headers may differ. *)
Definition same_bodies (rs rs' : list response) : Prop :=
  Forall2 (fun a b => json_body a = json_body b) rs rs'.

(** Two worlds that differ at most in the status and headers of the
    responses to come (and in their records of what was sent and read). *)
Definition alike (w w' : world) : Prop :=
  self w = self w' /\ params w = params w' /\ os_environ w = os_environ w' /\
  same_bodies (network w) (network w').

(** Two runs that end alike: the same exception, or results related by [R],
    in worlds that are alike. *)
Definition related {A : Type} (R : A -> A -> Prop) (x y : outcome A * world) : Prop :=
  alike (snd x) (snd y) /\
  match fst x, fst y with
  | Return a, Return b => R a b
  | Raise e, Raise e' => e = e'
  | Stalled, Stalled => True
  | _, _ => False
  end.

(** The page has a next link the walk can follow: a string with a query
    part. *)
Definition followable (page : dict) : bool :=
  match next_link (JDict page) with
  | inr (JStr s) => match split_once s with Some _ => true | None => false end
  | _ => false
  end.

(** The page ends the walk: its next link is missing or falsy. *)
Definition last_page (page : dict) : bool :=
  match next_link (JDict page) with
  | inr nxt => negb (truthy nxt)
  | inl _ => false
  end.

(** Pages that lead from one to the next, the last one ending the walk. *)
Fixpoint chained (page : dict) (later : list dict) : bool :=
  match later with
  | [] => last_page page
  | p :: rest => followable page && chained p rest
  end.

(** No page brings a list under a key where an earlier page holds a value
    that is not a list. *)
Fixpoint lists_agree (pages : list dict) : bool :=
  match pages with
  | [] => true
  | p :: rest => forallb (list_fields_agree p) rest && lists_agree rest
  end.

(** What the walk leaves under a key after the pages [later] have been
    merged, in order, into an accumulator that held [acc] there. *)
Definition merged_over (k : string) (acc : option json) (later : list dict) : option json :=
  fold_left (fun a p => merged a (Dict.get p k)) later acc.

(** ** The resource wrappers: [BaseAPI] and [Balance]

    An instance is its attribute dictionary.  Its values are decoded JSON
    values (the constructor's keyword arguments and the fields of a
    response), the logger, or the session object of the world, which the
    instance shares with its caller.

    Where Python would store a value the typed session cannot hold (a token
    that is neither a string nor a list of strings, a replacement for the
    HTTP session object, an end point that is not a string), the model
    stops: the computation is [None]. *)

Inductive pyval : Type :=
| VJson (j : json)
| VRequester
| VLogger.

Definition instance := list (string * pyval).

Module Attrs.

Fixpoint get (d : instance) (k : string) : option pyval :=
  match d with
  | [] => None
  | (k', v) :: r => if k' =? k then Some v else get r k
  end.

Fixpoint set (d : instance) (k : string) (v : pyval) : instance :=
  match d with
  | [] => [(k, v)]
  | (k', v') :: r => if k' =? k then (k, v) :: r else (k', v') :: set r k v
  end.

End Attrs.

Record api_state : Type := mkApi {
  session_world : world;
  attrs : instance
}.

Definition API (A : Type) : Type := api_state -> option (outcome A * api_state).

Definition api_ret {A} (a : A) : API A := fun s => Some (Return a, s).
Definition api_raise {A} (e : exn) : API A := fun s => Some (Raise e, s).
Definition untyped {A} : API A := fun _ => None.
Definition api_bind {A B} (m : API A) (f : A -> API B) : API B :=
  fun s =>
    match m s with
    | Some (Return a, s') => f a s'
    | Some (Raise e, s') => Some (Raise e, s')
    | Some (Stalled, s') => Some (Stalled, s')
    | None => None
    end.

(** A computation of the session, run on the world of the instance. *)
Definition on_session {A} (m : M A) : API A :=
  fun s =>
    let (o, w) := m (session_world s) in
    Some (o, mkApi w (attrs s)).

Definition set_attr (k : string) (v : pyval) : API unit :=
  fun s => Some (Return tt, mkApi (session_world s) (Attrs.set (attrs s) k v)).

(** The strings of a list of decoded values, when they all are strings. *)
Fixpoint strings_of (l : list json) : option (list string) :=
  match l with
  | [] => Some []
  | JStr s :: r =>
      match strings_of r with Some ss => Some (s :: ss) | None => None end
  | _ :: _ => None
  end.

(** A decoded value as the argument of the [token] setter. *)
Definition setter_arg (v : json) : option token_arg :=
  match v with
  | JStr s => Some (TokStr s)
  | JList l => match strings_of l with Some ss => Some (TokList ss) | None => None end
  | _ => None
  end.

(** The [token] argument of the constructor: a missing or falsy value is
    replaced by the environment's token there, whatever its type. *)
Definition constructor_token (v : option json) : option (option token_arg) :=
  match v with
  | None => Some None
  | Some j =>
      if truthy j then
        match setter_arg j with Some t => Some (Some t) | None => None end
      else Some None
  end.

(** The [end_point] argument of the constructor. *)
Definition constructor_end_point (v : option json) : option (option string) :=
  match v with
  | None => Some None
  | Some j =>
      if truthy j then match j with JStr s => Some (Some s) | _ => None end
      else Some None
  end.

(** [config.pop(k, None)]: the value and the mapping without the key. *)
Definition pop (config : dict) (k : string) : option json * dict :=
  (Dict.get config k, filter (fun kv => negb (fst kv =? k)) config).

(** [Requester.create]: the session, or the exception of its constructor,
    and what is left of [config]. *)
Definition Requester_create {L : PyLib} (env : environ) (config : dict)
    : option ((exn + Requester) * dict) :=
  let (tok, c1) := pop config "token" in
  let (ep, c2) := pop c1 "end_point" in
  match constructor_token tok, constructor_end_point ep with
  | Some t, Some e => Some (Requester_init env t e, c2)
  | _, _ => None
  end.

Module BaseAPI.

(** [self._requester.<name> = value] for a name the [Requester] takes. *)
Definition set_on_requester (name : string) (v : json) : API unit :=
  fun s =>
    match Attrs.get (attrs s) "_requester" with
    | None => Some (Raise AttributeError, s)
    | Some (VJson _) => Some (Raise AttributeError, s)
    | Some VLogger => Some (Return tt, s)
    | Some VRequester =>
        if name =? "token" then
          match setter_arg v with
          | Some t => on_session (token_setter t) s
          | None => None
          end
        else None
    end.

(** [setattr(self, name, value)] on an instance of [BaseAPI] or of a class
    derived from it, for a decoded value. *)
Definition setattr (name : string) (v : json) : API unit :=
  if name =? "end_point" then api_raise AttributeError
  else if name =? "token" then set_on_requester "token" v
  else if name =? "_session" then set_on_requester "_session" v
  else if name =? "__class__" then api_raise TypeError
  else if name =? "__weakref__" then api_raise AttributeError
  else if name =? "__dict__" then
    match v with
    | JDict d =>
        fun s => Some (Return tt,
                       mkApi (session_world s)
                         (map (fun kv => (fst kv, VJson (snd kv))) (Dict.items d)))
    | _ => api_raise TypeError
    end
  else set_attr name (VJson v).

(** [for attr in d.keys(): setattr(self, attr, d[attr])] *)
Fixpoint setattr_all (its : dict) : API unit :=
  match its with
  | [] => api_ret tt
  | (k, v) :: rest => api_bind (setattr k v) (fun _ => setattr_all rest)
  end.

(** [BaseAPI.__init__]; [given] says that a session was passed as
    [requester]: it is the session of the world.  Otherwise the session that
    [Requester.create] builds becomes the session of the world. *)
Definition init {L : PyLib} (given : bool) (kwargs : dict) : API unit :=
  api_bind (set_attr "_log" VLogger) (fun _ =>
  if given then
    api_bind (set_attr "_requester" VRequester) (fun _ =>
    setattr_all (Dict.items kwargs))
  else
    fun s =>
      match Requester_create (os_environ (session_world s)) kwargs with
      | None => None
      | Some (inl e, _) => Some (Raise e, s)
      | Some (inr r, kwargs') =>
          api_bind (on_session (set_self r)) (fun _ =>
          api_bind (set_attr "_requester" VRequester) (fun _ =>
          setattr_all (Dict.items kwargs'))) s
      end).

(** [self._requester.get_data(url, type, params)] *)
Definition get_data {L : PyLib} (url type : string) (po : option dict) : API json :=
  fun s =>
    match Attrs.get (attrs s) "_requester" with
    | Some VRequester => on_session (get_data url type po) s
    | _ => Some (Raise AttributeError, s)
    end.

(** The [token] property read through the wrapper. *)
Definition token : API string :=
  fun s =>
    match Attrs.get (attrs s) "_requester" with
    | Some VRequester => on_session token s
    | _ => Some (Raise AttributeError, s)
    end.

End BaseAPI.

Module Balance.

(** [Balance.__init__] on a new instance. *)
Definition init {L : PyLib} (given : bool) (kwargs : dict) : API unit :=
  api_bind (set_attr "month_to_date_balance" (VJson JNull)) (fun _ =>
  api_bind (set_attr "account_balance" (VJson JNull)) (fun _ =>
  api_bind (set_attr "month_to_date_usage" (VJson JNull)) (fun _ =>
  api_bind (set_attr "generated_at" (VJson JNull)) (fun _ =>
  BaseAPI.init given kwargs)))).

(** [load]: [self.get_data] is looked up on the instance first, where a
    field of an earlier response may have shadowed the method. *)
Definition load {L : PyLib} : API unit :=
  fun s =>
    match Attrs.get (attrs s) "get_data" with
    | Some _ => Some (Raise TypeError, s)
    | None =>
        api_bind (BaseAPI.get_data "customers/my/balance" GET None) (fun balance =>
        match balance with
        | JDict d => BaseAPI.setattr_all (Dict.items d)
        | _ => api_raise AttributeError
        end) s
    end.

(** The call [acct.load()] on an instance: the name is looked up on the
    instance first, where a field of an earlier response may have been
    stored under it, and a stored value cannot be called. *)
Definition call_load {L : PyLib} : API unit :=
  fun s =>
    match Attrs.get (attrs s) "load" with
    | Some _ => Some (Raise TypeError, s)
    | None => load s
    end.

(** [get_object]: a new instance, loaded. *)
Definition get_object {L : PyLib} (given : bool) : API unit :=
  fun s =>
    api_bind (init given []) (fun _ => load) (mkApi (session_world s) []).

End Balance.

Definition balance_page : dict :=
  [("month_to_date_balance", JStr "23.44");
   ("account_balance", JStr "12.23");
   ("month_to_date_usage", JStr "11.21");
   ("generated_at", JStr "2019-07-09T15:01:12Z")].

(** The names [setattr] stores in the attribute dictionary: every name but
    the three properties of [BaseAPI] and the three attributes every object
    guards. *)
Definition plain_name (name : string) : bool :=
  negb (existsb (String.eqb name)
          ["end_point"; "token"; "_session"; "__class__"; "__weakref__"; "__dict__"]).

(** The attribute dictionary after the fields [its] have been stored. *)
Definition stored (its : dict) (a : instance) : instance :=
  fold_left (fun acc kv => Attrs.set acc (fst kv) (VJson (snd kv))) its a.

(** The attributes of a [Balance] built around a session, before any
    load. *)
Definition new_balance : instance :=
  [("month_to_date_balance", VJson JNull);
   ("account_balance", VJson JNull);
   ("month_to_date_usage", VJson JNull);
   ("generated_at", VJson JNull);
   ("_log", VLogger);
   ("_requester", VRequester)].

(** ** The life of a session

    What a caller does with a session: it performs a request, gets data,
    reads the [token] property or assigns to it, one call after the
    other, whatever the outcome of each. *)
Inductive session_call : Type :=
| CallRequest (url type : string) (params_opt : option dict)
| CallGetData (url type : string) (params_opt : option dict)
| CallReadToken
| CallAssignToken (t : token_arg).

Definition run_call {L : PyLib} (c : session_call) (w : world) : world :=
  match c with
  | CallRequest url type po => snd (_perform_request url type po w)
  | CallGetData url type po => snd (get_data url type po w)
  | CallReadToken => snd (token w)
  | CallAssignToken t => snd (token_setter t w)
  end.

Definition run_calls {L : PyLib} (calls : list session_call) (w : world) : world :=
  fold_left (fun w c => run_call c w) calls w.

(** A computation that leaves the end point as it is and sends its requests
    to addresses joined to it. *)
Definition sends_to_end_point {L : PyLib} {A : Type} (m : M A) : Prop :=
  forall w,
    end_point (self (snd (m w))) = end_point (self w) /\
    exists rqs,
      sent (snd (m w)) = sent w ++ rqs /\
      Forall (fun rq => exists u, rq_url rq = urljoin (end_point (self w)) u) rqs.
(** * Properties *)

(** ** Token rotation *)

Lemma read_token_tokens (r : Requester) : tokens (snd (read_token r)) = tokens r.
Proof. unfold read_token. destruct (tokens r) eqn:E; simpl; auto. Qed.

Lemma read_token_step (r : Requester) :
  tokens r <> [] ->
  read_token r =
  (nth ((_last_used r + 1) mod length (tokens r)) (tokens r) "",
   mkRequester (tokens r) ((_last_used r + 1) mod length (tokens r)) (end_point r)
     (ratelimit_limit r) (ratelimit_remaining r) (ratelimit_reset r)).
Proof.
  intro H. unfold read_token. destruct (tokens r); [congruence | reflexivity].
Qed.

Lemma read_tokens_from (l : list string) :
  l <> [] ->
  forall n r,
    tokens r = l ->
    fst (read_tokens n r) =
    map (fun k => nth ((_last_used r + k) mod length l) l "") (seq 1 n).
Proof.
  intros Hl n. induction n as [|n IH]; intros r Hr; [reflexivity|].
  cbn [read_tokens].
  rewrite read_token_step by congruence. rewrite Hr.
  match goal with
  | |- context [read_tokens n ?r1] =>
      specialize (IH r1 eq_refl); destruct (read_tokens n r1) as [ts r2]
  end.
  cbn [fst _last_used] in IH |- *. subst ts.
  cbn [seq map]. f_equal.
  rewrite <- (seq_shift n 1), map_map.
  apply map_ext; intro k.
  rewrite Nat.Div0.add_mod_idemp_l.
  replace (_last_used r + 1 + k) with (_last_used r + S k) by lia.
  reflexivity.
Qed.

Lemma map_nth_seq_tail (a : string) (l : list string) :
  map (fun k => nth k (a :: l) "") (seq 1 (length l)) = l.
Proof.
  rewrite <- seq_shift, map_map. cbn [nth].
  induction l as [|b l IH]; [reflexivity|].
  cbn [length seq map nth]. f_equal.
  rewrite <- seq_shift, map_map. exact IH.
Qed.

Lemma rotation_by_index (l : list string) :
  map (fun k => nth (k mod length l) l "") (seq 1 (length l)) =
  skipn 1 l ++ firstn 1 l.
Proof.
  destruct l as [|a l]; [reflexivity|].
  cbn [skipn firstn]. set (n := length l).
  change (length (a :: l)) with (S n).
  rewrite seq_S, map_app. cbn [map].
  replace ((1 + n) mod S n) with 0
    by (symmetry; change (1 + n) with (S n); apply Nat.Div0.mod_same).
  cbn [nth]. f_equal.
  transitivity (map (fun k => nth k (a :: l) "") (seq 1 n));
    [| apply map_nth_seq_tail].
  apply map_ext_in; intros k Hk. apply in_seq in Hk.
  rewrite Nat.mod_small by lia. reflexivity.
Qed.

(** The reads that follow an assignment walk the sequence from its second
    token on and come to the first token last. *)
Lemma reads_after_assignment (l : list string) (r : Requester) :
  fst (read_tokens (length l) (assign_token (TokList l) r)) =
  skipn 1 l ++ firstn 1 l.
Proof.
  destruct l as [|a l']; [reflexivity|].
  rewrite (read_tokens_from (a :: l')) by (discriminate || reflexivity).
  cbn [assign_token _last_used Nat.add].
  apply rotation_by_index.
Qed.

(** C4, as stated, fails: after ["a"; "b"] is assigned the first two reads
    are "b" then "a", not "a" then "b". *)
Lemma C4_counterexample :
  fst (read_tokens 2 (session_with ["a"; "b"])) = ["b"; "a"] /\
  fst (read_tokens 2 (session_with ["a"; "b"])) <> ["a"; "b"].
Proof. split; [reflexivity | discriminate]. Qed.

(** C4, amended: for every token sequence [l] of length n assigned through
    the setter, the first n reads of the [token] property return every token
    exactly once, in cyclic insertion order starting from the second token
    and ending with the first; read number k (from 1) is the token at index
    k mod n, so the cycle then repeats. *)
Theorem C4_reads_rotate_from_second_token (l : list string) (r : Requester) :
  fst (read_tokens (length l) (assign_token (TokList l) r)) = skipn 1 l ++ firstn 1 l
  /\ Permutation (fst (read_tokens (length l) (assign_token (TokList l) r))) l
  /\ forall n,
       fst (read_tokens n (assign_token (TokList l) r)) =
       map (fun k => nth (k mod length l) l "") (seq 1 n).
Proof.
  split; [apply reads_after_assignment|]. split.
  - rewrite reads_after_assignment.
    rewrite <- (firstn_skipn 1 l) at 3. apply Permutation_app_comm.
  - intro n. destruct l as [|a l'].
    + clear. generalize 1 as s. 
      induction n as [|n IH]; intro s; [reflexivity|].
      cbn [read_tokens seq map]. unfold read_token at 1. cbn [assign_token tokens].
      specialize (IH (S s)).
      change (mkRequester [] 0 (end_point r) (ratelimit_limit r)
                (ratelimit_remaining r) (ratelimit_reset r))
        with (assign_token (TokList []) r).
      destruct (read_tokens n (assign_token (TokList []) r)) as [ts r2].
      cbn [fst] in *. rewrite IH. f_equal. cbn [length]. 
      destruct (s mod 0); reflexivity.
    + rewrite (read_tokens_from (a :: l')) by (discriminate || reflexivity).
      reflexivity.
Qed.

(** ** Running a computation *)

Lemma bind_Return {A B} (m : M A) (f : A -> M B) (w : world) (a : A) (w' : world) :
  m w = (Return a, w') -> bind m f w = f a w'.
Proof. intro E. unfold bind. rewrite E. reflexivity. Qed.

Lemma bind_Raise {A B} (m : M A) (f : A -> M B) (w : world) (e : exn) (w' : world) :
  m w = (Raise e, w') -> bind m f w = (Raise e, w').
Proof. intro E. unfold bind. rewrite E. reflexivity. Qed.

Lemma bind_Stalled {A B} (m : M A) (f : A -> M B) (w w' : world) :
  m w = (Stalled, w') -> bind m f w = (Stalled, w').
Proof. intro E. unfold bind. rewrite E. reflexivity. Qed.

(** ** One request *)

Section PerformRequest.

Context {L : PyLib}.

Lemma lookup_verb (type : string) (p : dict) :
  In type verbs -> exists m h pl, lookup type p = Some (m, h, pl) /\
    header_get h "Authorization" = None.
Proof.
  unfold verbs. cbn [In].
  intros [<-|[<-|[<-|[<-|[<-|[]]]]]]; cbn; do 3 eexists; split; reflexivity.
Qed.

Lemma lookup_no_authorization (type : string) (p : dict) m h pl :
  lookup type p = Some (m, h, pl) -> header_get h "Authorization" = None.
Proof.
  unfold lookup.
  repeat match goal with
         | |- context [if ?b then _ else _] => destruct b
         end; intro E; inversion E; reflexivity.
Qed.

Lemma token_run (w : world) :
  token w =
  (Return (fst (read_token (self w))),
   with_self (snd (read_token (self w))) (S (token_reads w)) w).
Proof. reflexivity. Qed.

Lemma get_timeout_run (w : world) : exists t, get_timeout w = (Return t, w).
Proof.
  unfold get_timeout, bind, get_environ, ret.
  destruct (PYTHON_DIGITALOCEAN_REQUEST_TIMEOUT_SEC (os_environ w)) as [s|];
    [destruct (negb (s =? ""))|]; eexists; reflexivity.
Qed.

(** The three ways a call of [_perform_request] goes. *)
Lemma perform_request_cases (url type : string) (po : option dict) (w : world) :
  let p := match po with Some p => p | None => [] end in
  let t1 := fst (read_token (self w)) in
  let r1 := snd (read_token (self w)) in
  let t2 := fst (read_token r1) in
  let r2 := snd (read_token r1) in
  (t1 = "" /\
   _perform_request url type po w =
     (Raise (TokenError "No token provided. Please use a valid token"),
      with_self r1 (S (token_reads w)) w))
  \/
  (t1 <> "" /\ lookup type p = None /\
   _perform_request url type po w =
     (Raise KeyError, with_self r1 (S (token_reads w)) w))
  \/
  (t1 <> "" /\
   exists rq h,
     authorization rq = Some ("Bearer " ++ t2)%string /\
     rq_headers rq = h ++ [("Authorization", ("Bearer " ++ t2)%string); ("User-Agent", agent)] /\
     lookup type p = Some (rq_via rq, h, rq_payload rq) /\
     _perform_request url type po w =
       send rq (with_self r2 (S (S (token_reads w))) w)).
Proof.
  cbv zeta.
  destruct (read_token (self w)) as [t1 r1] eqn:E1.
  destruct (read_token r1) as [t2 r2] eqn:E2. cbn [fst snd].
  unfold _perform_request. cbv zeta.
  set (p := match po with Some p => p | None => [] end).
  rewrite (bind_Return _ _ _ _ _ (token_run w)).
  rewrite E1. cbn [fst snd].
  destruct (t1 =? "") eqn:Et.
  - left. apply String.eqb_eq in Et. split; [exact Et | reflexivity].
  - right. apply String.eqb_neq in Et.
    rewrite (bind_Return get_self _ _ _ _ eq_refl). cbn [with_self self].
    destruct (lookup type p) as [[[m h] pl]|] eqn:El.
    + right. split; [exact Et|].
      rewrite (bind_Return _ _ _ _ _ (token_run _)).
      cbn [with_self self token_reads params os_environ network sent].
      rewrite E2. cbn [fst snd].
      match goal with
      | |- context [bind get_timeout _ ?w1] =>
          destruct (get_timeout_run w1) as [tm Etm];
          rewrite (bind_Return _ _ _ _ _ Etm)
      end.
      eexists (mkRequest m _ _ pl _), h.
      split; [| split; [reflexivity|]; split; [reflexivity|]].
      * unfold authorization. cbn [rq_headers].
        apply lookup_no_authorization in El.
        revert El. generalize h. clear.
        induction h as [|[k v] h IH]; intro E.
        -- reflexivity.
        -- cbn [header_get app] in *.
           destruct (lower k =? lower "Authorization"); [discriminate | auto].
      * reflexivity.
    + left. split; [exact Et|]. split; reflexivity.
Qed.

End PerformRequest.

Lemma send_run (rq : request) (w : world) :
  send rq w =
  (match network w with [] => Stalled | r :: _ => Return r end,
   mkWorld (self w) (params w) (os_environ w) (tl (network w))
     (sent w ++ [rq]) (token_reads w)).
Proof. unfold send. destruct (network w); reflexivity. Qed.

Lemma read_token_empty (r : Requester) :
  tokens r = [] -> read_token r = ("", r).
Proof. intro E. unfold read_token. rewrite E. reflexivity. Qed.

Lemma read_token_nonempty_string (r : Requester) :
  tokens r <> [] ->
  Forall (fun t => t <> "") (tokens r) ->
  fst (read_token r) <> "".
Proof.
  intros Hne Hall. rewrite read_token_step by exact Hne. cbn [fst].
  rewrite Forall_forall in Hall. apply Hall. apply nth_In.
  apply Nat.mod_upper_bound. destruct (tokens r); [congruence | discriminate].
Qed.

Section Rotation.

Context {L : PyLib}.

(** A call that is not rejected has read the property twice, has moved
    the cursor by two and has sent the token under the new cursor. *)
Lemma issued_request (url type : string) (po : option dict) (w : world) o w' :
  _perform_request url type po w = (o, w') ->
  (forall e, o <> Raise e) ->
  token_reads w' = token_reads w + 2 /\
  tokens (self w') = tokens (self w) /\
  _last_used (self w') = (_last_used (self w) + 2) mod length (tokens (self w)) /\
  params w' = params w /\
  network w' = tl (network w) /\
  o = match network w with [] => Stalled | r :: _ => Return r end /\
  exists rq,
    sent w' = sent w ++ [rq] /\
    authorization rq =
      Some ("Bearer " ++ nth (_last_used (self w')) (tokens (self w)) "")%string.
Proof.
  intros E Hok.
  destruct (perform_request_cases url type po w) as [[_ E1]|[[_ [_ E1]]|[Ht E1]]];
    cbv zeta in E1.
  - rewrite E1 in E. inversion E; subst. exfalso; eapply Hok; reflexivity.
  - rewrite E1 in E. inversion E; subst. exfalso; eapply Hok; reflexivity.
  - cbv zeta in Ht. destruct E1 as (rq & h & Hauth & _ & _ & E1).
    rewrite E1, send_run in E. inversion E; subst o w'; clear E E1.
    cbn [self params network sent token_reads with_self].
    assert (Hne : tokens (self w) <> []).
    { intro E0. apply Ht. rewrite (read_token_empty _ E0). reflexivity. }
    rewrite (read_token_step (self w) Hne) in Hauth |- *. cbn [snd] in Hauth |- *.
    rewrite read_token_step in Hauth |- * by (cbn [tokens]; exact Hne).
    cbn [fst snd tokens _last_used] in Hauth |- *.
    rewrite Nat.Div0.add_mod_idemp_l in Hauth |- *.
    replace (_last_used (self w) + 1 + 1) with (_last_used (self w) + 2) in Hauth |- * by lia.
    repeat split; try lia.
    exists rq. split; [reflexivity | exact Hauth].
Qed.

(** With usable tokens and a verb of the table a call is never rejected. *)
Lemma request_not_rejected (url type : string) (po : option dict) (w : world) :
  tokens (self w) <> [] ->
  Forall (fun t => t <> "") (tokens (self w)) ->
  In type verbs ->
  forall e, fst (_perform_request url type po w) <> Raise e.
Proof.
  intros Hne Hall Hverb e.
  destruct (perform_request_cases url type po w) as [[Ht _]|[[_ [Hl _]]|[_ E1]]];
    cbv zeta in *.
  - exfalso. revert Ht. apply read_token_nonempty_string; assumption.
  - destruct (lookup_verb type (match po with Some p => p | None => [] end) Hverb)
      as (m & h & pl & El & _).
    congruence.
  - destruct E1 as (rq & h & _ & _ & _ & E1). rewrite E1, send_run. cbn [fst].
    destruct (network _); discriminate.
Qed.

(** Two tokens: every request carries the first one. *)
Lemma two_tokens_first_only (t0 t1 : string)
    (calls : list (string * string * option dict)) :
  t0 <> "" -> t1 <> "" ->
  Forall (fun c => In (snd (fst c)) verbs) calls ->
  forall w,
    tokens (self w) = [t0; t1] ->
    _last_used (self w) = 0 ->
    token_reads (perform_requests calls w) = token_reads w + 2 * length calls /\
    _last_used (self (perform_requests calls w)) = 0 /\
    exists rqs,
      sent (perform_requests calls w) = sent w ++ rqs /\
      length rqs = length calls /\
      Forall (fun rq => authorization rq = Some ("Bearer " ++ t0)%string) rqs.
Proof.
  intros H0 H1 Hverbs. induction Hverbs as [|[[url type] po] calls Hv _ IH]; intros w Ht Hc.
  - cbn. repeat split; try lia. exists []. rewrite app_nil_r. repeat split; constructor.
  - cbn [perform_requests fst snd] in *.
    destruct (_perform_request url type po w) as [o w1] eqn:E. cbn [snd].
    assert (Hok : forall e, o <> Raise e).
    { intro e. replace o with (fst (_perform_request url type po w)) by (rewrite E; reflexivity).
      apply request_not_rejected; [rewrite Ht; discriminate | | exact Hv].
      rewrite Ht. repeat constructor; assumption. }
    destruct (issued_request _ _ _ _ _ _ E Hok)
      as (Hr & Htok & Hcur & _ & _ & _ & rq & Hs & Ha).
    rewrite Ht, Hc in *. cbn in Hcur. rewrite Hcur in Ha. cbn [nth] in Ha.
    destruct (IH w1 Htok Hcur) as (Hr' & Hc' & rqs & Hs' & Hl & Hall).
    repeat split.
    + rewrite Hr', Hr. cbn [length]. lia.
    + exact Hc'.
    + exists (rq :: rqs). repeat split.
      * rewrite Hs', Hs, <- app_assoc. reflexivity.
      * cbn [length]. lia.
      * constructor; assumption.
Qed.

End Rotation.

(** C3, as stated, fails: a session built with no token at all holds the one
    token "", and a call of [_perform_request] on it is rejected by the
    emptiness check after a single read of the property. *)
Lemma C3_counterexample :
  exists r,
    Requester_init (L := run_lib) no_environ None None = inr r /\
    tokens r = [""] /\
    let w := world_of r [empty_page] in
    let out := _perform_request (L := run_lib) "account" GET None w in
    fst out = Raise (TokenError "No token provided. Please use a valid token") /\
    token_reads (snd out) = token_reads w + 1 /\
    token_reads (snd out) <> token_reads w + 2 /\
    sent (snd out) = [].
Proof.
  eexists. split; [reflexivity|]. split; [reflexivity|].
  cbv zeta. repeat split. vm_compute. discriminate.
Qed.

(** C3, amended: every call of [_perform_request] that is not rejected (it
    passes the emptiness check and names a verb of the table) reads the
    [token] property exactly twice, so it moves the cursor by two modulo the
    sequence length and sends the token under the new cursor; a call is
    rejected by the emptiness check exactly when the first read gives the
    empty string, and such a call raises [TokenError], has read the property
    once and has sent nothing; with usable tokens and a verb of the table no
    call is rejected; in particular, for every sequence of two non-empty
    tokens, starting with the cursor at zero as the setter leaves it, every
    request carries the first token. *)
Theorem C3_request_reads_token_twice {L : PyLib} :
  (forall url type po w o w',
     _perform_request url type po w = (o, w') ->
     (forall e, o <> Raise e) ->
     token_reads w' = token_reads w + 2 /\
     _last_used (self w') = (_last_used (self w) + 2) mod length (tokens (self w)) /\
     exists rq,
       sent w' = sent w ++ [rq] /\
       authorization rq =
         Some ("Bearer " ++ nth (_last_used (self w')) (tokens (self w)) "")%string)
  /\
  (forall url type po w o w',
     _perform_request url type po w = (o, w') ->
     (fst (read_token (self w)) = "" <-> exists msg, o = Raise (TokenError msg)) /\
     (fst (read_token (self w)) = "" ->
      o = Raise (TokenError "No token provided. Please use a valid token") /\
      token_reads w' = token_reads w + 1 /\
      self w' = snd (read_token (self w)) /\
      sent w' = sent w /\
      network w' = network w))
  /\
  (forall url type po w,
     tokens (self w) <> [] ->
     Forall (fun t => t <> "") (tokens (self w)) ->
     In type verbs ->
     forall e, fst (_perform_request url type po w) <> Raise e)
  /\
  (forall t0 t1 calls w,
     t0 <> "" -> t1 <> "" ->
     Forall (fun c => In (snd (fst c)) verbs) calls ->
     tokens (self w) = [t0; t1] ->
     _last_used (self w) = 0 ->
     token_reads (perform_requests calls w) = token_reads w + 2 * length calls /\
     exists rqs,
       sent (perform_requests calls w) = sent w ++ rqs /\
       length rqs = length calls /\
       Forall (fun rq => authorization rq = Some ("Bearer " ++ t0)%string) rqs).
Proof.
  split; [| split; [| split]].
  - intros url type po w o w' E Hok.
    destruct (issued_request _ _ _ _ _ _ E Hok) as (Hr & _ & Hc & _ & _ & _ & Hrq).
    auto.
  - intros url type po w o w' E.
    destruct (perform_request_cases url type po w)
      as [[Ht E1]|[[Ht [_ E1]]|[Ht (rq & h & _ & _ & _ & E1)]]];
      cbv zeta in Ht, E1; rewrite E1 in E.
    + inversion E; subst o w'; clear E.
      split; [split; [intros _; eexists; reflexivity | intros _; exact Ht]|].
      intros _. cbn [with_self self sent network token_reads].
      repeat split. lia.
    + inversion E; subst o w'; clear E.
      split; [split; [contradiction | intros [msg Hm]; discriminate]|].
      contradiction.
    + rewrite send_run in E. inversion E; subst o w'; clear E.
      split; [split; [contradiction | intros [msg Hm]; destruct (network _); discriminate]|].
      contradiction.
  - intros. apply request_not_rejected; assumption.
  - intros t0 t1 calls w H0 H1 Hv Ht Hc.
    destruct (two_tokens_first_only t0 t1 calls H0 H1 Hv w Ht Hc) as (Hr & _ & Hrq).
    auto.
Qed.

(** Three requests on the tokens "a", "b": six reads, and "a" every time. *)
Lemma C3_witness :
  let w := world_of (session_with ["a"; "b"]) [empty_page; empty_page; empty_page] in
  let calls := [("account", GET, None); ("droplets", POST, None); ("keys", GET, None)] in
  token_reads (perform_requests (L := run_lib) calls w) = 6 /\
  exists rqs,
    sent (perform_requests (L := run_lib) calls w) = rqs /\
    length rqs = 3 /\
    Forall (fun rq => authorization rq = Some "Bearer a") rqs.
Proof.
  cbv zeta.
  destruct (proj2 (proj2 (proj2 (C3_request_reads_token_twice (L := run_lib))))
              "a" "b"
              [("account", GET, None); ("droplets", POST, None); ("keys", GET, None)]
              (world_of (session_with ["a"; "b"]) [empty_page; empty_page; empty_page]))
    as (Hr & rqs & Hs & Hl & Hall).
  - discriminate.
  - discriminate.
  - repeat (apply Forall_cons; [unfold verbs; cbn [In fst snd]; auto 10 |]).
    apply Forall_nil.
  - reflexivity.
  - reflexivity.
  - split; [exact Hr|]. exists rqs. repeat split; assumption.
Defined.

(** ** Mappings *)

Module DictFacts.

Lemma get_set_same (d : dict) (k : string) (v : json) :
  Dict.get (Dict.set d k v) k = Some v.
Proof.
  induction d as [|[k' v'] d IH]; cbn.
  - rewrite String.eqb_refl. reflexivity.
  - destruct (k' =? k) eqn:E; cbn.
    + rewrite String.eqb_refl. reflexivity.
    + rewrite E. exact IH.
Qed.

Lemma get_set_other (d : dict) (k k' : string) (v : json) :
  k <> k' -> Dict.get (Dict.set d k v) k' = Dict.get d k'.
Proof.
  intro Hne. induction d as [|[k0 v0] d IH]; cbn.
  - apply String.eqb_neq in Hne. rewrite Hne. reflexivity.
  - destruct (k0 =? k) eqn:E; cbn.
    + apply String.eqb_eq in E. subst k0.
      apply String.eqb_neq in Hne. rewrite Hne. reflexivity.
    + rewrite IH. reflexivity.
Qed.

Lemma get_Some_In (d : dict) (k : string) (v : json) :
  Dict.get d k = Some v -> In (k, v) d.
Proof.
  induction d as [|[k' v'] d IH]; cbn; [discriminate|].
  destruct (k' =? k) eqn:E.
  - apply String.eqb_eq in E. intro H. inversion H; subst. left; reflexivity.
  - intro H. right. auto.
Qed.

Lemma get_None_keys (d : dict) (k : string) :
  ~ In k (map fst d) -> Dict.get d k = None.
Proof.
  induction d as [|[k' v'] d IH]; cbn; [reflexivity|].
  intro H. destruct (k' =? k) eqn:E.
  - apply String.eqb_eq in E. tauto.
  - apply IH. tauto.
Qed.

Lemma mem_get (d : dict) (k : string) :
  Dict.mem k d = match Dict.get d k with Some _ => true | None => false end.
Proof. reflexivity. Qed.

Lemma items_from_get (d : dict) (seen : list string) (k : string) :
  Dict.get (Dict.items_from seen d) k =
  if existsb (String.eqb k) seen then None else Dict.get d k.
Proof.
  revert seen. induction d as [|[k' v'] d IH]; intro seen; cbn.
  - destruct (existsb _ seen); reflexivity.
  - destruct (existsb (String.eqb k') seen) eqn:Es.
    + rewrite IH. destruct (existsb (String.eqb k) seen) eqn:Ek; [reflexivity|].
      destruct (k' =? k) eqn:E; [|reflexivity].
      apply String.eqb_eq in E. congruence.
    + cbn. destruct (k' =? k) eqn:E.
      * apply String.eqb_eq in E. subst k'. rewrite Es. reflexivity.
      * rewrite IH. cbn. rewrite String.eqb_sym, E. reflexivity.
Qed.

Lemma items_from_keys (d : dict) (seen : list string) :
  NoDup (map fst (Dict.items_from seen d)) /\
  forall k, In k (map fst (Dict.items_from seen d)) -> ~ In k seen.
Proof.
  revert seen. induction d as [|[k' v'] d IH]; intro seen; cbn.
  - split; [constructor | contradiction].
  - destruct (existsb (String.eqb k') seen) eqn:Es.
    + apply IH.
    + destruct (IH (k' :: seen)) as [Hnd Hns]. cbn. split.
      * constructor; [|exact Hnd]. intro Hin. apply (Hns _ Hin). left; reflexivity.
      * intros k [<-|Hin].
        -- intro Hin. 
           assert (existsb (String.eqb k') seen = true); [|congruence].
           apply existsb_exists. exists k'. split; [exact Hin | apply String.eqb_refl].
        -- intro Hs. apply (Hns _ Hin). right; exact Hs.
Qed.

Lemma items_get (d : dict) (k : string) : Dict.get (Dict.items d) k = Dict.get d k.
Proof. unfold Dict.items. rewrite items_from_get. reflexivity. Qed.

Lemma items_NoDup (d : dict) : NoDup (map fst (Dict.items d)).
Proof. apply items_from_keys. Qed.

End DictFacts.

(** ** Merging a page into the accumulator *)

Lemma list_fields_agree_spec (earlier later : dict) :
  list_fields_agree earlier later = true ->
  forall k new v,
    Dict.get later k = Some (JList new) ->
    Dict.get earlier k = Some v -> is_list v = true.
Proof.
  unfold list_fields_agree. rewrite forallb_forall.
  intros H k new v Hl He. apply DictFacts.get_Some_In in Hl.
  specialize (H _ Hl). cbn [fst snd] in H. rewrite He in H. exact H.
Qed.

Lemma merge_item_get (acc : dict) (k : string) (v : json) (res : json) :
  merge_item (JDict acc) (k, v) = inr res ->
  exists d, res = JDict d /\
    Dict.get d k = merged (Dict.get acc k) (Some v) /\
    forall k', k <> k' -> Dict.get d k' = Dict.get acc k'.
Proof.
  unfold merge_item. rewrite DictFacts.mem_get.
  destruct v; cbn [is_list andb];
    try (intro E; inversion E; eexists; split; [reflexivity|]; split;
         [apply DictFacts.get_set_same | intros; apply DictFacts.get_set_other; assumption]).
  destruct (Dict.get acc k) as [[| | | |old|]|] eqn:Eg; intro E; inversion E;
    eexists; (split; [reflexivity|]); (split;
         [apply DictFacts.get_set_same | intros; apply DictFacts.get_set_other; assumption]).
Qed.

Lemma merge_items_get (its : dict) :
  NoDup (map fst its) ->
  forall acc res,
    merge_items (JDict acc) its = inr res ->
    exists d, res = JDict d /\
      forall k, Dict.get d k = merged (Dict.get acc k) (Dict.get its k).
Proof.
  induction its as [|[k v] its IH]; intros Hnd acc res.
  - cbn. intro E; inversion E. exists acc. split; reflexivity.
  - cbn [merge_items]. destruct (merge_item (JDict acc) (k, v)) as [e|acc1] eqn:E1;
      [discriminate|].
    destruct (merge_item_get _ _ _ _ E1) as (d1 & -> & Hk & Hother).
    inversion Hnd as [|? ? Hnotin Hnd']; subst.
    intro E. destruct (IH Hnd' d1 res E) as (d & -> & Hd).
    exists d. split; [reflexivity|]. intro k'.
    rewrite Hd. cbn [Dict.get]. destruct (k =? k') eqn:Ek.
    + apply String.eqb_eq in Ek. subst k'.
      rewrite (DictFacts.get_None_keys its k Hnotin). cbn [merged]. exact Hk.
    + apply String.eqb_neq in Ek. rewrite (Hother _ Ek). reflexivity.
Qed.

Lemma merge_items_succeeds (its : dict) :
  NoDup (map fst its) ->
  forall acc,
    (forall k new v, Dict.get its k = Some (JList new) ->
                     Dict.get acc k = Some v -> is_list v = true) ->
    exists d, merge_items (JDict acc) its = inr (JDict d).
Proof.
  induction its as [|[k v] its IH]; intros Hnd acc Hagree.
  - exists acc. reflexivity.
  - inversion Hnd as [|? ? Hnotin Hnd']; subst.
    assert (E1 : exists d1, merge_item (JDict acc) (k, v) = inr (JDict d1)).
    { unfold merge_item. rewrite DictFacts.mem_get.
      destruct v; cbn [is_list andb]; try (eexists; reflexivity).
      destruct (Dict.get acc k) as [v0|] eqn:Eg; [|eexists; reflexivity].
      specialize (Hagree k l v0). cbn [Dict.get] in Hagree.
      rewrite String.eqb_refl in Hagree. specialize (Hagree eq_refl Eg).
      destruct v0; try discriminate. eexists; reflexivity. }
    destruct E1 as [d1 E1]. cbn [merge_items]. rewrite E1.
    apply IH; [exact Hnd'|].
    intros k' new v' Hits Hd1.
    destruct (merge_item_get _ _ _ _ E1) as (d & Hd & _ & Hother).
    inversion Hd; subst d.
    assert (Hne : k <> k').
    { intro; subst k'. rewrite (DictFacts.get_None_keys its k Hnotin) in Hits. discriminate. }
    rewrite (Hother _ Hne) in Hd1.
    apply (Hagree k' new v'); [|exact Hd1].
    cbn [Dict.get]. apply String.eqb_neq in Hne. rewrite Hne. exact Hits.
Qed.

(** The merge of a whole page, read through [items]. *)
Lemma merge_page (acc page : dict) :
  list_fields_agree acc page = true ->
  exists d, merge_items (JDict acc) (Dict.items page) = inr (JDict d) /\
    forall k, Dict.get d k = merged (Dict.get acc k) (Dict.get page k).
Proof.
  intro Hagree.
  destruct (merge_items_succeeds (Dict.items page) (DictFacts.items_NoDup page) acc)
    as [d Ed].
  { intros k new v Hi Ha. rewrite DictFacts.items_get in Hi.
    exact (list_fields_agree_spec _ _ Hagree k new v Hi Ha). }
  exists d. split; [exact Ed|].
  destruct (merge_items_get _ (DictFacts.items_NoDup page) _ _ Ed) as (d' & Hd' & Hget).
  inversion Hd'; subst d'. intro k. rewrite Hget, DictFacts.items_get. reflexivity.
Qed.

(** ** The first request of [get_data] *)

Lemma after_request_fields (r : Requester) :
  tokens (after_request r) = tokens r /\
  end_point (after_request r) = end_point r /\
  ratelimit (after_request r) = ratelimit r.
Proof.
  unfold after_request, read_token, ratelimit.
  destruct (tokens r) eqn:E; cbn; rewrite ?E; cbn; auto.
Qed.

Lemma after_request_usable (r : Requester) : usable r -> usable (after_request r).
Proof.
  unfold usable. destruct (after_request_fields r) as [-> _]. auto.
Qed.

Section GetData.

Context {L : PyLib}.

Lemma perform_request_ok (url type : string) (po : option dict) (w : world)
    (resp : response) (rest : list response) :
  usable (self w) ->
  In type verbs ->
  network w = resp :: rest ->
  exists rq,
    _perform_request url type po w =
      (Return resp,
       mkWorld (after_request (self w)) (params w) (os_environ w) rest
         (sent w ++ [rq]) (S (S (token_reads w)))) /\
    (type = GET ->
     rq_payload rq = params_kw (match po with Some p => p | None => [] end)).
Proof.
  intros [Hne Hall] Hverb Hnet.
  destruct (perform_request_cases url type po w) as [[Ht _]|[[_ [Hl _]]|[_ E1]]];
    cbv zeta in *.
  - exfalso. revert Ht. apply read_token_nonempty_string; assumption.
  - destruct (lookup_verb type (match po with Some p => p | None => [] end) Hverb)
      as (m & h & pl & El & _).
    congruence.
  - destruct E1 as (rq & h & _ & _ & El & E1). exists rq. split.
    + rewrite E1, send_run. cbn [network with_self self params os_environ sent token_reads].
      rewrite Hnet. reflexivity.
    + intros ->. cbn in El. inversion El. reflexivity.
Qed.

Lemma get_data_run (url type : string) (po : option dict) (w : world) :
  get_data url type po w =
  match _perform_request url type (Some (first_params type po))
          (with_params (first_params type po) w) with
  | (Return req, w1) => after_first_response url type req w1
  | (Raise e, w1) => (Raise e, w1)
  | (Stalled, w1) => (Stalled, w1)
  end.
Proof.
  unfold get_data, first_params, after_first_response.
  destruct (type =? GET); reflexivity.
Qed.

End GetData.

Section FirstResponse.

Context {L : PyLib}.

(** What a call that is not rejected leaves of the world. *)
Lemma issued_request_world (url type : string) (po : option dict) (w : world) o w' :
  _perform_request url type po w = (o, w') ->
  (forall e, o <> Raise e) ->
  self w' = after_request (self w) /\
  params w' = params w /\
  os_environ w' = os_environ w /\
  network w' = tl (network w) /\
  exists rq, sent w' = sent w ++ [rq].
Proof.
  intros E Hok.
  destruct (perform_request_cases url type po w) as [[_ E1]|[[_ [_ E1]]|[_ E1]]];
    cbv zeta in E1.
  - rewrite E1 in E. inversion E; subst. exfalso; eapply Hok; reflexivity.
  - rewrite E1 in E. inversion E; subst. exfalso; eapply Hok; reflexivity.
  - destruct E1 as (rq & h & _ & _ & _ & E1).
    rewrite E1, send_run in E. inversion E; subst o w'.
    cbn. repeat split. exists rq; reflexivity.
Qed.

(** Every call leaves the [params] mapping as it found it. *)
Lemma perform_request_params (url type : string) (po : option dict) (w : world) :
  params (snd (_perform_request url type po w)) = params w.
Proof.
  destruct (perform_request_cases url type po w) as [[_ E1]|[[_ [_ E1]]|[_ E1]]];
    cbv zeta in E1.
  - rewrite E1. reflexivity.
  - rewrite E1. reflexivity.
  - destruct E1 as (rq & h & _ & _ & _ & E1). rewrite E1, send_run. reflexivity.
Qed.

Lemma after_204 (url type : string) (req : response) (w : world) :
  status_code req = 204%Z ->
  after_first_response url type req w = (Return (JBool true), w).
Proof. intro E. unfold after_first_response. rewrite E. reflexivity. Qed.

Lemma after_404 (url type : string) (req : response) (w : world) :
  status_code req = 404%Z ->
  after_first_response url type req w = (Raise NotFoundError, w).
Proof. intro E. unfold after_first_response. rewrite E. reflexivity. Qed.

Lemma after_undecodable (url type : string) (req : response) (w : world) msg :
  status_code req <> 204%Z -> status_code req <> 404%Z ->
  json_body req = inl msg ->
  after_first_response url type req w =
    (Raise (JSONReadError ("Read failed from DigitalOcean: " ++ msg)%string), w).
Proof.
  intros H1 H2 E. unfold after_first_response.
  apply Z.eqb_neq in H1, H2. rewrite H1, H2, E. reflexivity.
Qed.

(** A response that is not [ok] with a decoded body. *)
Lemma after_not_ok (url type : string) (req : response) (w : world) data :
  status_code req <> 204%Z -> status_code req <> 404%Z ->
  json_body req = inr data ->
  ok req = false ->
  after_first_response url type req w =
    (match error_message data with
     | inl e => Raise e
     | inr msg => Raise (DataReadError msg)
     end, w).
Proof.
  intros H1 H2 E Hok. unfold after_first_response.
  apply Z.eqb_neq in H1, H2. rewrite H1, H2, E, Hok. cbn [negb].
  unfold bind, lift. destruct (error_message data); reflexivity.
Qed.

(** An [ok] response with a decoded body whose links can be read. *)
Lemma after_ok (url type : string) (req : response) (w : world) data nxt :
  status_code req <> 204%Z -> status_code req <> 404%Z ->
  json_body req = inr data ->
  ok req = true ->
  next_link data = inr nxt ->
  after_first_response url type req w =
    if truthy nxt && negb (Dict.mem "page" (params w)) then
      _deal_with_pagination url type data (record_ratelimit (headers req) w)
    else (Return data, record_ratelimit (headers req) w).
Proof.
  intros H1 H2 E Hok Hn. unfold after_first_response.
  apply Z.eqb_neq in H1, H2. rewrite H1, H2, E, Hok. cbn [negb].
  unfold next_link in Hn.
  destruct (py_get data "links" (JDict [])) as [e|links] eqn:E1; [discriminate|].
  destruct (py_get links "pages" (JDict [])) as [e|pages] eqn:E2; [discriminate|].
  cbv [bind lift ret raise __init_ratelimit get_self set_self get_params].
  cbn [self params os_environ network sent token_reads].
  rewrite E2, Hn. unfold record_ratelimit, with_ratelimit.
  cbn [self params os_environ network sent token_reads].
  destruct (truthy nxt && negb (Dict.mem "page" (params w))); reflexivity.
Qed.

End FirstResponse.

(** ** No content *)

(** C7: a [get_data] call whose first response has status 204 returns
    [True] in the world the first request left: the body is not decoded
    (whatever [json_body] holds), the rate-limit attributes keep their
    values, the links are not inspected and no further request goes out. *)
Theorem C7_no_content_returns_true {L : PyLib}
    (url type : string) (po : option dict) (w : world) (req : response) (w1 : world) :
  _perform_request url type (Some (first_params type po))
    (with_params (first_params type po) w) = (Return req, w1) ->
  status_code req = 204%Z ->
  get_data url type po w = (Return (JBool true), w1) /\
  ratelimit (self w1) = ratelimit (self w) /\
  network w1 = tl (network w) /\
  exists rq, sent w1 = sent w ++ [rq].
Proof.
  intros E Hs. rewrite get_data_run, E. split; [apply after_204; exact Hs|].
  destruct (issued_request_world _ _ _ _ _ _ E) as (Hself & _ & _ & Hnet & Hsent);
    [discriminate|].
  rewrite Hself. cbn [with_params self network sent] in *.
  destruct (after_request_fields (self w)) as (_ & _ & Hr).
  auto.
Qed.

(** A deletion answered 204 with an undecodable body. *)
Lemma C7_witness :
  let w := one_token_world [no_content; empty_page] in
  fst (get_data (L := run_lib) "droplets/3164494" DELETE None w) = Return (JBool true) /\
  ratelimit (self (snd (get_data (L := run_lib) "droplets/3164494" DELETE None w))) =
    (None, None, None) /\
  network (snd (get_data (L := run_lib) "droplets/3164494" DELETE None w)) = [empty_page].
Proof.
  cbv zeta.
  destruct (C7_no_content_returns_true (L := run_lib) "droplets/3164494" DELETE None
              (one_token_world [no_content; empty_page]) no_content
              (snd (_perform_request (L := run_lib) "droplets/3164494" DELETE
                      (Some (first_params DELETE None))
                      (with_params (first_params DELETE None)
                         (one_token_world [no_content; empty_page])))))
    as (Hret & Hrate & Hnet & _).
  - vm_compute. reflexivity.
  - reflexivity.
  - rewrite Hret. cbn [fst snd]. split; [reflexivity|]. split.
    + rewrite Hrate. reflexivity.
    + rewrite Hnet. reflexivity.
Defined.

(** ** An explicit page *)

Lemma mem_first_params (type : string) (p : dict) (k : string) :
  Dict.mem k p = true -> Dict.mem k (first_params type (Some p)) = true.
Proof.
  intro H. unfold first_params. destruct (type =? GET); [|exact H].
  unfold Dict.setdefault. destruct (Dict.mem "per_page" p) eqn:E; [exact H|].
  rewrite DictFacts.mem_get, DictFacts.get_set_other; [exact H|].
  intro; subst k. congruence.
Qed.

Section NoWalk.

Context {L : PyLib}.

(** A call sends at most one request. *)
Lemma perform_request_sent (url type : string) (po : option dict) (w : world) :
  exists rqs,
    sent (snd (_perform_request url type po w)) = sent w ++ rqs /\ length rqs <= 1.
Proof.
  destruct (perform_request_cases url type po w) as [[_ E1]|[[_ [_ E1]]|[_ E1]]];
    cbv zeta in E1.
  - rewrite E1. exists []. rewrite app_nil_r. split; [reflexivity | cbn; lia].
  - rewrite E1. exists []. rewrite app_nil_r. split; [reflexivity | cbn; lia].
  - destruct E1 as (rq & h & _ & _ & _ & E1). rewrite E1, send_run.
    exists [rq]. split; [reflexivity | cbn; lia].
Qed.

(** With an explicit page nothing is sent after the first response. *)
Lemma after_first_response_no_walk (url type : string) (req : response) (w : world) :
  Dict.mem "page" (params w) = true ->
  sent (snd (after_first_response url type req w)) = sent w /\
  network (snd (after_first_response url type req w)) = network w.
Proof.
  intro Hpage. unfold after_first_response.
  destruct (status_code req =? 204)%Z; [split; reflexivity|].
  destruct (status_code req =? 404)%Z; [split; reflexivity|].
  destruct (json_body req) as [msg|data]; [split; reflexivity|].
  destruct (negb (ok req)).
  { cbv [bind lift ret raise]. destruct (error_message data); split; reflexivity. }
  cbv [bind lift ret raise __init_ratelimit get_self set_self get_params].
  cbn [self params os_environ network sent token_reads].
  destruct (py_get data "links" (JDict [])) as [e|links]; [split; reflexivity|].
  destruct (py_get links "pages" (JDict [])) as [e|pages]; [split; reflexivity|].
  destruct (py_get pages "next" JNull) as [e|nxt]; [split; reflexivity|].
  cbn [self params os_environ network sent token_reads].
  rewrite Hpage, andb_false_r. split; reflexivity.
Qed.

End NoWalk.

(** C8: when the caller's mapping contains the key "page" the walk is never
    entered: whatever the outcome, the call sends at most one request; and a
    successful first page is returned as decoded, whatever its next link is,
    in the world the first request left with the rate limits recorded. *)
Theorem C8_explicit_page_suppresses_walk {L : PyLib}
    (url type : string) (p : dict) (w : world) :
  Dict.mem "page" p = true ->
  (exists rqs,
     sent (snd (get_data url type (Some p) w)) = sent w ++ rqs /\ length rqs <= 1)
  /\
  (forall req w1 data nxt,
     _perform_request url type (Some (first_params type (Some p)))
       (with_params (first_params type (Some p)) w) = (Return req, w1) ->
     status_code req <> 204%Z -> status_code req <> 404%Z ->
     ok req = true ->
     json_body req = inr data ->
     next_link data = inr nxt ->
     get_data url type (Some p) w = (Return data, record_ratelimit (headers req) w1) /\
     network w1 = tl (network w) /\
     exists rq, sent (record_ratelimit (headers req) w1) = sent w ++ [rq]).
Proof.
  intro Hpage. split.
  - rewrite get_data_run.
    destruct (perform_request_sent url type (Some (first_params type (Some p)))
                (with_params (first_params type (Some p)) w)) as (rqs & Hs & Hl).
    pose proof (perform_request_params url type (Some (first_params type (Some p)))
                  (with_params (first_params type (Some p)) w)) as Hp.
    destruct (_perform_request url type (Some (first_params type (Some p)))
                (with_params (first_params type (Some p)) w)) as [[req| |] w1];
      cbn [snd sent params with_params] in Hs, Hp; exists rqs;
      (split; [|exact Hl]); [|exact Hs|exact Hs].
    destruct (after_first_response_no_walk url type req w1) as [Hsent _].
    { rewrite Hp. apply mem_first_params. exact Hpage. }
    rewrite Hsent. exact Hs.
  - intros req w1 data nxt E H1 H2 Hok Hbody Hnext.
    destruct (issued_request_world _ _ _ _ _ _ E) as (_ & Hp & _ & Hnet & Hsent);
      [discriminate|].
    cbn [with_params params network sent] in *.
    split; [|split; assumption].
    rewrite get_data_run, E, (after_ok _ _ _ _ _ _ H1 H2 Hbody Hok Hnext).
    rewrite Hp, (mem_first_params _ _ _ Hpage), andb_false_r. reflexivity.
Qed.

(** The first of two pages asked for by number: its next link is not
    followed. *)
Lemma C8_witness :
  let out := get_data (L := run_lib) "droplets" GET (Some page_one_params) two_pages_world in
  truthy (JStr "https://api.digitalocean.com/v2/droplets?page=2&per_page=200") = true /\
  fst out = Return (JDict droplets_page_1) /\
  length (network (snd out)) = 1 /\
  length (sent (snd out)) = 1.
Proof.
  cbv zeta. split; [reflexivity|].
  destruct (proj2 (C8_explicit_page_suppresses_walk (L := run_lib) "droplets" GET
                     page_one_params two_pages_world eq_refl)
              (page_response "4998" droplets_page_1)
              (snd (_perform_request (L := run_lib) "droplets" GET
                      (Some (first_params GET (Some page_one_params)))
                      (with_params (first_params GET (Some page_one_params))
                         two_pages_world)))
              (JDict droplets_page_1)
              (JStr "https://api.digitalocean.com/v2/droplets?page=2&per_page=200"))
    as (Hret & Hnet & rq & Hsent).
  - vm_compute. reflexivity.
  - discriminate.
  - discriminate.
  - reflexivity.
  - reflexivity.
  - reflexivity.
  - rewrite Hret. cbn [fst snd]. split; [reflexivity|]. split.
    + unfold record_ratelimit. cbn [network]. rewrite Hnet. reflexivity.
    + rewrite Hsent. reflexivity.
Defined.

(** ** Construction *)

(** C9: when the parse of the end point the constructor settles on (the
    argument, or the environment's or the default one when the argument is
    missing or empty) has no scheme or no host, construction fails with
    [EndPointError]; no session object exists, so no request can go out.
    An argument that is not empty is that end point. *)
Theorem C9_end_point_without_scheme_or_host {L : PyLib}
    (env : environ) (token_opt : option token_arg) (end_point_opt : option string) :
  scheme (urlparse (effective_end_point env end_point_opt)) = "" \/
  netloc (urlparse (effective_end_point env end_point_opt)) = "" ->
  Requester_init env token_opt end_point_opt =
    inl (EndPointError "Provided end point is not a valid URL. Please use a valid URL")
  /\ forall s, end_point_opt = Some s -> s <> "" ->
               effective_end_point env end_point_opt = s.
Proof.
  intro H. split.
  - unfold Requester_init.
    cbv zeta.
    destruct H as [H|H]; rewrite H; cbn [String.eqb orb]; [reflexivity|].
    rewrite orb_true_r. reflexivity.
  - intros s -> Hs. unfold effective_end_point.
    apply String.eqb_neq in Hs. rewrite Hs. reflexivity.
Qed.

(** A bare host name as the end point. *)
Lemma C9_witness :
  Requester_init (L := run_lib) no_environ (Some (TokStr "dop_v1_secret"))
    (Some "api.digitalocean.com") =
    inl (EndPointError "Provided end point is not a valid URL. Please use a valid URL").
Proof.
  apply (C9_end_point_without_scheme_or_host (L := run_lib) no_environ
           (Some (TokStr "dop_v1_secret")) (Some "api.digitalocean.com")).
  left. reflexivity.
Defined.

(** ** The message of a [DataReadError] *)

Lemma error_message_of_mapping (d : dict) :
  error_message (JDict d) =
  match Dict.get d "id", Dict.get d "message" with
  | Some _, Some m => inr m
  | _, _ => inl IndexError
  end.
Proof.
  unfold error_message, error_fields, py_contains, py_getitem.
  rewrite !DictFacts.mem_get.
  destruct (Dict.get d "id"), (Dict.get d "message"); reflexivity.
Qed.

(** C1, evaluated: a 400 response whose body has only an "id" field, or
    only a "message" field, makes [get_data] raise [IndexError]; the
    [DataReadError] with the body's message comes out only when the body has
    both fields.  The index 1 of the list of found fields is out of range
    unless both are found. *)
Theorem C1_one_field_body_raises_IndexError :
  fst (get_data (L := run_lib) "droplets" GET None
         (one_token_world [error_response 400 [("id", JStr "bad_request")]]))
    = Raise IndexError /\
  fst (get_data (L := run_lib) "droplets" GET None
         (one_token_world [error_response 400 [("message", JStr "Name is required")]]))
    = Raise IndexError /\
  fst (get_data (L := run_lib) "droplets" GET None
         (one_token_world
            [error_response 400 [("id", JStr "bad_request");
                                 ("message", JStr "Name is required")]]))
    = Raise (DataReadError (JStr "Name is required")) /\
  forall d, error_message (JDict d) =
            match Dict.get d "id", Dict.get d "message" with
            | Some _, Some m => inr m
            | _, _ => inl IndexError
            end.
Proof.
  split; [vm_compute; reflexivity|].
  split; [vm_compute; reflexivity|].
  split; [vm_compute; reflexivity|].
  exact error_message_of_mapping.
Qed.

(** ** Failures on later pages *)

(** C2, evaluated: on the second page of a walk a 404 response with a
    decodable body is not classified: its fields are merged into the first
    page and the merged mapping is returned; a 500 response is merged in the
    same way; an undecodable second page raises the decoder's [ValueError],
    not [JSONReadError]. *)
Theorem C2_later_page_is_not_classified :
  fst (get_data (L := run_lib) "droplets" GET None
         (one_token_world [page_response "4998" droplets_page_1;
                           error_response 404 not_found_body]))
    = Return (JDict (droplets_page_1 ++ not_found_body)) /\
  fst (get_data (L := run_lib) "droplets" GET None
         (one_token_world [page_response "4998" droplets_page_1;
                           error_response 500 not_found_body]))
    = Return (JDict (droplets_page_1 ++ not_found_body)) /\
  fst (get_data (L := run_lib) "droplets" GET None
         (one_token_world [page_response "4998" droplets_page_1;
                           mkResponse 502 [] (inl "Expecting value: line 1 column 1 (char 0)")]))
    = Raise (ValueError "Expecting value: line 1 column 1 (char 0)") /\
  fst (get_data (L := run_lib) "droplets" GET None
         (one_token_world [error_response 404 not_found_body]))
    = Raise NotFoundError.
Proof.
  repeat split; vm_compute; reflexivity.
Qed.

(** ** Rate limits *)

(** C5, as stated, fails: after a read answered with 4998 remaining
    requests, a deletion is answered 204 with 4997 remaining; [get_data]
    returns [True] and the session still says 4998. *)
Lemma C5_counterexample :
  let w1 := snd (get_data (L := run_lib) "account" GET None read_then_delete_world) in
  let out := get_data (L := run_lib) "droplets/3164494" DELETE None w1 in
  ratelimit_remaining (self w1) = Some (Some "4998") /\
  fst out = Return (JBool true) /\
  ratelimit_remaining (self (snd out)) = Some (Some "4998") /\
  ratelimit_remaining (self (snd out)) <> Some (Some "4997").
Proof.
  cbv zeta. repeat split; try (vm_compute; reflexivity).
  vm_compute. discriminate.
Qed.

(** C5, amended: after every response that [get_data] returns as decoded
    data without a pagination walk (status other than 204 and 404, [ok],
    decodable body, no next link or an explicit page), the three rate-limit
    attributes hold that response's Ratelimit-Limit, Ratelimit-Remaining and
    Ratelimit-Reset headers ([None] for a header that is absent), whatever
    they held before; after a 204 response they keep the values they had. *)
Theorem C5_rate_limit_follows_first_response {L : PyLib}
    (url type : string) (po : option dict) (w : world) (req : response) (w1 : world) :
  _perform_request url type (Some (first_params type po))
    (with_params (first_params type po) w) = (Return req, w1) ->
  (status_code req = 204%Z ->
   ratelimit (self (snd (get_data url type po w))) = ratelimit (self w))
  /\
  (forall data nxt,
     status_code req <> 204%Z -> status_code req <> 404%Z ->
     ok req = true ->
     json_body req = inr data ->
     next_link data = inr nxt ->
     truthy nxt && negb (Dict.mem "page" (first_params type po)) = false ->
     fst (get_data url type po w) = Return data /\
     ratelimit (self (snd (get_data url type po w))) =
       (Some (header_get (headers req) "Ratelimit-Limit"),
        Some (header_get (headers req) "Ratelimit-Remaining"),
        Some (header_get (headers req) "Ratelimit-Reset"))).
Proof.
  intro E.
  destruct (issued_request_world _ _ _ _ _ _ E) as (Hself & Hp & _);
    [discriminate|].
  cbn [with_params self params] in *.
  split.
  - intro Hs. rewrite get_data_run, E, (after_204 _ _ _ _ Hs). cbn [snd].
    rewrite Hself. apply after_request_fields.
  - intros data nxt H1 H2 Hok Hbody Hnext Hwalk.
    rewrite get_data_run, E, (after_ok _ _ _ _ _ _ H1 H2 Hbody Hok Hnext).
    rewrite Hp, Hwalk. split; reflexivity.
Qed.

(** A read of the account: the three headers of its response are stored. *)
Lemma C5_witness :
  let out := get_data (L := run_lib) "account" GET None read_then_delete_world in
  fst out = Return (JDict account_page) /\
  ratelimit (self (snd out)) = (Some (Some "5000"), Some (Some "4998"), Some (Some "1700000000")).
Proof.
  cbv zeta.
  destruct (C5_rate_limit_follows_first_response (L := run_lib) "account" GET None
              read_then_delete_world (page_response "4998" account_page)
              (snd (_perform_request (L := run_lib) "account" GET
                      (Some (first_params GET None))
                      (with_params (first_params GET None) read_then_delete_world))))
    as [_ H].
  - vm_compute. reflexivity.
  - destruct (H (JDict account_page) JNull) as [Hret Hrate];
      try reflexivity; try discriminate.
    split; [exact Hret | rewrite Hrate; reflexivity].
Defined.

(** ** The pagination walk *)

Lemma split_once_truthy (s a b : string) :
  split_once s = Some (a, b) -> truthy (JStr s) = true.
Proof. destruct s; [discriminate | reflexivity]. Qed.

Section Walk.

Context {L : PyLib}.

Lemma loop_stop (fuel : nat) (url method : string) (all_data data nxt : json) (w : world) :
  next_link data = inr nxt ->
  truthy nxt = false ->
  pagination_loop (S fuel) url method all_data data w = (Return all_data, w).
Proof.
  intros Hn Ht. cbn [pagination_loop].
  unfold bind at 1, lift at 1. rewrite Hn. cbn [ret]. unfold ret at 1.
  rewrite Ht. reflexivity.
Qed.

Lemma loop_turn (fuel : nat) (url method : string) (all_data : dict) (data : json)
    (w : world) (u q : string) (resp : response) (w1 : world) (page d' : dict) :
  forall nxt,
    next_link data = inr nxt ->
    truthy nxt = true ->
    split_next nxt = inr (u, q) ->
    _perform_request u method (Some (merge_query (params w) (parse_qs q)))
      (with_params (merge_query (params w) (parse_qs q)) w) = (Return resp, w1) ->
    json_body resp = inr (JDict page) ->
    merge_items (JDict all_data) (Dict.items page) = inr (JDict d') ->
    pagination_loop (S fuel) url method (JDict all_data) data w =
    pagination_loop fuel u method (JDict d') (JDict page) w1.
Proof.
  intros nxt Hn Ht Hs E Hb Hm. cbn [pagination_loop].
  cbv [bind lift ret raise get_params set_params].
  rewrite Hn, Ht, Hs. cbn [fst snd self params os_environ network sent token_reads].
  unfold with_params in E. rewrite E, Hb. cbn [py_items]. rewrite Hm.
  reflexivity.
Qed.

End Walk.

Lemma bind_ext_on {A B} (m : M A) (f g : A -> M B) (w : world) :
  (forall a w', m w = (Return a, w') -> f a w' = g a w') ->
  bind m f w = bind m g w.
Proof.
  intro H. unfold bind. destruct (m w) as [[a| |] w']; auto.
Qed.

Lemma lift_Return {A} (r : exn + A) (w : world) (a : A) (w' : world) :
  lift r w = (Return a, w') -> r = inr a /\ w' = w.
Proof.
  destruct r; cbn; intro E; inversion E; auto.
Qed.

Section Fuel.

Context {L : PyLib}.

(** The walk does not depend on its bound once the bound exceeds the number
    of responses left: a turn that does not end the walk takes a response. *)
Lemma loop_fuel_irrelevant (fuel : nat) :
  forall fuel' url method all_data data w,
    length (network w) < fuel ->
    length (network w) < fuel' ->
    pagination_loop fuel url method all_data data w =
    pagination_loop fuel' url method all_data data w.
Proof.
  induction fuel as [|fuel IH]; intros fuel' url method all_data data w Hf Hf'; [lia|].
  destruct fuel' as [|fuel']; [lia|].
  cbn [pagination_loop].
  apply bind_ext_on. intros nxt w1 E1. apply lift_Return in E1 as [_ ->].
  destruct (truthy nxt); [|reflexivity].
  apply bind_ext_on. intros uq w2 E2. apply lift_Return in E2 as [_ ->].
  apply bind_ext_on. intros p0 w3 E3. inversion E3; subst p0 w3; clear E3.
  apply bind_ext_on. intros [] w4 E4. inversion E4; subst w4; clear E4.
  apply bind_ext_on. intros p1 w5 E5. inversion E5; subst p1 w5; clear E5.
  apply bind_ext_on. intros resp w6 E6.
  destruct (issued_request _ _ _ _ _ _ E6) as (_ & _ & _ & _ & Hnet & Ho & _);
    [discriminate|].
  cbn [network] in Hnet, Ho.
  apply bind_ext_on. intros data' w7 E7.
  assert (w7 = w6) as ->.
  { destruct (json_body resp); inversion E7; reflexivity. }
  apply bind_ext_on. intros its w8 E8. apply lift_Return in E8 as [_ ->].
  apply bind_ext_on. intros all_data' w9 E9. apply lift_Return in E9 as [_ ->].
  destruct (network w) as [|r rest]; [discriminate|].
  cbn [tl length] in *.
  apply IH; rewrite Hnet; lia.
Qed.

(** The bound [_deal_with_pagination] starts from is enough: any larger one
    gives the same walk. *)
Lemma deal_with_pagination_bound (fuel : nat) (url method : string) (data : json) (w : world) :
  length (network w) < fuel ->
  _deal_with_pagination url method data w = pagination_loop fuel url method data data w.
Proof.
  intro H. unfold _deal_with_pagination. apply loop_fuel_irrelevant; lia.
Qed.

End Fuel.

Lemma merge_page_onto (acc page : dict) :
  (forall k new v, Dict.get page k = Some (JList new) ->
                   Dict.get acc k = Some v -> is_list v = true) ->
  exists d, merge_items (JDict acc) (Dict.items page) = inr (JDict d) /\
    forall k, Dict.get d k = merged (Dict.get acc k) (Dict.get page k).
Proof.
  intro Hagree.
  destruct (merge_items_succeeds (Dict.items page) (DictFacts.items_NoDup page) acc)
    as [d Ed].
  { intros k new v Hi Ha. rewrite DictFacts.items_get in Hi. eauto. }
  exists d. split; [exact Ed|].
  destruct (merge_items_get _ (DictFacts.items_NoDup page) _ _ Ed) as (d' & Hd' & Hget).
  inversion Hd'; subst d'. intro k. rewrite Hget, DictFacts.items_get. reflexivity.
Qed.

Section ThreePages.

Context {L : PyLib}.

Variables (url : string) (po : option dict) (w : world).
Variables (r1 r2 r3 : response) (rest : list response).
Variables (p1 p2 p3 : dict).
Variables (u1 path1 q1 u2 path2 q2 : string) (n3 : json).

Hypothesis Husable : usable (self w).
Hypothesis Hnet : network w = r1 :: r2 :: r3 :: rest.
Hypothesis Hstatus : status_code r1 <> 204%Z /\ status_code r1 <> 404%Z /\ ok r1 = true.
Hypothesis Hbody1 : json_body r1 = inr (JDict p1).
Hypothesis Hbody2 : json_body r2 = inr (JDict p2).
Hypothesis Hbody3 : json_body r3 = inr (JDict p3).
Hypothesis Hnopage : Dict.mem "page" (first_params GET po) = false.
Hypothesis Hnext1 : next_link (JDict p1) = inr (JStr u1).
Hypothesis Hsplit1 : split_once u1 = Some (path1, q1).
Hypothesis Hnext2 : next_link (JDict p2) = inr (JStr u2).
Hypothesis Hsplit2 : split_once u2 = Some (path2, q2).
Hypothesis Hnext3 : next_link (JDict p3) = inr n3.
Hypothesis Hlast : truthy n3 = false.
Hypothesis Hagree12 : list_fields_agree p1 p2 = true.
Hypothesis Hagree23 : list_fields_agree p2 p3 = true.
Hypothesis Hagree13 : list_fields_agree p1 p3 = true.

(** The walk over three pages: the mapping returned and the world left. *)
Lemma three_pages_run :
  exists m w',
    get_data url GET po w = (Return (JDict m), w') /\
    (forall k, Dict.get m k =
               merged (merged (Dict.get p1 k) (Dict.get p2 k)) (Dict.get p3 k)) /\
    network w' = rest /\
    params w' =
      merge_query (merge_query (first_params GET po) (parse_qs q1)) (parse_qs q2) /\
    ratelimit (self w') =
      (Some (header_get (headers r1) "Ratelimit-Limit"),
       Some (header_get (headers r1) "Ratelimit-Remaining"),
       Some (header_get (headers r1) "Ratelimit-Reset")) /\
    length (sent w') = length (sent w) + 3.
Proof.
  destruct Hstatus as (H204 & H404 & Hok).
  assert (HGET : In GET verbs) by (left; reflexivity).
  (* first request *)
  destruct (perform_request_ok url GET (Some (first_params GET po))
              (with_params (first_params GET po) w) r1 (r2 :: r3 :: rest)
              Husable HGET Hnet) as (rq1 & E1 & _).
  rewrite get_data_run, E1.
  rewrite (after_ok _ _ _ _ _ _ H204 H404 Hbody1 Hok Hnext1).
  cbn [params with_params]. rewrite Hnopage, (split_once_truthy _ _ _ Hsplit1).
  cbn [andb negb]. unfold _deal_with_pagination.
  cbn [record_ratelimit network length].
  (* second page *)
  match goal with |- context [pagination_loop _ _ _ _ _ ?w1] => set (wa := w1) end.
  assert (Hua : usable (self wa)).
  { subst wa. cbn [self]. unfold usable, with_ratelimit. cbn [tokens].
    apply after_request_usable. exact Husable. }
  destruct (perform_request_ok path1 GET
              (Some (merge_query (params wa) (parse_qs q1)))
              (with_params (merge_query (params wa) (parse_qs q1)) wa)
              r2 (r3 :: rest) Hua HGET eq_refl) as (rq2 & E2 & _).
  destruct (merge_page p1 p2 Hagree12) as (d2 & Hm2 & Hd2).
  rewrite (loop_turn _ _ _ _ _ _ _ _ _ _ _ _ _ Hnext1
             (split_once_truthy _ _ _ Hsplit1)
             ltac:(cbn [split_next]; rewrite Hsplit1; reflexivity)
             E2 Hbody2 Hm2).
  (* third page *)
  match goal with |- context [pagination_loop _ _ _ _ _ ?w2] => set (wb := w2) end.
  assert (Hub : usable (self wb)).
  { subst wb. cbn [self]. apply after_request_usable. exact Hua. }
  destruct (perform_request_ok path2 GET
              (Some (merge_query (params wb) (parse_qs q2)))
              (with_params (merge_query (params wb) (parse_qs q2)) wb)
              r3 rest Hub HGET eq_refl) as (rq3 & E3 & _).
  destruct (merge_page_onto d2 p3) as (d3 & Hm3 & Hd3).
  { intros k new v Hk3 Hk2. rewrite Hd2 in Hk2.
    pose proof (list_fields_agree_spec _ _ Hagree23 k new) as A23.
    pose proof (list_fields_agree_spec _ _ Hagree13 k new) as A13.
    destruct (Dict.get p2 k) as [v2|] eqn:E2k.
    - specialize (A23 v2 Hk3 eq_refl).
      destruct v2; try discriminate.
      cbn [merged] in Hk2.
      destruct (Dict.get p1 k) as [[| | | |old|]|]; inversion Hk2; reflexivity.
    - cbn [merged] in Hk2. exact (A13 v Hk3 Hk2). }
  rewrite (loop_turn _ _ _ _ _ _ _ _ _ _ _ _ _ Hnext2
             (split_once_truthy _ _ _ Hsplit2)
             ltac:(cbn [split_next]; rewrite Hsplit2; reflexivity)
             E3 Hbody3 Hm3).
  rewrite (loop_stop _ _ _ _ _ _ _ Hnext3 Hlast).
  exists d3. eexists. split; [reflexivity|].
  split; [intro k; rewrite Hd3, Hd2; reflexivity|].
  subst wb wa. unfold record_ratelimit, with_params.
  cbn [network params self sent os_environ token_reads].
  repeat split.
  - destruct (after_request_fields
                (after_request (with_ratelimit (headers r1) (after_request (self w)))))
      as (_ & _ & Hr1).
    destruct (after_request_fields (with_ratelimit (headers r1) (after_request (self w))))
      as (_ & _ & Hr2).
    etransitivity; [exact Hr1|]. etransitivity; [exact Hr2|]. reflexivity.
  - rewrite !length_app. cbn [length]. lia.
Qed.

End ThreePages.

(** C6: a GET answered by three pages, the first two with a next link (a
    URL with a query part) and the third without, on a session that can
    send and without an explicit page, and where no page brings a list under
    a key that holds something else: [get_data] returns one mapping in which
    a field that is a list on the three pages is the concatenation of the
    three lists in page order, and a field that is not a list on page 3 has
    its value of page 3. *)
Theorem C6_three_pages_are_merged {L : PyLib}
    (url : string) (po : option dict) (w : world)
    (r1 r2 r3 : response) (rest : list response) (p1 p2 p3 : dict)
    (u1 path1 q1 u2 path2 q2 : string) (n3 : json) :
  usable (self w) ->
  network w = r1 :: r2 :: r3 :: rest ->
  status_code r1 <> 204%Z /\ status_code r1 <> 404%Z /\ ok r1 = true ->
  json_body r1 = inr (JDict p1) ->
  json_body r2 = inr (JDict p2) ->
  json_body r3 = inr (JDict p3) ->
  Dict.mem "page" (first_params GET po) = false ->
  next_link (JDict p1) = inr (JStr u1) -> split_once u1 = Some (path1, q1) ->
  next_link (JDict p2) = inr (JStr u2) -> split_once u2 = Some (path2, q2) ->
  next_link (JDict p3) = inr n3 -> truthy n3 = false ->
  list_fields_agree p1 p2 = true ->
  list_fields_agree p2 p3 = true ->
  list_fields_agree p1 p3 = true ->
  exists m w',
    get_data url GET po w = (Return (JDict m), w') /\
    (forall k l1 l2 l3,
       Dict.get p1 k = Some (JList l1) ->
       Dict.get p2 k = Some (JList l2) ->
       Dict.get p3 k = Some (JList l3) ->
       Dict.get m k = Some (JList (l1 ++ l2 ++ l3))) /\
    (forall k v,
       Dict.get p3 k = Some v -> is_list v = false -> Dict.get m k = Some v) /\
    network w' = rest /\
    length (sent w') = length (sent w) + 3.
Proof.
  intros Hu Hn Hs Hb1 Hb2 Hb3 Hp Hn1 Hs1 Hn2 Hs2 Hn3 Hl A12 A23 A13.
  destruct (three_pages_run url po w r1 r2 r3 rest p1 p2 p3 u1 path1 q1 u2 path2 q2 n3
              Hu Hn Hs Hb1 Hb2 Hb3 Hp Hn1 Hs1 Hn2 Hs2 Hn3 Hl A12 A23 A13)
    as (m & w' & Hrun & Hm & Hnet & _ & _ & Hsent).
  exists m, w'. split; [exact Hrun|]. split; [|split; [|split; assumption]].
  - intros k l1 l2 l3 E1 E2 E3. rewrite Hm, E1, E2, E3. cbn [merged].
    rewrite app_assoc. reflexivity.
  - intros k v E3 Hv. rewrite Hm, E3. destruct v; try discriminate; reflexivity.
Qed.

(** The session of the three-page run can send. *)
Lemma usable_one_token : usable (self three_pages_world).
Proof.
  split; [discriminate|]. repeat constructor. discriminate.
Defined.

(** Five droplets on three pages. *)
Lemma C6_witness :
  exists m,
    fst (get_data (L := run_lib) "droplets" GET None three_pages_world) = Return (JDict m) /\
    Dict.get m "droplets" = Some (JList [JNum 1; JNum 2; JNum 3; JNum 4; JNum 5]) /\
    Dict.get m "page" = Some (JNum 3).
Proof.
  destruct (C6_three_pages_are_merged (L := run_lib) "droplets" None three_pages_world
              (page_response "4998" droplets_page_1)
              (page_response "4997" droplets_page_2)
              (page_response "4996" droplets_page_3) []
              droplets_page_1 droplets_page_2 droplets_page_3
              "https://api.digitalocean.com/v2/droplets?page=2&per_page=200"
              "https://api.digitalocean.com/v2/droplets" "page=2&per_page=200"
              "https://api.digitalocean.com/v2/droplets?page=3&per_page=200"
              "https://api.digitalocean.com/v2/droplets" "page=3&per_page=200"
              JNull)
    as (m & w' & Hrun & Hlists & Hother & _);
    try reflexivity.
  - exact usable_one_token.
  - repeat split; discriminate.
  - exists m. rewrite Hrun. split; [reflexivity|]. split.
    + apply (Hlists "droplets" [JNum 1; JNum 2] [JNum 3; JNum 4] [JNum 5]); reflexivity.
    + apply (Hother "page" (JNum 3)); reflexivity.
Defined.

(** ** What happens to the caller's mapping *)

Lemma set_absent (d : dict) (k : string) (v : json) :
  Dict.mem k d = false -> Dict.set d k v = d ++ [(k, v)].
Proof.
  unfold Dict.mem. induction d as [|[k' v'] d IH]; cbn; [reflexivity|].
  destruct (k' =? k); [discriminate|]. intro H. rewrite IH by exact H. reflexivity.
Qed.

Lemma mem_set (d : dict) (k k' : string) (v : json) :
  Dict.mem k (Dict.set d k' v) = (k' =? k) || Dict.mem k d.
Proof.
  unfold Dict.mem. destruct (k' =? k) eqn:E.
  - apply String.eqb_eq in E. subst. rewrite DictFacts.get_set_same. reflexivity.
  - apply String.eqb_neq in E. rewrite DictFacts.get_set_other by exact E. reflexivity.
Qed.

Lemma mem_merge_query (qs : list (string * list string)) (p : dict) (k : string) :
  Dict.mem k p = true -> Dict.mem k (merge_query p qs) = true.
Proof.
  revert p. induction qs as [|[k' vs] qs IH]; intros p H; [exact H|].
  apply IH. rewrite mem_set, H. apply orb_true_r.
Qed.

(** A key of the mapping holds, after a query has been written, the list of
    strings the query gives it, or what it held before. *)
Lemma merge_query_get (qs : list (string * list string)) (p : dict) (k : string) :
  (exists vs, In (k, vs) qs /\
              Dict.get (merge_query p qs) k = Some (JList (map JStr vs)))
  \/ (~ In k (map fst qs) /\ Dict.get (merge_query p qs) k = Dict.get p k).
Proof.
  revert p. induction qs as [|[k0 vs0] qs IH]; intro p.
  - right. split; [intros [] | reflexivity].
  - change (merge_query p ((k0, vs0) :: qs))
      with (merge_query (Dict.set p k0 (JList (map JStr vs0))) qs).
    destruct (IH (Dict.set p k0 (JList (map JStr vs0)))) as [(vs & Hin & Hg)|[Hnot Hg]].
    + left. exists vs. split; [right; exact Hin | exact Hg].
    + destruct (String.eqb_spec k0 k) as [->|Hne].
      * left. exists vs0. split; [left; reflexivity|].
        rewrite Hg. apply DictFacts.get_set_same.
      * right. split.
        -- cbn. intros [H|H]; [exact (Hne H) | exact (Hnot H)].
        -- rewrite Hg. apply DictFacts.get_set_other. exact Hne.
Qed.

Section Writes.

Context {L : PyLib}.

Lemma written_app (a b : list string) (p : dict) :
  written (a ++ b) p = written b (written a p).
Proof. unfold written. apply fold_left_app. Qed.

Lemma mem_written (queries : list string) (p : dict) (k : string) :
  Dict.mem k p = true -> Dict.mem k (written queries p) = true.
Proof.
  revert p. induction queries as [|q queries IH]; intros p H; [exact H|].
  cbn. apply IH. apply mem_merge_query. exact H.
Qed.

(** Every value of the mapping after the writes is the value it had or a
    list of strings. *)
Lemma written_get (queries : list string) (p : dict) (k : string) :
  Dict.get (written queries p) k = Dict.get p k \/
  exists vs, Dict.get (written queries p) k = Some (JList (map JStr vs)).
Proof.
  revert p. induction queries as [|q queries IH]; intro p; [left; reflexivity|].
  change (written (q :: queries) p) with (written queries (merge_query p (parse_qs q))).
  destruct (IH (merge_query p (parse_qs q))) as [H|H]; [|right; exact H].
  rewrite H.
  destruct (merge_query_get (parse_qs q) p k) as [(vs & _ & Hg)|[_ Hg]].
  - right. exists vs. exact Hg.
  - left. exact Hg.
Qed.

Lemma writes_ret {A} (a : A) : writes_queries (ret a).
Proof. intro w. exists []. reflexivity. Qed.

Lemma writes_raise {A} (e : exn) : writes_queries (@raise A e).
Proof. intro w. exists []. reflexivity. Qed.

Lemma writes_lift {A} (r : exn + A) : writes_queries (lift r).
Proof. destruct r; [apply writes_raise | apply writes_ret]. Qed.

Lemma writes_bind {A B} (m : M A) (f : A -> M B) :
  writes_queries m -> (forall a, writes_queries (f a)) -> writes_queries (bind m f).
Proof.
  intros Hm Hf w. unfold bind. destruct (Hm w) as [qs1 H1].
  destruct (m w) as [[a| |] w1]; cbn [snd] in *.
  - destruct (Hf a w1) as [qs2 H2]. exists (qs1 ++ qs2).
    rewrite H2, H1, written_app. reflexivity.
  - exists qs1. exact H1.
  - exists qs1. exact H1.
Qed.

Lemma writes_perform_request (url type : string) (po : option dict) :
  writes_queries (_perform_request url type po).
Proof. intro w. exists []. apply perform_request_params. Qed.

(** [for key, value in parse_qs(query).items(): params[key] = value] *)
Lemma writes_merge (q : string) :
  writes_queries (p <- get_params ;; set_params (merge_query p (parse_qs q))).
Proof. intro w. exists [q]. reflexivity. Qed.

Lemma writes_get_params : writes_queries get_params.
Proof. intro w. exists []. reflexivity. Qed.

Lemma writes_init_ratelimit (h : list (string * string)) :
  writes_queries (__init_ratelimit h).
Proof. intro w. exists []. reflexivity. Qed.

(** A turn of the walk from the request on. *)
Lemma writes_turn_tail (u method : string) (all_data : json) (k : json -> json -> M json) :
  (forall all_data' data', writes_queries (k all_data' data')) ->
  writes_queries
    (p <- get_params ;;
     resp <- _perform_request u method (Some p) ;;
     data' <- match json_body resp with
              | inl msg => raise (ValueError msg)
              | inr d => ret d
              end ;;
     its <- lift (py_items data') ;;
     all_data' <- lift (merge_items all_data its) ;;
     k all_data' data').
Proof.
  intro Hk.
  apply writes_bind; [apply writes_get_params|]. intro p.
  apply writes_bind; [apply writes_perform_request|]. intro resp.
  apply writes_bind; [destruct (json_body resp); [apply writes_raise | apply writes_ret]|].
  intro data'.
  apply writes_bind; [apply writes_lift|]. intro its.
  apply writes_bind; [apply writes_lift|]. intro all_data'.
  apply Hk.
Qed.

Lemma writes_loop (fuel : nat) :
  forall url method all_data data,
    writes_queries (pagination_loop fuel url method all_data data).
Proof.
  induction fuel as [|fuel IH]; intros url method all_data data.
  - intro w. exists []. reflexivity.
  - cbn [pagination_loop].
    apply writes_bind; [apply writes_lift|]. intro nxt.
    destruct (truthy nxt); [|apply writes_ret].
    apply writes_bind; [apply writes_lift|]. intro uq.
    intro w.
    destruct (writes_turn_tail (fst uq) method all_data
                (fun a d => pagination_loop fuel (fst uq) method a d)
                (fun a d => IH (fst uq) method a d)
                (with_params (merge_query (params w) (parse_qs (snd uq))) w))
      as [queries Hq].
    exists (snd uq :: queries). exact Hq.
Qed.

(** A turn of the walk that follows the link [u?q] writes the parameters
    of [q] into the mapping before anything else. *)
Lemma loop_turn_writes (fuel : nat) (url method : string) (all_data data nxt : json)
    (u q : string) (w : world) :
  next_link data = inr nxt ->
  truthy nxt = true ->
  split_next nxt = inr (u, q) ->
  exists queries,
    params (snd (pagination_loop (S fuel) url method all_data data w)) =
    written (q :: queries) (params w).
Proof.
  intros Hn Ht Hs. cbn [pagination_loop].
  rewrite (bind_Return (lift (next_link data)) _ w nxt w) by (rewrite Hn; reflexivity).
  rewrite Ht.
  rewrite (bind_Return (lift (split_next nxt)) _ w (u, q) w) by (rewrite Hs; reflexivity).
  cbn [fst snd].
  destruct (writes_turn_tail u method all_data
              (fun a d => pagination_loop fuel u method a d)
              (fun a d => writes_loop fuel u method a d)
              (with_params (merge_query (params w) (parse_qs q)) w))
    as [queries Hq].
  exists queries. exact Hq.
Qed.

Lemma writes_after_first_response (url type : string) (req : response) :
  writes_queries (after_first_response url type req).
Proof.
  unfold after_first_response.
  destruct (status_code req =? 204)%Z; [apply writes_ret|].
  destruct (status_code req =? 404)%Z; [apply writes_raise|].
  destruct (json_body req) as [msg|data]; [apply writes_raise|].
  apply writes_bind.
  { destruct (negb (ok req)); [|apply writes_ret].
    apply writes_bind; [apply writes_lift|]. intro. apply writes_raise. }
  intros _.
  apply writes_bind; [apply writes_init_ratelimit|]. intros _.
  apply writes_bind; [apply writes_lift|]. intro links.
  apply writes_bind; [apply writes_lift|]. intro pages.
  apply writes_bind; [apply writes_lift|]. intro nxt.
  apply writes_bind; [apply writes_get_params|]. intro p.
  destruct (truthy nxt && negb (Dict.mem "page" p)); [|apply writes_ret].
  intro w. unfold _deal_with_pagination. apply writes_loop.
Qed.

(** Whatever its outcome, [get_data] leaves in the mapping the parameters
    of its first request with queries written over them. *)
Lemma get_data_writes (url type : string) (po : option dict) (w : world) :
  exists queries,
    params (snd (get_data url type po w)) = written queries (first_params type po).
Proof.
  rewrite get_data_run.
  pose proof (perform_request_params url type (Some (first_params type po))
                (with_params (first_params type po) w)) as Hp.
  destruct (_perform_request url type (Some (first_params type po))
              (with_params (first_params type po) w)) as [[req| |] w1];
    cbn [snd params with_params] in Hp.
  - destruct (writes_after_first_response url type req w1) as [queries Hq].
    exists queries. rewrite Hq, Hp. reflexivity.
  - exists []. exact Hp.
  - exists []. exact Hp.
Qed.

End Writes.

(** C10: [get_data] changes the mapping the caller supplied.  For GET and a
    mapping without "per_page", the key is inserted with the value 200
    before the first request, and whatever the outcome of the call the
    mapping the caller holds afterwards contains it, so it differs from the
    mapping as it was.  When the first page carries a next link [u?q] and
    the walk is entered, the parameters of [q] are written into the same
    mapping, and so does every later turn of the walk with its own link;
    each value written is the list of strings [parse_qs] gives the key. *)
Theorem C10_params_mutated_in_place {L : PyLib} :
  (forall url p w,
     Dict.mem "per_page" p = false ->
     first_params GET (Some p) = p ++ [("per_page", JNum 200)] /\
     (exists queries,
        params (snd (get_data url GET (Some p) w)) =
        written queries (p ++ [("per_page", JNum 200)])) /\
     Dict.mem "per_page" (params (snd (get_data url GET (Some p) w))) = true /\
     params (snd (get_data url GET (Some p) w)) <> p)
  /\
  (forall url type po w req w1 data s u q,
     _perform_request url type (Some (first_params type po))
       (with_params (first_params type po) w) = (Return req, w1) ->
     status_code req <> 204%Z -> status_code req <> 404%Z -> ok req = true ->
     json_body req = inr data ->
     next_link data = inr (JStr s) -> split_once s = Some (u, q) ->
     Dict.mem "page" (first_params type po) = false ->
     exists queries,
       params (snd (get_data url type po w)) =
       written (q :: queries) (first_params type po))
  /\
  (forall fuel url method all_data data nxt u q w,
     next_link data = inr nxt -> truthy nxt = true -> split_next nxt = inr (u, q) ->
     exists queries,
       params (snd (pagination_loop (S fuel) url method all_data data w)) =
       written (q :: queries) (params w))
  /\
  (forall qs p k,
     (exists vs, In (k, vs) qs /\
                 Dict.get (merge_query p qs) k = Some (JList (map JStr vs)))
     \/ (~ In k (map fst qs) /\ Dict.get (merge_query p qs) k = Dict.get p k)).
Proof.
  split; [|split; [|split]].
  - intros url p w Hp.
    assert (Hfp : first_params GET (Some p) = p ++ [("per_page", JNum 200)]).
    { unfold first_params, Dict.setdefault. cbn [String.eqb Ascii.eqb Bool.eqb GET].
      rewrite Hp. apply set_absent. exact Hp. }
    destruct (get_data_writes url GET (Some p) w) as [queries Hq].
    rewrite Hfp in Hq.
    assert (Hmem : Dict.mem "per_page" (params (snd (get_data url GET (Some p) w))) = true).
    { rewrite Hq. apply mem_written. rewrite <- (set_absent _ _ _ Hp), mem_set.
      reflexivity. }
    split; [exact Hfp|]. split; [exists queries; exact Hq|]. split; [exact Hmem|].
    intro Heq. rewrite Heq in Hmem. congruence.
  - intros url type po w req w1 data s u q E H1 H2 Hok Hbody Hnext Hsplit Hpage.
    pose proof (perform_request_params url type (Some (first_params type po))
                  (with_params (first_params type po) w)) as Hp.
    rewrite E in Hp. cbn [snd params with_params] in Hp.
    rewrite get_data_run, E, (after_ok _ _ _ _ _ _ H1 H2 Hbody Hok Hnext).
    rewrite Hp, Hpage, (split_once_truthy _ _ _ Hsplit). cbn [andb negb].
    unfold _deal_with_pagination.
    destruct (loop_turn_writes (length (network (record_ratelimit (headers req) w1)))
                url type data data (JStr s) u q (record_ratelimit (headers req) w1)
                Hnext (split_once_truthy _ _ _ Hsplit))
      as [queries Hq].
    { cbn [split_next]. rewrite Hsplit. reflexivity. }
    exists queries. rewrite Hq. cbn [record_ratelimit params]. rewrite Hp. reflexivity.
  - intros. eapply loop_turn_writes; eassumption.
  - intros. apply merge_query_get.
Qed.

(** A caller's mapping with a tag name only, through the three-page walk. *)
Lemma C10_witness :
  let out := get_data (L := run_lib) "droplets" GET (Some tag_params) three_pages_world in
  Dict.mem "per_page" (params (snd out)) = true /\
  params (snd out) <> tag_params.
Proof.
  cbv zeta.
  destruct (proj1 (C10_params_mutated_in_place (L := run_lib))
              "droplets" tag_params three_pages_world)
    as (_ & _ & Hmem & Hne).
  - reflexivity.
  - split; assumption.
Defined.

(** The caller's mapping after the three-page walk. *)
Example params_after_three_pages :
  params (snd (get_data (L := run_lib) "droplets" GET (Some tag_params) three_pages_world)) =
  [("tag_name", JStr "web");
   ("per_page", JList [JStr "200"]);
   ("page", JList [JStr "3"])].
Proof. vm_compute. reflexivity. Qed.

(** ** The other outcomes of the first response *)

(** A 404 answer to the first request raises [NotFoundError]: no data comes
    back and nothing more is sent. *)
Theorem not_found_raises {L : PyLib}
    (url type : string) (po : option dict) (w : world) (req : response) (w1 : world) :
  _perform_request url type (Some (first_params type po))
    (with_params (first_params type po) w) = (Return req, w1) ->
  status_code req = 404%Z ->
  get_data url type po w = (Raise NotFoundError, w1).
Proof.
  intros E Hs. rewrite get_data_run, E. apply after_404. exact Hs.
Qed.

Lemma not_found_raises_witness :
  fst (get_data (L := run_lib) "droplets/1" GET None
         (one_token_world [error_response 404 not_found_body])) = Raise NotFoundError.
Proof.
  rewrite (not_found_raises (L := run_lib) "droplets/1" GET None
             (one_token_world [error_response 404 not_found_body])
             (error_response 404 not_found_body)
             (snd (_perform_request (L := run_lib) "droplets/1" GET
                     (Some (first_params GET None))
                     (with_params (first_params GET None)
                        (one_token_world [error_response 404 not_found_body]))))).
  - reflexivity.
  - vm_compute. reflexivity.
  - reflexivity.
Defined.

(** A first response, other than 204 and 404, whose body does not decode
    raises [JSONReadError] with the decoder's message after a fixed prefix,
    whatever its status. *)
Theorem undecodable_raises {L : PyLib}
    (url type : string) (po : option dict) (w : world) (req : response) (w1 : world)
    (msg : string) :
  _perform_request url type (Some (first_params type po))
    (with_params (first_params type po) w) = (Return req, w1) ->
  status_code req <> 204%Z -> status_code req <> 404%Z ->
  json_body req = inl msg ->
  get_data url type po w =
    (Raise (JSONReadError ("Read failed from DigitalOcean: " ++ msg)%string), w1).
Proof.
  intros E H1 H2 Hb. rewrite get_data_run, E. apply after_undecodable; assumption.
Qed.

Lemma undecodable_raises_witness :
  fst (get_data (L := run_lib) "account" GET None
         (one_token_world [mkResponse 200 [] (inl "Expecting value")])) =
  Raise (JSONReadError "Read failed from DigitalOcean: Expecting value").
Proof.
  rewrite (undecodable_raises (L := run_lib) "account" GET None
             (one_token_world [mkResponse 200 [] (inl "Expecting value")])
             (mkResponse 200 [] (inl "Expecting value"))
             (snd (_perform_request (L := run_lib) "account" GET
                     (Some (first_params GET None))
                     (with_params (first_params GET None)
                        (one_token_world [mkResponse 200 [] (inl "Expecting value")]))))
             "Expecting value").
  - reflexivity.
  - vm_compute. reflexivity.
  - discriminate.
  - discriminate.
  - reflexivity.
Defined.

(** With no token at all, or when the token the cursor comes to is empty,
    [_perform_request] raises [TokenError] and sends nothing. *)
Theorem no_token_raises {L : PyLib}
    (url type : string) (po : option dict) (w : world) :
  fst (read_token (self w)) = "" ->
  fst (_perform_request url type po w) =
    Raise (TokenError "No token provided. Please use a valid token") /\
  sent (snd (_perform_request url type po w)) = sent w.
Proof.
  intro Ht.
  destruct (perform_request_cases url type po w) as [[_ E1]|[[Hne _]|[Hne _]]];
    cbv zeta in *; try contradiction.
  rewrite E1. split; reflexivity.
Qed.

Lemma no_token_raises_witness :
  fst (_perform_request (L := run_lib) "account" GET None
         (world_of (session_with []) [empty_page])) =
  Raise (TokenError "No token provided. Please use a valid token").
Proof.
  apply (no_token_raises (L := run_lib) "account" GET None
           (world_of (session_with []) [empty_page])).
  reflexivity.
Defined.

(** * Further properties of the request engine *)

(** ** The request that goes out *)

Section RequestShape.

Context {L : PyLib}.

Lemma read_token_end_point (r : Requester) :
  end_point (snd (read_token r)) = end_point r.
Proof. unfold read_token. destruct (tokens r); reflexivity. Qed.

Lemma get_timeout_value (w : world) :
  get_timeout w =
  (Return match PYTHON_DIGITALOCEAN_REQUEST_TIMEOUT_SEC (os_environ w) with
          | Some s => if negb (s =? "") then float s else None
          | None => None
          end, w).
Proof.
  unfold get_timeout, bind, get_environ, ret.
  destruct (PYTHON_DIGITALOCEAN_REQUEST_TIMEOUT_SEC (os_environ w)) as [s|];
    [destruct (negb (s =? ""))|]; reflexivity.
Qed.

(** The call that passes the emptiness check with a verb of the table, in
    full: the request and the world it is sent from. *)
Lemma perform_request_sends (url type : string) (po : option dict) (w : world)
    (m : transport) (h : list (string * string)) (pl : payload) :
  fst (read_token (self w)) <> "" ->
  lookup type (match po with Some p => p | None => [] end) = Some (m, h, pl) ->
  _perform_request url type po w =
    send (mkRequest m (urljoin (end_point (self w)) url)
            (h ++ [("Authorization",
                    ("Bearer " ++ fst (read_token (snd (read_token (self w)))))%string);
                   ("User-Agent", agent)])
            pl
            (match
               match PYTHON_DIGITALOCEAN_REQUEST_TIMEOUT_SEC (os_environ w) with
               | Some s => if negb (s =? "") then float s else None
               | None => None
               end
             with
             | Some f => if float_truthy f then Some f else None
             | None => None
             end))
      (with_self (after_request (self w)) (S (S (token_reads w))) w).
Proof.
  intros Ht El. unfold _perform_request. cbv zeta.
  rewrite (bind_Return _ _ _ _ _ (token_run w)).
  apply String.eqb_neq in Ht. rewrite Ht.
  rewrite (bind_Return get_self _ _ _ _ eq_refl). cbn [with_self self].
  rewrite El.
  rewrite (bind_Return _ _ _ _ _ (token_run _)).
  cbn [with_self self token_reads params os_environ network sent].
  rewrite read_token_end_point.
  rewrite (bind_Return _ _ _ _ _ (get_timeout_value _)).
  reflexivity.
Qed.

End RequestShape.

(** The address, the headers and the body of a request: the address is the
    path joined to the end point; the headers are the content type, the
    bearer token and the agent, in this order; GET carries the parameters as
    its query and goes through the session; every other verb carries their
    JSON text as its body, and PATCH and POST are the two that do not go
    through the session. *)
Theorem request_shape {L : PyLib} (url type : string) (po : option dict) (w : world) :
  fst (read_token (self w)) <> "" ->
  In type verbs ->
  exists rq ct,
    sent (snd (_perform_request url type po w)) = sent w ++ [rq] /\
    rq_url rq = urljoin (end_point (self w)) url /\
    rq_headers rq =
      [(ct, "application/json");
       ("Authorization", ("Bearer " ++ fst (read_token (snd (read_token (self w)))))%string);
       ("User-Agent", agent)] /\
    lower ct = "content-type" /\
    (type = GET ->
     rq_via rq = session_get /\
     rq_payload rq = params_kw (match po with Some p => p | None => [] end)) /\
    (type <> GET ->
     rq_payload rq = data_kw (json_dumps (match po with Some p => p | None => [] end))) /\
    (type = PATCH \/ type = POST <->
     rq_via rq = requests_patch \/ rq_via rq = requests_post).
Proof.
  intros Ht Hv.
  set (p := match po with Some p => p | None => [] end).
  assert (Hcases :
    exists m ct pl, lookup type p = Some (m, [(ct, "application/json")], pl) /\
      lower ct = "content-type" /\
      (type = GET -> m = session_get /\ pl = params_kw p) /\
      (type <> GET -> pl = data_kw (json_dumps p)) /\
      (type = PATCH \/ type = POST <-> m = requests_patch \/ m = requests_post)).
  { unfold verbs in Hv. cbn [In] in Hv.
    destruct Hv as [<-|[<-|[<-|[<-|[<-|[]]]]]]; cbn;
      do 3 eexists; (split; [reflexivity|]); (split; [reflexivity|]);
      (split; [intro; try discriminate; split; reflexivity|]);
      (split; [intro; try congruence; reflexivity|]);
      (split; [intros [?|?]; try discriminate; auto | intros [?|?]; try discriminate; auto]). }
  destruct Hcases as (m & ct & pl & El & Hct & Hget & Hother & Hvia).
  rewrite (perform_request_sends url type po w m _ pl Ht El), send_run.
  eexists _, ct. cbn [snd sent with_self rq_url rq_headers rq_via rq_payload app].
  split; [reflexivity|]. split; [reflexivity|]. split; [reflexivity|].
  split; [exact Hct|]. split; [exact Hget|]. split; [exact Hother | exact Hvia].
Qed.

Lemma request_shape_witness :
  exists rq,
    sent (snd (_perform_request (L := run_lib) "droplets" POST (Some tag_params)
                 (one_token_world [empty_page]))) = [rq] /\
    rq_url rq = "https://api.digitalocean.com/v2/droplets" /\
    rq_payload rq = data_kw "{}".
Proof.
  destruct (request_shape (L := run_lib) "droplets" POST (Some tag_params)
              (one_token_world [empty_page]))
    as (rq & ct & Hs & Hu & _ & _ & _ & Hp & _).
  - discriminate.
  - unfold verbs. cbn [In]. auto.
  - exists rq. split; [exact Hs|]. split; [exact Hu|]. apply Hp. discriminate.
Defined.

(** A verb outside the table: the call raises [KeyError] and sends nothing,
    but the emptiness check has read the [token] property once, so the
    cursor has moved by one. *)
Theorem unknown_verb_raises {L : PyLib} (url type : string) (po : option dict) (w : world) :
  fst (read_token (self w)) <> "" ->
  ~ In type verbs ->
  fst (_perform_request url type po w) = Raise KeyError /\
  sent (snd (_perform_request url type po w)) = sent w /\
  network (snd (_perform_request url type po w)) = network w /\
  token_reads (snd (_perform_request url type po w)) = S (token_reads w) /\
  _last_used (self (snd (_perform_request url type po w))) =
    (_last_used (self w) + 1) mod length (tokens (self w)).
Proof.
  intros Ht Hv.
  assert (Hne : tokens (self w) <> []).
  { intro E. apply Ht. rewrite (read_token_empty _ E). reflexivity. }
  destruct (perform_request_cases url type po w) as [[Hc _]|[[_ [_ E1]]|[_ E1]]];
    cbv zeta in *.
  - contradiction.
  - rewrite E1. cbn [fst snd with_self sent network token_reads self].
    rewrite (read_token_step _ Hne). repeat split.
  - exfalso. destruct E1 as (rq & h & _ & _ & El & _). apply Hv.
    revert El. unfold lookup, verbs. cbn [In].
    repeat match goal with
           | |- context [if ?a =? ?b then _ else _] =>
               destruct (String.eqb_spec a b); [subst; auto 10|]
           end.
    discriminate.
Qed.

Lemma unknown_verb_raises_witness :
  fst (_perform_request (L := run_lib) "droplets" "HEAD" None
         (one_token_world [empty_page])) = Raise KeyError.
Proof.
  apply (unknown_verb_raises (L := run_lib) "droplets" "HEAD" None
           (one_token_world [empty_page])).
  - discriminate.
  - unfold verbs. cbn [In]. intros [H|[H|[H|[H|[H|[]]]]]]; discriminate.
Defined.

(** The time limit of a request comes from the environment alone: none when
    the variable is unset or empty, none when its text is not a number (the
    request goes out all the same), none when the number is zero, and the
    number otherwise. *)
Theorem request_timeout {L : PyLib} (url type : string) (po : option dict) (w : world) :
  fst (read_token (self w)) <> "" ->
  In type verbs ->
  exists rq,
    sent (snd (_perform_request url type po w)) = sent w ++ [rq] /\
    (PYTHON_DIGITALOCEAN_REQUEST_TIMEOUT_SEC (os_environ w) = None \/
     PYTHON_DIGITALOCEAN_REQUEST_TIMEOUT_SEC (os_environ w) = Some "" ->
     rq_timeout rq = None) /\
    (forall s,
       PYTHON_DIGITALOCEAN_REQUEST_TIMEOUT_SEC (os_environ w) = Some s -> s <> "" ->
       rq_timeout rq =
         match float s with
         | Some f => if float_truthy f then Some f else None
         | None => None
         end).
Proof.
  intros Ht Hv.
  destruct (lookup_verb type (match po with Some p => p | None => [] end) Hv)
    as (m & h & pl & El & _).
  rewrite (perform_request_sends url type po w m h pl Ht El), send_run.
  eexists. cbn [snd sent with_self rq_timeout]. split; [reflexivity|]. split.
  - intros [E|E]; rewrite E; reflexivity.
  - intros s E Hs. rewrite E. apply String.eqb_neq in Hs. rewrite Hs. reflexivity.
Qed.

Lemma request_timeout_witness :
  exists rq,
    sent (snd (_perform_request (L := run_lib) "account" GET None
                 (mkWorld (session_with ["dop_v1_secret"]) []
                    (mkEnviron None None (Some "ten seconds")) [empty_page] [] 0))) = [rq] /\
    rq_timeout rq = None.
Proof.
  destruct (request_timeout (L := run_lib) "account" GET None
              (mkWorld (session_with ["dop_v1_secret"]) []
                 (mkEnviron None None (Some "ten seconds")) [empty_page] [] 0))
    as (rq & Hs & _ & Ht).
  - discriminate.
  - left. reflexivity.
  - exists rq. split; [exact Hs|].
    rewrite (Ht "ten seconds"); [reflexivity | reflexivity | discriminate].
Defined.

(** ** The stride of the rotation *)

Section Stride.

Context {L : PyLib}.

Lemma usable_after_call (url type : string) (po : option dict) (w : world) :
  usable (self w) -> In type verbs ->
  usable (self (snd (_perform_request url type po w))).
Proof.
  intros Hu Hv.
  destruct (_perform_request url type po w) as [o w1] eqn:E.
  assert (Hok : forall e, o <> Raise e).
  { intro e. replace o with (fst (_perform_request url type po w)) by (rewrite E; reflexivity).
    destruct Hu. apply request_not_rejected; assumption. }
  destruct (issued_request _ _ _ _ _ _ E Hok) as (_ & Htok & _).
  cbn [snd]. unfold usable. rewrite Htok. exact Hu.
Qed.

(** Request number k (from 1) of a run of calls carries the token at index
    (c + 2k) mod n, where c is the cursor the run starts from and n the
    number of tokens. *)
Lemma requests_stride (calls : list (string * string * option dict)) :
  Forall (fun c => In (snd (fst c)) verbs) calls ->
  forall w,
    usable (self w) ->
    exists rqs,
      sent (perform_requests calls w) = sent w ++ rqs /\
      map authorization rqs =
        map (fun k => Some ("Bearer " ++
                            nth ((_last_used (self w) + 2 * k) mod length (tokens (self w)))
                              (tokens (self w)) "")%string)
            (seq 1 (length calls)) /\
      tokens (self (perform_requests calls w)) = tokens (self w).
Proof.
  intro Hverbs. induction Hverbs as [|[[url type] po] calls Hv _ IH]; intros w Hu.
  - exists []. rewrite app_nil_r. repeat split.
  - cbn [perform_requests fst snd] in *.
    pose proof (usable_after_call url type po w Hu Hv) as Hu1.
    destruct (_perform_request url type po w) as [o w1] eqn:E. cbn [snd] in *.
    assert (Hok : forall e, o <> Raise e).
    { intro e. replace o with (fst (_perform_request url type po w)) by (rewrite E; reflexivity).
      destruct Hu. apply request_not_rejected; assumption. }
    destruct (issued_request _ _ _ _ _ _ E Hok)
      as (_ & Htok & Hcur & _ & _ & _ & rq & Hs & Ha).
    destruct (IH w1 Hu1) as (rqs & Hs' & Hmap & Htok').
    exists (rq :: rqs). split; [|split].
    + rewrite Hs', Hs, <- app_assoc. reflexivity.
    + cbn [length seq map]. f_equal.
      * rewrite Ha, Hcur. reflexivity.
      * rewrite Hmap, Htok, Hcur. rewrite <- (seq_shift (length calls) 1), map_map.
        apply map_ext. intro k. rewrite Nat.Div0.add_mod_idemp_l.
        replace (_last_used (self w) + 2 + 2 * k) with (_last_used (self w) + 2 * S k)
          by lia.
        reflexivity.
    + rewrite Htok'. exact Htok.
Qed.

End Stride.

(** Every request reads the [token] property twice, so a run of requests
    that starts right after an assignment uses every second token: request
    number k carries the token at index 2k mod n.  When the number of tokens
    is even, the tokens at odd indices are never sent. *)
Theorem rotation_stride_two {L : PyLib}
    (toks : list string) (calls : list (string * string * option dict)) (w : world) :
  tokens (self w) = toks ->
  _last_used (self w) = 0 ->
  toks <> [] ->
  Forall (fun t => t <> "") toks ->
  Forall (fun c => In (snd (fst c)) verbs) calls ->
  exists rqs,
    sent (perform_requests calls w) = sent w ++ rqs /\
    map authorization rqs =
      map (fun k => Some ("Bearer " ++ nth ((2 * k) mod length toks) toks "")%string)
          (seq 1 (length calls)) /\
    (Nat.Even (length toks) ->
     Forall (fun a => exists j, 2 * j < length toks /\
                                a = Some ("Bearer " ++ nth (2 * j) toks "")%string)
            (map authorization rqs)).
Proof.
  intros Ht Hc Hne Hall Hverbs.
  destruct (requests_stride calls Hverbs w) as (rqs & Hs & Hmap & _).
  { unfold usable. rewrite Ht. split; assumption. }
  rewrite Ht, Hc in Hmap. cbn [Nat.add] in Hmap.
  exists rqs. split; [exact Hs|]. split; [exact Hmap|].
  intros [h Hh]. rewrite Hmap. apply Forall_forall. intros a Ha.
  apply in_map_iff in Ha as (k & <- & _).
  exists (k mod h).
  assert (h <> 0) by (destruct toks; [congruence | cbn in Hh; lia]).
  rewrite Hh. rewrite Nat.Div0.mul_mod_distr_l.
  split; [|reflexivity].
  pose proof (Nat.mod_upper_bound k h ltac:(assumption)). lia.
Qed.

Lemma rotation_stride_two_witness :
  exists rqs,
    sent (perform_requests (L := run_lib)
            [("a", GET, None); ("b", GET, None); ("c", GET, None)]
            (world_of (session_with ["t0"; "t1"; "t2"; "t3"]) [])) = rqs /\
    map authorization rqs = [Some "Bearer t2"; Some "Bearer t0"; Some "Bearer t2"].
Proof.
  destruct (rotation_stride_two (L := run_lib) ["t0"; "t1"; "t2"; "t3"]
              [("a", GET, None); ("b", GET, None); ("c", GET, None)]
              (world_of (session_with ["t0"; "t1"; "t2"; "t3"]) []))
    as (rqs & Hs & Hmap & _).
  - reflexivity.
  - reflexivity.
  - discriminate.
  - repeat constructor; discriminate.
  - repeat (apply Forall_cons; [unfold verbs; cbn [In fst snd]; auto 10 |]).
    apply Forall_nil.
  - exists rqs. split; [exact Hs | exact Hmap].
Defined.

(** ** A session from its construction on *)

Lemma Requester_init_inr {L : PyLib} (env : environ)
    (token_opt : option token_arg) (end_point_opt : option string) (r : Requester) :
  Requester_init env token_opt end_point_opt = inr r ->
  scheme (urlparse (effective_end_point env end_point_opt)) <> "" /\
  netloc (urlparse (effective_end_point env end_point_opt)) <> "" /\
  end_point r =
    (if path (urlparse (effective_end_point env end_point_opt)) =? ""
     then (effective_end_point env end_point_opt ++ "/")%string
     else effective_end_point env end_point_opt) /\
  _last_used r = 0 /\
  ratelimit r = (None, None, None) /\
  tokens r =
    match token_opt with
    | Some (TokList (t :: l)) => t :: l
    | Some (TokStr (String c s)) => [String c s]
    | _ => [match DIGITALOCEAN_ACCESS_TOKEN env with Some s => s | None => "" end]
    end.
Proof.
  unfold Requester_init. cbv zeta.
  destruct (scheme (urlparse (effective_end_point env end_point_opt)) =? "") eqn:Es;
    [discriminate|].
  destruct (netloc (urlparse (effective_end_point env end_point_opt)) =? "") eqn:En;
    [discriminate|].
  cbn [orb]. apply String.eqb_neq in Es, En.
  destruct (path (urlparse (effective_end_point env end_point_opt)) =? "");
    intro E; inversion E; subst r; clear E;
    (split; [exact Es|]); (split; [exact En|]); (split; [reflexivity|]);
    (split; [reflexivity|]); (split; [reflexivity|]);
    destruct token_opt as [[[|c s]|[|t l]]|]; reflexivity.
Qed.

Section EndPoint.

Context {L : PyLib}.

Lemma keeps_ret {A} (a : A) : sends_to_end_point (ret a).
Proof. intro w. split; [reflexivity|]. exists []. rewrite app_nil_r. split; [reflexivity | constructor]. Qed.

Lemma keeps_raise {A} (e : exn) : sends_to_end_point (@raise A e).
Proof. intro w. split; [reflexivity|]. exists []. rewrite app_nil_r. split; [reflexivity | constructor]. Qed.

Lemma keeps_lift {A} (r : exn + A) : sends_to_end_point (lift r).
Proof. destruct r; [apply keeps_raise | apply keeps_ret]. Qed.

Lemma keeps_bind {A B} (m : M A) (f : A -> M B) :
  sends_to_end_point m -> (forall a, sends_to_end_point (f a)) ->
  sends_to_end_point (bind m f).
Proof.
  intros Hm Hf w. unfold bind. destruct (Hm w) as (He1 & rqs1 & Hs1 & Hall1).
  destruct (m w) as [[a| |] w1]; cbn [snd] in *.
  - destruct (Hf a w1) as (He2 & rqs2 & Hs2 & Hall2).
    split; [rewrite He2; exact He1|].
    exists (rqs1 ++ rqs2). split; [rewrite Hs2, Hs1, app_assoc; reflexivity|].
    apply Forall_app. split; [exact Hall1|]. rewrite <- He1. exact Hall2.
  - split; [exact He1|]. exists rqs1. split; assumption.
  - split; [exact He1|]. exists rqs1. split; assumption.
Qed.

Lemma keeps_get_params : sends_to_end_point get_params.
Proof. intro w. split; [reflexivity|]. exists []. rewrite app_nil_r. split; [reflexivity | constructor]. Qed.

Lemma keeps_set_params (p : dict) : sends_to_end_point (set_params p).
Proof. intro w. split; [reflexivity|]. exists []. rewrite app_nil_r. split; [reflexivity | constructor]. Qed.

Lemma keeps_init_ratelimit (h : list (string * string)) :
  sends_to_end_point (__init_ratelimit h).
Proof. intro w. split; [reflexivity|]. exists []. rewrite app_nil_r. split; [reflexivity | constructor]. Qed.

Lemma keeps_token : sends_to_end_point token.
Proof.
  intro w. rewrite token_run. cbn [snd with_self self sent].
  split; [apply read_token_end_point|].
  exists []. rewrite app_nil_r. split; [reflexivity | constructor].
Qed.

Lemma keeps_token_setter (t : token_arg) : sends_to_end_point (token_setter t).
Proof. intro w. split; [reflexivity|]. exists []. rewrite app_nil_r. split; [reflexivity | constructor]. Qed.

Lemma keeps_perform_request (url type : string) (po : option dict) :
  sends_to_end_point (_perform_request url type po).
Proof.
  intro w.
  destruct (perform_request_cases url type po w)
    as [[_ E1]|[[_ [_ E1]]|[Ht (rq & h & _ & _ & El & _)]]]; cbv zeta in *.
  - rewrite E1. cbn [snd with_self self sent].
    split; [apply read_token_end_point|].
    exists []. rewrite app_nil_r. split; [reflexivity | constructor].
  - rewrite E1. cbn [snd with_self self sent].
    split; [apply read_token_end_point|].
    exists []. rewrite app_nil_r. split; [reflexivity | constructor].
  - rewrite (perform_request_sends url type po w _ _ _ Ht El), send_run.
    cbn [snd with_self self sent]. unfold after_request.
    split; [rewrite !read_token_end_point; reflexivity|].
    eexists. split; [reflexivity|].
    constructor; [|constructor]. exists url. reflexivity.
Qed.

Lemma keeps_loop (fuel : nat) :
  forall url method all_data data,
    sends_to_end_point (pagination_loop fuel url method all_data data).
Proof.
  induction fuel as [|fuel IH]; intros url method all_data data.
  - intro w. split; [reflexivity|]. exists []. rewrite app_nil_r.
    split; [reflexivity | constructor].
  - cbn [pagination_loop].
    apply keeps_bind; [apply keeps_lift|]. intro nxt.
    destruct (truthy nxt); [|apply keeps_ret].
    apply keeps_bind; [apply keeps_lift|]. intro uq.
    apply keeps_bind; [apply keeps_get_params|]. intro p.
    apply keeps_bind; [apply keeps_set_params|]. intros _.
    apply keeps_bind; [apply keeps_get_params|]. intro p'.
    apply keeps_bind; [apply keeps_perform_request|]. intro resp.
    apply keeps_bind; [destruct (json_body resp); [apply keeps_raise | apply keeps_ret]|].
    intro data'.
    apply keeps_bind; [apply keeps_lift|]. intro its.
    apply keeps_bind; [apply keeps_lift|]. intro all_data'.
    apply IH.
Qed.

Lemma keeps_get_data (url type : string) (po : option dict) :
  sends_to_end_point (get_data url type po).
Proof.
  unfold get_data.
  apply keeps_bind; [apply keeps_set_params|]. intros _.
  apply keeps_bind.
  { destruct (type =? GET); [|apply keeps_ret].
    apply keeps_bind; [apply keeps_get_params|]. intro p. apply keeps_set_params. }
  intros _.
  apply keeps_bind; [apply keeps_get_params|]. intro p.
  apply keeps_bind; [apply keeps_perform_request|]. intro req.
  destruct (status_code req =? 204)%Z; [apply keeps_ret|].
  destruct (status_code req =? 404)%Z; [apply keeps_raise|].
  destruct (json_body req) as [msg|data]; [apply keeps_raise|].
  apply keeps_bind.
  { destruct (negb (ok req)); [|apply keeps_ret].
    apply keeps_bind; [apply keeps_lift|]. intro m. apply keeps_raise. }
  intros _.
  apply keeps_bind; [apply keeps_init_ratelimit|]. intros _.
  apply keeps_bind; [apply keeps_lift|]. intro links.
  apply keeps_bind; [apply keeps_lift|]. intro pages.
  apply keeps_bind; [apply keeps_lift|]. intro nxt.
  apply keeps_bind; [apply keeps_get_params|]. intro p'.
  destruct (truthy nxt && negb (Dict.mem "page" p')); [|apply keeps_ret].
  intro w. unfold _deal_with_pagination. apply keeps_loop.
Qed.

(** Whatever is done with a session, its end point stays and its requests
    go to addresses joined to it. *)
Lemma run_calls_end_point (calls : list session_call) :
  forall w,
    end_point (self (run_calls calls w)) = end_point (self w) /\
    exists rqs,
      sent (run_calls calls w) = sent w ++ rqs /\
      Forall (fun rq => exists u, rq_url rq = urljoin (end_point (self w)) u) rqs.
Proof.
  induction calls as [|c calls IH]; intro w.
  - split; [reflexivity|]. exists []. rewrite app_nil_r. split; [reflexivity | constructor].
  - change (run_calls (c :: calls) w) with (run_calls calls (run_call c w)).
    assert (Hc : end_point (self (run_call c w)) = end_point (self w) /\
                 exists rqs,
                   sent (run_call c w) = sent w ++ rqs /\
                   Forall (fun rq => exists u, rq_url rq = urljoin (end_point (self w)) u) rqs).
    { destruct c as [url type po|url type po| |t]; cbn [run_call].
      - apply keeps_perform_request.
      - apply keeps_get_data.
      - apply keeps_token.
      - apply keeps_token_setter. }
    destruct Hc as (He1 & rqs1 & Hs1 & Hall1).
    destruct (IH (run_call c w)) as (He2 & rqs2 & Hs2 & Hall2).
    split; [rewrite He2; exact He1|].
    exists (rqs1 ++ rqs2). split; [rewrite Hs2, Hs1, app_assoc; reflexivity|].
    apply Forall_app. split; [exact Hall1|]. rewrite <- He1. exact Hall2.
Qed.

End EndPoint.

(** A constructed session has an end point with a scheme and a host, to
    which "/" was added when it had no path.  Whatever is done with the
    session afterwards (requests, [get_data] with its walks, reads of and
    assignments to [token], in any number and order and with any outcome),
    its end point is still that one, every request sent in the meantime
    went to an address joined to it, and a request that goes out next goes
    to the path asked for joined to it. *)
Theorem constructed_end_point {L : PyLib} (env : environ)
    (token_opt : option token_arg) (end_point_opt : option string) (r : Requester)
    (w : world) :
  Requester_init env token_opt end_point_opt = inr r ->
  self w = r ->
  let ep := if path (urlparse (effective_end_point env end_point_opt)) =? ""
            then (effective_end_point env end_point_opt ++ "/")%string
            else effective_end_point env end_point_opt in
  scheme (urlparse (effective_end_point env end_point_opt)) <> "" /\
  netloc (urlparse (effective_end_point env end_point_opt)) <> "" /\
  forall calls,
    end_point (self (run_calls calls w)) = ep /\
    (exists rqs,
       sent (run_calls calls w) = sent w ++ rqs /\
       Forall (fun rq => exists u, rq_url rq = urljoin ep u) rqs) /\
    (forall url type po,
       fst (read_token (self (run_calls calls w))) <> "" ->
       In type verbs ->
       exists rq,
         sent (snd (_perform_request url type po (run_calls calls w))) =
           sent (run_calls calls w) ++ [rq] /\
         rq_url rq = urljoin ep url).
Proof.
  intros Hinit Hself ep.
  destruct (Requester_init_inr _ _ _ _ Hinit) as (Hs & Hn & Hep & _).
  split; [exact Hs|]. split; [exact Hn|].
  intro calls. subst r. fold ep in Hep.
  destruct (run_calls_end_point calls w) as (He & rqs & Hsent & Hall).
  rewrite Hep in He, Hall.
  split; [exact He|]. split; [exists rqs; split; assumption|].
  intros url type po Ht Hv.
  destruct (lookup_verb type (match po with Some p => p | None => [] end) Hv)
    as (m & h & pl & El & _).
  rewrite (perform_request_sends url type po _ m h pl Ht El), send_run.
  eexists. cbn [snd sent with_self rq_url]. split; [reflexivity|].
  rewrite He. reflexivity.
Qed.

(** A session on the default end point, after a [get_data], a read of the
    property and a new token: the next request still goes to the default
    end point. *)
Lemma constructed_end_point_witness :
  exists r rq,
    Requester_init (L := run_lib) no_environ (Some (TokStr "dop_v1_secret")) None = inr r /\
    end_point
      (self (run_calls (L := run_lib)
               [CallGetData "droplets" GET None; CallReadToken;
                CallAssignToken (TokStr "dop_v1_other")]
               (world_of r [empty_page; empty_page]))) =
      "https://api.digitalocean.com/v2/" /\
    sent (snd (_perform_request (L := run_lib) "account" GET None
                 (run_calls (L := run_lib)
                    [CallGetData "droplets" GET None; CallReadToken;
                     CallAssignToken (TokStr "dop_v1_other")]
                    (world_of r [empty_page; empty_page])))) =
      sent (run_calls (L := run_lib)
              [CallGetData "droplets" GET None; CallReadToken;
               CallAssignToken (TokStr "dop_v1_other")]
              (world_of r [empty_page; empty_page])) ++ [rq] /\
    rq_url rq = "https://api.digitalocean.com/v2/account".
Proof.
  eexists.
  destruct (constructed_end_point (L := run_lib) no_environ (Some (TokStr "dop_v1_secret"))
              None _ (world_of _ [empty_page; empty_page]) eq_refl eq_refl)
    as (_ & _ & H).
  destruct (H [CallGetData "droplets" GET None; CallReadToken;
               CallAssignToken (TokStr "dop_v1_other")]) as (He & _ & Hrq).
  destruct (Hrq "account" GET None) as (rq & Hs & Hu).
  - vm_compute. discriminate.
  - left. reflexivity.
  - exists rq. split; [reflexivity|]. split; [exact He|]. split; [exact Hs | exact Hu].
Defined.

Lemma read_single_empty_token (r : Requester) :
  tokens r = [""] -> fst (read_token r) = "".
Proof.
  intro H. rewrite read_token_step by (rewrite H; discriminate).
  rewrite H. cbn [fst length]. rewrite Nat.mod_1_r. reflexivity.
Qed.

Lemma empty_token_rejected {L : PyLib} (url type : string) (po : option dict) (w : world) :
  fst (read_token (self w)) = "" ->
  fst (_perform_request url type po w) =
    Raise (TokenError "No token provided. Please use a valid token").
Proof.
  intro Ht.
  destruct (perform_request_cases url type po w) as [[_ E1]|[[Hne _]|[Hne _]]];
    cbv zeta in *; try contradiction.
  rewrite E1. reflexivity.
Qed.

(** A session whose one token is empty sends nothing, call after call. *)
Lemma rejected_run {L : PyLib} (calls : list (string * string * option dict)) :
  forall w, tokens (self w) = [""] -> sent (perform_requests calls w) = sent w.
Proof.
  induction calls as [|[[url type] po] calls IH]; intros w Hw; [reflexivity|].
  cbn [perform_requests].
  destruct (perform_request_cases url type po w) as [[_ E1]|[[Hne _]|[Hne _]]];
    cbv zeta in *;
    try (exfalso; apply Hne; apply read_single_empty_token; exact Hw).
  rewrite E1. cbn [snd]. rewrite IH.
  - reflexivity.
  - cbn [with_self self]. rewrite read_token_tokens. exact Hw.
Qed.

(** Which token a constructed session sends: the token string given to the
    constructor when it is not empty, else the one of the environment; a
    session with that single token sends it with every request.  With no
    token from either side the session holds one empty token and every call
    is rejected with [TokenError]. *)
Theorem single_token_session {L : PyLib} (env : environ)
    (token_opt : option token_arg) (end_point_opt : option string) (r : Requester)
    (s : string) (calls : list (string * string * option dict)) (w : world) :
  Requester_init env token_opt end_point_opt = inr r ->
  self w = r ->
  (token_opt = Some (TokStr s) /\ s <> "") \/
  ((token_opt = None \/ token_opt = Some (TokStr "") \/ token_opt = Some (TokList [])) /\
   s = match DIGITALOCEAN_ACCESS_TOKEN env with Some t => t | None => "" end) ->
  Forall (fun c => In (snd (fst c)) verbs) calls ->
  tokens r = [s] /\
  (s <> "" ->
   exists rqs,
     sent (perform_requests calls w) = sent w ++ rqs /\
     length rqs = length calls /\
     Forall (fun rq => authorization rq = Some ("Bearer " ++ s)%string) rqs) /\
  (s = "" ->
   sent (perform_requests calls w) = sent w /\
   forall url type po,
     fst (_perform_request url type po w) =
       Raise (TokenError "No token provided. Please use a valid token")).
Proof.
  intros Hinit Hself Htok Hverbs.
  destruct (Requester_init_inr _ _ _ _ Hinit) as (_ & _ & _ & Hcur & _ & Ht).
  assert (Htoks : tokens r = [s]).
  { rewrite Ht. destruct Htok as [[-> Hs]|[[->|[->| ->]] ->]]; try reflexivity.
    destruct s; [congruence | reflexivity]. }
  split; [exact Htoks|]. subst r. split.
  - intro Hs.
    destruct (requests_stride calls Hverbs w) as (rqs & Hsent & Hmap & _).
    { unfold usable. rewrite Htoks. split; [discriminate | repeat constructor; exact Hs]. }
    exists rqs. split; [exact Hsent|].
    assert (Hlen : length rqs = length calls).
    { rewrite <- (length_map authorization rqs), Hmap, length_map, length_seq. reflexivity. }
    split; [exact Hlen|].
    apply Forall_forall. intros rq Hin.
    assert (Ha : In (authorization rq) (map authorization rqs)) by (apply in_map; exact Hin).
    rewrite Hmap in Ha. apply in_map_iff in Ha as (k & Hk & _).
    rewrite Htoks in Hk. cbn [length] in Hk. rewrite Nat.mod_1_r in Hk. cbn [nth] in Hk.
    symmetry. exact Hk.
  - intros ->. split.
    + apply rejected_run. exact Htoks.
    + intros url type po. apply empty_token_rejected.
      apply read_single_empty_token. exact Htoks.
Qed.

Lemma single_token_session_witness :
  exists r rqs,
    Requester_init (L := run_lib) (mkEnviron (Some "dop_v1_env") None None) None None = inr r /\
    sent (perform_requests (L := run_lib) [("account", GET, None); ("keys", POST, None)]
            (world_of r [])) = rqs /\
    Forall (fun rq => authorization rq = Some "Bearer dop_v1_env") rqs.
Proof.
  eexists.
  destruct (single_token_session (L := run_lib) (mkEnviron (Some "dop_v1_env") None None)
              None None _ "dop_v1_env" [("account", GET, None); ("keys", POST, None)]
              (world_of _ []) eq_refl eq_refl)
    as (_ & H & _).
  - right. split; [left; reflexivity | reflexivity].
  - repeat (apply Forall_cons; [unfold verbs; cbn [In fst snd]; auto 10 |]).
    apply Forall_nil.
  - destruct H as (rqs & Hs & _ & Hall); [discriminate|].
    exists rqs. split; [reflexivity|]. split; [exact Hs | exact Hall].
Defined.

(** ** Responses that are not [ok] *)

Lemma error_message_cases (data : json) :
  match error_message data with
  | inr m => exists d, data = JDict d /\ Dict.mem "id" d = true /\
                       Dict.get d "message" = Some m
  | inl e => e = IndexError \/ e = TypeError
  end.
Proof.
  destruct data as [| b | n | s | l | d].
  - right. reflexivity.
  - right. reflexivity.
  - right. reflexivity.
  - unfold error_message, error_fields, py_contains, py_getitem.
    destruct (infix_of "id" s); [right; reflexivity|].
    destruct (infix_of "message" s); [right; reflexivity | left; reflexivity].
  - unfold error_message, error_fields, py_contains, py_getitem.
    destruct (existsb _ l); [right; reflexivity|].
    destruct (existsb _ l); [right; reflexivity | left; reflexivity].
  - rewrite error_message_of_mapping.
    destruct (Dict.get d "id") eqn:Eid; [|left; reflexivity].
    destruct (Dict.get d "message") as [m|] eqn:Em; [|left; reflexivity].
    exists d. split; [reflexivity|]. split; [|exact Em].
    unfold Dict.mem. rewrite Eid. reflexivity.
Qed.

Lemma error_message_inr_iff (data m : json) :
  error_message data = inr m <->
  exists d, data = JDict d /\ Dict.mem "id" d = true /\ Dict.get d "message" = Some m.
Proof.
  split.
  - intro E. pose proof (error_message_cases data) as Hc. rewrite E in Hc. exact Hc.
  - intros (d & -> & Hid & Hm). rewrite error_message_of_mapping, Hm.
    rewrite DictFacts.mem_get in Hid. destruct (Dict.get d "id"); [reflexivity | discriminate].
Qed.

(** A first response that is not [ok] (and not 404) with a decoded body:
    [get_data] raises [DataReadError] exactly when the body is a mapping
    with both an "id" and a "message" field, and its message is then the
    "message" field; for every other body it raises [IndexError] or
    [TypeError].  In every case nothing more is sent. *)
Theorem data_read_error_iff {L : PyLib}
    (url type : string) (po : option dict) (w : world) (req : response) (w1 : world)
    (data : json) :
  _perform_request url type (Some (first_params type po))
    (with_params (first_params type po) w) = (Return req, w1) ->
  status_code req <> 204%Z -> status_code req <> 404%Z ->
  json_body req = inr data ->
  ok req = false ->
  (forall m,
     get_data url type po w = (Raise (DataReadError m), w1) <->
     exists d, data = JDict d /\ Dict.mem "id" d = true /\ Dict.get d "message" = Some m)
  /\
  (get_data url type po w = (Raise IndexError, w1) \/
   get_data url type po w = (Raise TypeError, w1) \/
   exists m, get_data url type po w = (Raise (DataReadError m), w1)).
Proof.
  intros E H1 H2 Hb Hok.
  rewrite get_data_run, E, (after_not_ok _ _ _ _ _ H1 H2 Hb Hok).
  pose proof (error_message_cases data) as Hc. split.
  - intro m. rewrite <- error_message_inr_iff.
    destruct (error_message data) as [e|m0].
    + split; [intro H; inversion H; subst e; destruct Hc; discriminate | discriminate].
    + split; intro H; inversion H; reflexivity.
  - destruct (error_message data) as [e|m0].
    + destruct Hc as [-> | ->]; auto.
    + right. right. exists m0. reflexivity.
Qed.

Lemma data_read_error_iff_witness :
  fst (get_data (L := run_lib) "droplets" POST None
         (one_token_world [error_response 422 not_found_body])) =
  Raise (DataReadError (JStr "The resource you were accessing could not be found.")).
Proof.
  destruct (data_read_error_iff (L := run_lib) "droplets" POST None
              (one_token_world [error_response 422 not_found_body])
              (error_response 422 not_found_body)
              (snd (_perform_request (L := run_lib) "droplets" POST
                      (Some (first_params POST None))
                      (with_params (first_params POST None)
                         (one_token_world [error_response 422 not_found_body]))))
              (JDict not_found_body))
    as [Hiff _].
  - vm_compute. reflexivity.
  - discriminate.
  - discriminate.
  - reflexivity.
  - reflexivity.
  - rewrite (proj2 (Hiff (JStr "The resource you were accessing could not be found."))).
    + reflexivity.
    + exists not_found_body. repeat split.
Defined.

(** A first response that makes [get_data] fail (404, undecodable, or not
    [ok], as is a 429) leaves the rate-limit attributes as they were, also
    when it carries the rate-limit headers: the failure is raised before
    they are read. *)
Theorem failed_response_keeps_rate_limit {L : PyLib}
    (url type : string) (po : option dict) (w : world) (req : response) (w1 : world) :
  _perform_request url type (Some (first_params type po))
    (with_params (first_params type po) w) = (Return req, w1) ->
  status_code req <> 204%Z ->
  status_code req = 404%Z \/ (exists msg, json_body req = inl msg) \/ ok req = false ->
  (exists e, get_data url type po w = (Raise e, w1)) /\
  ratelimit (self (snd (get_data url type po w))) = ratelimit (self w).
Proof.
  intros E H1 Hfail.
  destruct (issued_request_world _ _ _ _ _ _ E) as (Hself & _); [discriminate|].
  cbn [with_params self] in Hself.
  assert (Hr : ratelimit (self w1) = ratelimit (self w)).
  { rewrite Hself. apply after_request_fields. }
  assert (Hraise : exists e, get_data url type po w = (Raise e, w1)).
  { rewrite get_data_run, E.
    destruct (Z.eq_dec (status_code req) 404) as [H404|H404].
    - eexists. apply after_404. exact H404.
    - destruct (json_body req) as [msg|data] eqn:Hb.
      + eexists. apply after_undecodable; eassumption.
      + destruct Hfail as [H|[[msg H]|Hok]]; [contradiction | discriminate |].
        rewrite (after_not_ok _ _ _ _ _ H1 H404 Hb Hok).
        destruct (error_message data); eexists; reflexivity. }
  split; [exact Hraise|].
  destruct Hraise as [e He]. rewrite He. exact Hr.
Qed.

Lemma failed_response_keeps_rate_limit_witness :
  ratelimit (self (snd (get_data (L := run_lib) "droplets" GET None
                          (one_token_world [error_response 429 not_found_body])))) =
  (None, None, None).
Proof.
  destruct (failed_response_keeps_rate_limit (L := run_lib) "droplets" GET None
              (one_token_world [error_response 429 not_found_body])
              (error_response 429 not_found_body)
              (snd (_perform_request (L := run_lib) "droplets" GET
                      (Some (first_params GET None))
                      (with_params (first_params GET None)
                         (one_token_world [error_response 429 not_found_body])))))
    as [_ H].
  - vm_compute. reflexivity.
  - discriminate.
  - right. right. reflexivity.
  - rewrite H. reflexivity.
Defined.

(** ** Successful responses whose body is not the mapping expected *)

Lemma next_link_error (data : json) (e : exn) :
  next_link data = inl e -> e = AttributeError.
Proof.
  unfold next_link, py_get.
  destruct data; try (intro H; inversion H; reflexivity).
  destruct (match Dict.get d "links" with Some v => v | None => JDict [] end);
    try (intro H; inversion H; reflexivity).
  destruct (match Dict.get d0 "pages" with Some v => v | None => JDict [] end);
    intro H; inversion H; reflexivity.
Qed.

Lemma next_link_unreadable (data : json) :
  (forall d, data <> JDict d) \/
  (exists d v, data = JDict d /\ Dict.get d "links" = Some v /\ forall l, v <> JDict l) \/
  (exists d l v, data = JDict d /\ Dict.get d "links" = Some (JDict l) /\
                 Dict.get l "pages" = Some v /\ forall p, v <> JDict p) ->
  next_link data = inl AttributeError.
Proof.
  unfold next_link, py_get.
  intros [H|[(d & v & -> & Hl & Hv)|(d & l & v & -> & Hl & Hp & Hv)]].
  - destruct data; try reflexivity. exfalso. eapply H. reflexivity.
  - rewrite Hl. destruct v; try reflexivity. exfalso. eapply Hv. reflexivity.
  - rewrite Hl, Hp. destruct v; try reflexivity. exfalso. eapply Hv. reflexivity.
Qed.

(** An [ok] first response whose decoded body is not a mapping (a list, a
    string, a number, [null]), or whose "links" or "pages" field is not a
    mapping, makes [get_data] raise [AttributeError]; the rate limits of
    the response have been recorded by then. *)
Theorem unexpected_body_raises {L : PyLib}
    (url type : string) (po : option dict) (w : world) (req : response) (w1 : world)
    (data : json) :
  _perform_request url type (Some (first_params type po))
    (with_params (first_params type po) w) = (Return req, w1) ->
  status_code req <> 204%Z -> status_code req <> 404%Z ->
  ok req = true ->
  json_body req = inr data ->
  (forall d, data <> JDict d) \/
  (exists d v, data = JDict d /\ Dict.get d "links" = Some v /\ forall l, v <> JDict l) \/
  (exists d l v, data = JDict d /\ Dict.get d "links" = Some (JDict l) /\
                 Dict.get l "pages" = Some v /\ forall p, v <> JDict p) ->
  get_data url type po w = (Raise AttributeError, record_ratelimit (headers req) w1).
Proof.
  intros E H1 H2 Hok Hb Hbad.
  pose proof (next_link_unreadable data Hbad) as Hn.
  rewrite get_data_run, E. unfold after_first_response.
  apply Z.eqb_neq in H1, H2. rewrite H1, H2, Hb, Hok. cbn [negb].
  unfold next_link in Hn.
  cbv [bind lift ret raise __init_ratelimit get_self set_self get_params].
  cbn [self params os_environ network sent token_reads].
  unfold record_ratelimit, with_ratelimit.
  destruct (py_get data "links" (JDict [])) as [e|links];
    [inversion Hn; reflexivity|].
  destruct (py_get links "pages" (JDict [])) as [e|pages];
    [inversion Hn; reflexivity|].
  rewrite Hn. reflexivity.
Qed.

Lemma unexpected_body_raises_witness :
  fst (get_data (L := run_lib) "droplets" GET None
         (one_token_world [mkResponse 200 (rate_headers "4995") (inr (JList []))])) =
  Raise AttributeError /\
  ratelimit_remaining
    (self (snd (get_data (L := run_lib) "droplets" GET None
                  (one_token_world [mkResponse 200 (rate_headers "4995") (inr (JList []))]))))
  = Some (Some "4995").
Proof.
  rewrite (unexpected_body_raises (L := run_lib) "droplets" GET None
             (one_token_world [mkResponse 200 (rate_headers "4995") (inr (JList []))])
             (mkResponse 200 (rate_headers "4995") (inr (JList [])))
             (snd (_perform_request (L := run_lib) "droplets" GET
                     (Some (first_params GET None))
                     (with_params (first_params GET None)
                        (one_token_world
                           [mkResponse 200 (rate_headers "4995") (inr (JList []))]))))
             (JList [])).
  - split; reflexivity.
  - vm_compute. reflexivity.
  - discriminate.
  - discriminate.
  - reflexivity.
  - reflexivity.
  - left. intros d H. discriminate.
Defined.

(** ** When the walk is entered *)

Section WalkEntry.

Context {L : PyLib}.

Lemma after_first_response_frame (url type : string) (req : response) (w : world) :
  enters_walk req (params w) = false ->
  sent (snd (after_first_response url type req w)) = sent w /\
  params (snd (after_first_response url type req w)) = params w /\
  network (snd (after_first_response url type req w)) = network w.
Proof.
  unfold enters_walk, after_first_response, next_link.
  destruct (status_code req =? 204)%Z; [repeat split|].
  destruct (status_code req =? 404)%Z; [repeat split|].
  destruct (json_body req) as [msg|data]; [repeat split|].
  cbn [negb andb].
  destruct (ok req); cbn [negb andb].
  2:{ intros _. cbv [bind lift ret raise]. destruct (error_message data); repeat split. }
  cbv [bind lift ret raise __init_ratelimit get_self set_self get_params].
  cbn [self params os_environ network sent token_reads].
  destruct (py_get data "links" (JDict [])) as [e|links]; [repeat split|].
  destruct (py_get links "pages" (JDict [])) as [e|pages]; [repeat split|].
  destruct (py_get pages "next" JNull) as [e|nxt]; [repeat split|].
  cbn [self params os_environ network sent token_reads].
  intros ->. repeat split.
Qed.

Lemma after_first_response_walk (url type : string) (req : response) (w : world) :
  enters_walk req (params w) = true ->
  exists data,
    json_body req = inr data /\
    after_first_response url type req w =
      _deal_with_pagination url type data (record_ratelimit (headers req) w).
Proof.
  unfold enters_walk.
  destruct (status_code req =? 204)%Z eqn:H1; [discriminate|].
  destruct (status_code req =? 404)%Z eqn:H2; [discriminate|].
  destruct (json_body req) as [msg|data] eqn:Hb; [discriminate|].
  cbn [negb andb].
  destruct (ok req) eqn:Hok; [|discriminate]. cbn [andb].
  destruct (next_link data) as [e|nxt] eqn:Hn; [discriminate|].
  intro Hw. exists data. split; [reflexivity|].
  apply Z.eqb_neq in H1, H2.
  rewrite (after_ok _ _ _ _ _ _ H1 H2 Hb Hok Hn), Hw. reflexivity.
Qed.

End WalkEntry.

(** [get_data] goes into the walk exactly when the first response is not
    204 or 404, decodes, is [ok], has a truthy next link and the mapping
    has no "page" key.  In every other case the call has sent one request
    and no more, and the mapping holds what the first request was sent with
    (the caller's parameters and, for GET, the "per_page" default). *)
Theorem walk_entry {L : PyLib}
    (url type : string) (po : option dict) (w : world) (req : response) (w1 : world) :
  _perform_request url type (Some (first_params type po))
    (with_params (first_params type po) w) = (Return req, w1) ->
  (enters_walk req (first_params type po) = false ->
   params (snd (get_data url type po w)) = first_params type po /\
   network (snd (get_data url type po w)) = tl (network w) /\
   exists rq, sent (snd (get_data url type po w)) = sent w ++ [rq]) /\
  (enters_walk req (first_params type po) = true ->
   exists data,
     json_body req = inr data /\
     get_data url type po w =
       _deal_with_pagination url type data (record_ratelimit (headers req) w1)).
Proof.
  intro E.
  destruct (issued_request_world _ _ _ _ _ _ E) as (_ & Hp & _ & Hnet & Hsent);
    [discriminate|].
  cbn [with_params params network sent] in *.
  rewrite get_data_run, E. split.
  - intro Hw. rewrite <- Hp in Hw.
    destruct (after_first_response_frame url type req w1 Hw) as (Hs & Hpar & Hn).
    rewrite Hs, Hpar, Hn. auto.
  - intro Hw. rewrite <- Hp in Hw. apply after_first_response_walk. exact Hw.
Qed.

Lemma walk_entry_witness :
  params (snd (get_data (L := run_lib) "account" GET (Some tag_params)
                 (one_token_world [page_response "4998" account_page]))) =
  [("tag_name", JStr "web"); ("per_page", JNum 200)].
Proof.
  destruct (walk_entry (L := run_lib) "account" GET (Some tag_params)
              (one_token_world [page_response "4998" account_page])
              (page_response "4998" account_page)
              (snd (_perform_request (L := run_lib) "account" GET
                      (Some (first_params GET (Some tag_params)))
                      (with_params (first_params GET (Some tag_params))
                         (one_token_world [page_response "4998" account_page])))))
    as [H _].
  - vm_compute. reflexivity.
  - destruct H as (Hp & _); [reflexivity|]. rewrite Hp. reflexivity.
Defined.

(** ** The mapping after a walk, used again *)

Section Reuse.

Context {L : PyLib}.

Lemma explicit_page_one_request (url type : string) (p : dict) (w : world) :
  Dict.mem "page" p = true ->
  exists rqs,
    sent (snd (get_data url type (Some p) w)) = sent w ++ rqs /\ length rqs <= 1.
Proof.
  intro Hpage. rewrite get_data_run.
  destruct (perform_request_sent url type (Some (first_params type (Some p)))
              (with_params (first_params type (Some p)) w)) as (rqs & Hs & Hl).
  pose proof (perform_request_params url type (Some (first_params type (Some p)))
                (with_params (first_params type (Some p)) w)) as Hp.
  destruct (_perform_request url type (Some (first_params type (Some p)))
              (with_params (first_params type (Some p)) w)) as [[req| |] w1];
    cbn [snd sent params with_params] in Hs, Hp; exists rqs;
    (split; [|exact Hl]); [|exact Hs|exact Hs].
  destruct (after_first_response_no_walk url type req w1) as [Hsent _].
  { rewrite Hp. apply mem_first_params. exact Hpage. }
  rewrite Hsent. exact Hs.
Qed.

(** Entering the walk writes the query of the first next link. *)
Lemma walk_entry_writes (url type : string) (po : option dict) (w : world)
    (req : response) (w1 : world) (data : json) (s u q : string) :
  _perform_request url type (Some (first_params type po))
    (with_params (first_params type po) w) = (Return req, w1) ->
  status_code req <> 204%Z -> status_code req <> 404%Z -> ok req = true ->
  json_body req = inr data ->
  next_link data = inr (JStr s) -> split_once s = Some (u, q) ->
  Dict.mem "page" (first_params type po) = false ->
  exists queries,
    params (snd (get_data url type po w)) = written (q :: queries) (first_params type po).
Proof.
  intros E H1 H2 Hok Hbody Hnext Hsplit Hpage.
  pose proof (perform_request_params url type (Some (first_params type po))
                (with_params (first_params type po) w)) as Hp.
  rewrite E in Hp. cbn [snd params with_params] in Hp.
  rewrite get_data_run, E, (after_ok _ _ _ _ _ _ H1 H2 Hbody Hok Hnext).
  rewrite Hp, Hpage, (split_once_truthy _ _ _ Hsplit). cbn [andb negb].
  unfold _deal_with_pagination.
  destruct (loop_turn_writes (length (network (record_ratelimit (headers req) w1)))
              url type data data (JStr s) u q (record_ratelimit (headers req) w1)
              Hnext (split_once_truthy _ _ _ Hsplit))
    as [queries Hq].
  { cbn [split_next]. rewrite Hsplit. reflexivity. }
  exists queries. rewrite Hq. cbn [record_ratelimit params]. rewrite Hp. reflexivity.
Qed.

End Reuse.

(** A mapping that has been through a walk whose first next link names a
    page holds a "page" key afterwards (a list of strings), whatever the
    rest of the walk did; handed to [get_data] again, for any address, it
    keeps the new call from walking: at most one request goes out. *)
Theorem reused_mapping_stops_walk {L : PyLib}
    (url type : string) (po : option dict) (w : world)
    (req : response) (w1 : world) (data : json) (s u q : string) :
  _perform_request url type (Some (first_params type po))
    (with_params (first_params type po) w) = (Return req, w1) ->
  status_code req <> 204%Z -> status_code req <> 404%Z -> ok req = true ->
  json_body req = inr data ->
  next_link data = inr (JStr s) -> split_once s = Some (u, q) ->
  Dict.mem "page" (first_params type po) = false ->
  In "page" (map fst (parse_qs q)) ->
  Dict.mem "page" (params (snd (get_data url type po w))) = true /\
  forall url2 type2 w2,
    exists rqs,
      sent (snd (get_data url2 type2 (Some (params (snd (get_data url type po w)))) w2)) =
        sent w2 ++ rqs /\
      length rqs <= 1.
Proof.
  intros E H1 H2 Hok Hbody Hnext Hsplit Hpage Hq.
  destruct (walk_entry_writes url type po w req w1 data s u q
              E H1 H2 Hok Hbody Hnext Hsplit Hpage) as [queries Hw].
  assert (Hmem : Dict.mem "page" (params (snd (get_data url type po w))) = true).
  { rewrite Hw.
    change (written (q :: queries) (first_params type po))
      with (written queries (merge_query (first_params type po) (parse_qs q))).
    apply mem_written. unfold Dict.mem.
    destruct (merge_query_get (parse_qs q) (first_params type po) "page")
      as [(vs & _ & Hg)|[Hnot _]]; [rewrite Hg; reflexivity | contradiction]. }
  split; [exact Hmem|].
  intros url2 type2 w2. apply explicit_page_one_request. exact Hmem.
Qed.

Lemma reused_mapping_stops_walk_witness :
  let p := params (snd (get_data (L := run_lib) "droplets" GET (Some tag_params)
                          three_pages_world)) in
  Dict.mem "page" p = true /\
  exists rqs,
    sent (snd (get_data (L := run_lib) "droplets" GET (Some p) three_pages_world)) = rqs /\
    length rqs <= 1.
Proof.
  cbv zeta.
  destruct (reused_mapping_stops_walk (L := run_lib) "droplets" GET (Some tag_params)
              three_pages_world (page_response "4998" droplets_page_1)
              (snd (_perform_request (L := run_lib) "droplets" GET
                      (Some (first_params GET (Some tag_params)))
                      (with_params (first_params GET (Some tag_params)) three_pages_world)))
              (JDict droplets_page_1)
              "https://api.digitalocean.com/v2/droplets?page=2&per_page=200"
              "https://api.digitalocean.com/v2/droplets" "page=2&per_page=200")
    as [Hmem Hone].
  - vm_compute. reflexivity.
  - discriminate.
  - discriminate.
  - reflexivity.
  - reflexivity.
  - reflexivity.
  - reflexivity.
  - reflexivity.
  - left. reflexivity.
  - split; [exact Hmem|].
    destruct (Hone "droplets" GET three_pages_world) as (rqs & Hs & Hl).
    exists rqs. split; [exact Hs | exact Hl].
Defined.

(** ** The status of the later pages *)

Section LaterPages.

Context {L : PyLib}.

Lemma related_bind {A B} (R : A -> A -> Prop) (S : B -> B -> Prop)
    (m m' : M A) (f f' : A -> M B) (w w' : world) :
  related R (m w) (m' w') ->
  (forall a a' w1 w1', R a a' -> alike w1 w1' -> related S (f a w1) (f' a' w1')) ->
  related S (bind m f w) (bind m' f' w').
Proof.
  unfold related at 1, bind. intros [Hw Ho] Hf.
  destruct (m w) as [[a| |] w1], (m' w') as [[a'| |] w1'];
    cbn [fst snd] in *; try contradiction.
  - apply Hf; assumption.
  - split; [exact Hw | exact Ho].
  - split; [exact Hw | exact I].
Qed.

Lemma related_lift {A} (r : exn + A) (w w' : world) :
  alike w w' -> related eq (lift r w) (lift r w').
Proof.
  intro Hw. destruct r; split; cbn; auto.
Qed.

Lemma alike_sent (w w' : world) (r : Requester) (n n' : nat) :
  alike w w' -> self w = self w' ->
  alike (with_self r n w) (with_self r n' w').
Proof. intros (Hs & Hp & He & Hn) _. repeat split; assumption. Qed.

(** A request on two worlds that are alike: the same exception, or two
    responses with the same body. *)
Lemma perform_request_alike (url type : string) (po : option dict) (w w' : world) :
  alike w w' ->
  related (fun r r' => json_body r = json_body r')
    (_perform_request url type po w) (_perform_request url type po w').
Proof.
  intros Hw. pose proof Hw as (Hs & Hp & He & Hn).
  destruct (perform_request_cases url type po w) as [[Ht E1]|[[Ht [Hl E1]]|[Ht E1]]];
    cbv zeta in *.
  - destruct (perform_request_cases url type po w') as [[Ht' E2]|[[Ht' _]|[Ht' _]]];
      cbv zeta in *; try (rewrite <- Hs in Ht'; contradiction).
    rewrite E1, E2. split; [|reflexivity]. cbn [snd]. rewrite <- Hs.
    apply alike_sent; assumption.
  - destruct (perform_request_cases url type po w') as [[Ht' _]|[[_ [_ E2]]|[_ E2]]];
      cbv zeta in *; try (rewrite <- Hs in Ht'; contradiction).
    + rewrite E1, E2. split; [|reflexivity]. cbn [snd]. rewrite <- Hs.
      apply alike_sent; assumption.
    + destruct E2 as (rq & h & _ & _ & El & _). congruence.
  - destruct E1 as (rq & h & _ & _ & El & _).
    rewrite (perform_request_sends url type po w _ _ _ Ht El).
    rewrite (perform_request_sends url type po w' _ _ _
               ltac:(rewrite <- Hs; exact Ht) El).
    rewrite !send_run. rewrite <- Hs, <- He.
    cbn [with_self network self params os_environ sent token_reads].
    split.
    + cbn [snd]. repeat split; cbn [self params os_environ network]; try assumption.
      unfold same_bodies in *. destruct Hn; cbn [tl]; [constructor | assumption].
    + cbn [fst]. unfold same_bodies in Hn. destruct Hn; [exact I | assumption].
Qed.

Lemma alike_params (w w' : world) (p : dict) :
  alike w w' -> alike (with_params p w) (with_params p w').
Proof. intros (Hs & Hp & He & Hn). repeat split; assumption. Qed.

(** The walk on two worlds that are alike gives the same result. *)
Lemma loop_alike (fuel : nat) :
  forall url method all_data data w w',
    alike w w' ->
    related eq (pagination_loop fuel url method all_data data w)
               (pagination_loop fuel url method all_data data w').
Proof.
  induction fuel as [|fuel IH]; intros url method all_data data w w' Hw.
  - split; [exact Hw | exact I].
  - cbn [pagination_loop].
    apply (related_bind eq eq); [apply related_lift; exact Hw|].
    intros nxt ? w1 w1' <- Hw1.
    destruct (truthy nxt); [|split; [exact Hw1 | reflexivity]].
    apply (related_bind eq eq); [apply related_lift; exact Hw1|].
    intros uq ? w2 w2' <- Hw2.
    apply (related_bind eq eq).
    { split; [exact Hw2 | apply Hw2]. }
    intros p ? w3 w3' <- Hw3.
    apply (related_bind eq eq).
    { split; [apply (alike_params w3 w3' _ Hw3) | reflexivity]. }
    intros [] ? w4 w4' _ Hw4.
    apply (related_bind eq eq).
    { split; [exact Hw4 | apply Hw4]. }
    intros p1 ? w5 w5' <- Hw5.
    apply (related_bind (fun r r' => json_body r = json_body r') eq);
      [apply perform_request_alike; exact Hw5|].
    intros resp resp' w6 w6' Hbody Hw6.
    apply (related_bind eq eq).
    { rewrite <- Hbody. destruct (json_body resp); split; cbn; auto. }
    intros data' ? w7 w7' <- Hw7.
    apply (related_bind eq eq); [apply related_lift; exact Hw7|].
    intros its ? w8 w8' <- Hw8.
    apply (related_bind eq eq); [apply related_lift; exact Hw8|].
    intros all_data' ? w9 w9' <- Hw9.
    apply IH. exact Hw9.
Qed.

Lemma alike_ratelimit (h : list (string * string)) (w w' : world) :
  alike w w' -> alike (record_ratelimit h w) (record_ratelimit h w').
Proof.
  intros (Hs & Hp & He & Hn). repeat split; cbn; try assumption. rewrite Hs. reflexivity.
Qed.

Lemma same_bodies_length (rs rs' : list response) :
  same_bodies rs rs' -> length rs = length rs'.
Proof. intro H. induction H; cbn; congruence. Qed.

(** What follows the first response, on two worlds that are alike. *)
Lemma after_first_response_alike (url type : string) (req : response) (w w' : world) :
  alike w w' ->
  related eq (after_first_response url type req w) (after_first_response url type req w').
Proof.
  intro Hw. unfold after_first_response.
  destruct (status_code req =? 204)%Z; [split; [exact Hw | reflexivity]|].
  destruct (status_code req =? 404)%Z; [split; [exact Hw | reflexivity]|].
  destruct (json_body req) as [msg|data]; [split; [exact Hw | reflexivity]|].
  apply (related_bind eq eq).
  { destruct (negb (ok req)); [|split; [exact Hw | reflexivity]].
    apply (related_bind eq eq); [apply related_lift; exact Hw|].
    intros m ? w1 w1' <- Hw1. split; [exact Hw1 | reflexivity]. }
  intros [] ? w1 w1' _ Hw1.
  apply (related_bind eq eq).
  { split; [apply (alike_ratelimit _ _ _ Hw1) | reflexivity]. }
  intros [] ? w2 w2' _ Hw2.
  apply (related_bind eq eq); [apply related_lift; exact Hw2|].
  intros links ? w3 w3' <- Hw3.
  apply (related_bind eq eq); [apply related_lift; exact Hw3|].
  intros pages ? w4 w4' <- Hw4.
  apply (related_bind eq eq); [apply related_lift; exact Hw4|].
  intros nxt ? w5 w5' <- Hw5.
  apply (related_bind eq eq).
  { split; [exact Hw5 | apply Hw5]. }
  intros p ? w6 w6' <- Hw6.
  destruct (truthy nxt && negb (Dict.mem "page" p)); [|split; [exact Hw6 | reflexivity]].
  unfold _deal_with_pagination.
  rewrite (same_bodies_length _ _ (proj2 (proj2 (proj2 Hw6)))).
  apply loop_alike. exact Hw6.
Qed.

End LaterPages.

(** Of the responses that follow the first, [get_data] looks at the decoded
    body only: two services that answer the first request alike, and whose
    later answers have the same bodies under any status codes and headers,
    get the same outcome (result or exception), the same mapping and the same
    session state. *)
Theorem later_status_is_ignored {L : PyLib}
    (url type : string) (po : option dict) (w w' : world)
    (r1 : response) (rs rs' : list response) :
  self w = self w' ->
  os_environ w = os_environ w' ->
  network w = r1 :: rs ->
  network w' = r1 :: rs' ->
  same_bodies rs rs' ->
  fst (get_data url type po w) = fst (get_data url type po w') /\
  params (snd (get_data url type po w)) = params (snd (get_data url type po w')) /\
  self (snd (get_data url type po w)) = self (snd (get_data url type po w')).
Proof.
  intros Hs He Hn Hn' Hb.
  assert (Hrel : related eq (get_data url type po w) (get_data url type po w')).
  { rewrite !get_data_run.
    set (p := first_params type po).
    destruct (perform_request_cases url type (Some p) (with_params p w))
      as [[Ht E1]|[[Ht [Hl E1]]|[Ht E1]]]; cbv zeta in *;
      cbn [with_params self] in Ht.
    - destruct (perform_request_cases url type (Some p) (with_params p w'))
        as [[Ht' E2]|[[Ht' _]|[Ht' _]]]; cbv zeta in *; cbn [with_params self] in Ht';
        try (rewrite <- Hs in Ht'; contradiction).
      rewrite E1, E2. split; [|reflexivity].
      cbn [snd with_self with_params self params os_environ network].
      rewrite Hs. repeat split; cbn; try assumption.
      rewrite Hn, Hn'. constructor; [reflexivity | exact Hb].
    - destruct (perform_request_cases url type (Some p) (with_params p w'))
        as [[Ht' _]|[[_ [_ E2]]|[_ E2]]]; cbv zeta in *;
        try (cbn [with_params self] in Ht'; rewrite <- Hs in Ht'; contradiction).
      + rewrite E1, E2. split; [|reflexivity].
        cbn [snd with_self with_params self params os_environ network].
        rewrite Hs. repeat split; cbn; try assumption.
        rewrite Hn, Hn'. constructor; [reflexivity | exact Hb].
      + destruct E2 as (rq & h & _ & _ & El & _). congruence.
    - destruct E1 as (rq & h & _ & _ & El & _).
      rewrite (perform_request_sends url type (Some p) (with_params p w) _ _ _ Ht El).
      rewrite (perform_request_sends url type (Some p) (with_params p w') _ _ _
                 ltac:(cbn [with_params self]; rewrite <- Hs; exact Ht) El).
      rewrite !send_run.
      cbn [with_self with_params network self params os_environ sent token_reads].
      rewrite Hn, Hn'. cbn [tl].
      apply after_first_response_alike.
      repeat split; cbn; try assumption. rewrite Hs. reflexivity. }
  destruct Hrel as [(Hs1 & Hp1 & _) Ho]. split; [|split; assumption].
  destruct (fst (get_data url type po w)), (fst (get_data url type po w'));
    try contradiction; congruence.
Qed.

Lemma later_status_is_ignored_witness :
  fst (get_data (L := run_lib) "droplets" GET None
         (one_token_world [page_response "4998" droplets_page_1;
                           error_response 404 not_found_body])) =
  fst (get_data (L := run_lib) "droplets" GET None
         (one_token_world [page_response "4998" droplets_page_1;
                           mkResponse 200 [] (inr (JDict not_found_body))])).
Proof.
  apply (later_status_is_ignored (L := run_lib) "droplets" GET None
           (one_token_world [page_response "4998" droplets_page_1;
                             error_response 404 not_found_body])
           (one_token_world [page_response "4998" droplets_page_1;
                             mkResponse 200 [] (inr (JDict not_found_body))])
           (page_response "4998" droplets_page_1)
           [error_response 404 not_found_body]
           [mkResponse 200 [] (inr (JDict not_found_body))]);
    try reflexivity.
  repeat constructor.
Defined.

(** ** A walk of any length *)

Lemma merged_is_list (a p : option json) (v : json) :
  merged a p = Some v ->
  is_list v = true \/ p = Some v \/ (p = None /\ a = Some v).
Proof.
  unfold merged. destruct p as [[| | | |new|]|]; auto.
  destruct a as [[| | | |old|]|]; intro H; inversion H; auto.
Qed.

Section LongWalk.

Context {L : PyLib}.

(** The walk from a page on, over the pages still to come. *)
Lemma loop_over_pages (method : string) (rest : list response) :
  forall (later : list dict) (rs : list response) (fuel : nat) (url : string)
         (acc cur : dict) (w : world),
    Forall2 (fun r p => json_body r = inr (JDict p)) rs later ->
    network w = rs ++ rest ->
    length later < fuel ->
    usable (self w) ->
    In method verbs ->
    chained cur later = true ->
    lists_agree later = true ->
    (forall p, In p later ->
       forall k new v, Dict.get p k = Some (JList new) ->
                       Dict.get acc k = Some v -> is_list v = true) ->
    exists m w',
      pagination_loop fuel url method (JDict acc) (JDict cur) w = (Return (JDict m), w') /\
      (forall k, Dict.get m k = merged_over k (Dict.get acc k) later) /\
      network w' = rest /\
      length (sent w') = length (sent w) + length later /\
      ratelimit (self w') = ratelimit (self w).
Proof.
  induction later as [|p later IH];
    intros rs fuel url acc cur w Hbodies Hnet Hfuel Hu Hv Hchain Hagree Hacc.
  - inversion Hbodies; subst rs. cbn [app] in Hnet.
    destruct fuel as [|fuel]; [cbn in Hfuel; lia|].
    cbn [chained] in Hchain. unfold last_page in Hchain.
    destruct (next_link (JDict cur)) as [e|nxt] eqn:Hn; [discriminate|].
    apply negb_true_iff in Hchain.
    rewrite (loop_stop _ _ _ _ _ _ _ Hn Hchain).
    exists acc, w. repeat split; auto.
  - inversion Hbodies as [|r p' rs' later' Hr Hrest]; subst.
    destruct fuel as [|fuel]; [cbn in Hfuel; lia|].
    cbn [chained] in Hchain. apply andb_true_iff in Hchain as [Hfollow Hchain].
    unfold followable in Hfollow.
    destruct (next_link (JDict cur)) as [e|[| | |s| |]] eqn:Hn; try discriminate.
    destruct (split_once s) as [[u q]|] eqn:Hs; [|discriminate].
    cbn [lists_agree] in Hagree. apply andb_true_iff in Hagree as [Hp Hagree].
    destruct (perform_request_ok u method
                (Some (merge_query (params w) (parse_qs q)))
                (with_params (merge_query (params w) (parse_qs q)) w)
                r (rs' ++ rest) Hu Hv Hnet) as (rq & E & _).
    destruct (merge_page_onto acc p) as (d & Hm & Hd).
    { intros k new v Hk Ha. exact (Hacc p (or_introl eq_refl) k new v Hk Ha). }
    rewrite (loop_turn _ _ _ _ _ _ _ _ _ _ _ _ _ Hn
               (split_once_truthy _ _ _ Hs)
               ltac:(cbn [split_next]; rewrite Hs; reflexivity)
               E Hr Hm).
    match goal with |- context [pagination_loop _ _ _ _ _ ?w1] => set (wa := w1) end.
    destruct (IH rs' fuel u d p wa Hrest) as (m & w' & Hrun & Hget & Hnet' & Hsent & Hrate).
    + reflexivity.
    + cbn [length] in Hfuel. lia.
    + subst wa. cbn [self]. apply after_request_usable. exact Hu.
    + exact Hv.
    + exact Hchain.
    + exact Hagree.
    + intros p2 Hin k new v Hk Hdk. rewrite Hd in Hdk.
      destruct (merged_is_list _ _ _ Hdk) as [Hl|[Hpk|[_ Hak]]].
      * exact Hl.
      * rewrite forallb_forall in Hp.
        exact (list_fields_agree_spec _ _ (Hp p2 Hin) k new v Hk Hpk).
      * exact (Hacc p2 (or_intror Hin) k new v Hk Hak).
    + exists m, w'. split; [exact Hrun|]. split; [|split; [exact Hnet'|split]].
      * intro k. rewrite Hget, Hd. reflexivity.
      * rewrite Hsent. subst wa. cbn [sent with_params length].
        rewrite length_app. cbn [length]. lia.
      * rewrite Hrate. subst wa. cbn [self with_params].
        apply after_request_fields.
Qed.

End LongWalk.

(** A GET answered by any number of pages, each but the last with a next
    link that can be followed, on a session that can send and without an
    explicit page, where no page brings a list under a key that holds
    something else: [get_data] sends one request per page, one after the
    other, and returns one mapping in which every key holds the merge, in
    page order, of what the pages hold there (lists appended, anything else
    replaced); the rate limits are those of the first response. *)
Theorem walk_of_any_length {L : PyLib}
    (url : string) (po : option dict) (w : world)
    (r1 : response) (rs rest : list response) (p1 : dict) (later : list dict) :
  usable (self w) ->
  network w = r1 :: rs ++ rest ->
  status_code r1 <> 204%Z /\ status_code r1 <> 404%Z /\ ok r1 = true ->
  json_body r1 = inr (JDict p1) ->
  Forall2 (fun r p => json_body r = inr (JDict p)) rs later ->
  Dict.mem "page" (first_params GET po) = false ->
  chained p1 later = true ->
  lists_agree (p1 :: later) = true ->
  exists m w',
    get_data url GET po w = (Return (JDict m), w') /\
    (forall k, Dict.get m k = merged_over k (Dict.get p1 k) later) /\
    network w' = rest /\
    length (sent w') = length (sent w) + S (length later) /\
    ratelimit (self w') =
      (Some (header_get (headers r1) "Ratelimit-Limit"),
       Some (header_get (headers r1) "Ratelimit-Remaining"),
       Some (header_get (headers r1) "Ratelimit-Reset")).
Proof.
  intros Hu Hnet (H204 & H404 & Hok) Hb1 Hbodies Hpage Hchain Hagree.
  assert (HGET : In GET verbs) by (left; reflexivity).
  destruct (perform_request_ok url GET (Some (first_params GET po))
              (with_params (first_params GET po) w) r1 (rs ++ rest)
              Hu HGET Hnet) as (rq1 & E1 & _).
  cbn [lists_agree] in Hagree. apply andb_true_iff in Hagree as [Hp1 Hagree].
  assert (Hlen : length rs = length later).
  { clear -Hbodies. induction Hbodies; cbn; congruence. }
  rewrite get_data_run, E1.
  destruct later as [|p2 later].
  - (* a single page: no walk *)
    cbn [chained] in Hchain. unfold last_page in Hchain.
    destruct (next_link (JDict p1)) as [e|nxt] eqn:Hn; [discriminate|].
    apply negb_true_iff in Hchain.
    rewrite (after_ok _ _ _ _ _ _ H204 H404 Hb1 Hok Hn), Hchain. cbn [andb].
    inversion Hbodies; subst rs.
    exists p1. eexists. split; [reflexivity|].
    cbn [record_ratelimit network sent self with_params app length merged_over fold_left].
    repeat split.
    + rewrite length_app. cbn [length]. lia.
  - cbn [chained] in Hchain.
    pose proof Hchain as Hchain'. apply andb_true_iff in Hchain' as [Hfollow _].
    unfold followable in Hfollow.
    destruct (next_link (JDict p1)) as [e|[| | |s| |]] eqn:Hn; try discriminate.
    destruct (split_once s) as [[u q]|] eqn:Hs; [|discriminate].
    rewrite (after_ok _ _ _ _ _ _ H204 H404 Hb1 Hok Hn).
    cbn [params with_params]. rewrite Hpage, (split_once_truthy _ _ _ Hs).
    cbn [andb negb]. unfold _deal_with_pagination.
    match goal with |- context [pagination_loop _ _ _ _ _ ?w1] => set (wa := w1) end.
    destruct (loop_over_pages GET rest (p2 :: later) rs
                (S (length (network wa))) url p1 p1 wa Hbodies)
      as (m & w' & Hrun & Hget & Hnet' & Hsent & Hrate).
    + reflexivity.
    + subst wa. cbn [record_ratelimit network]. rewrite length_app, Hlen. lia.
    + subst wa. cbn [record_ratelimit self]. unfold usable, with_ratelimit. cbn [tokens].
      apply after_request_usable. exact Hu.
    + exact HGET.
    + exact Hchain.
    + exact Hagree.
    + intros p Hin k new v Hk Ha. rewrite forallb_forall in Hp1.
      exact (list_fields_agree_spec _ _ (Hp1 p Hin) k new v Hk Ha).
    + exists m, w'. split; [exact Hrun|]. split; [exact Hget|]. split; [exact Hnet'|].
      split.
      * rewrite Hsent. subst wa. cbn [record_ratelimit sent with_params].
        rewrite length_app. cbn [length]. lia.
      * rewrite Hrate. reflexivity.
Qed.

(** * The resource wrappers *)

Module AttrsFacts.

Lemma attr_set_same (d : instance) (k : string) (v : pyval) :
  Attrs.get (Attrs.set d k v) k = Some v.
Proof.
  induction d as [|[k' v'] d IH]; cbn.
  - rewrite String.eqb_refl. reflexivity.
  - destruct (k' =? k) eqn:E; cbn.
    + rewrite String.eqb_refl. reflexivity.
    + rewrite E. exact IH.
Qed.

Lemma attr_set_other (d : instance) (k k' : string) (v : pyval) :
  k <> k' -> Attrs.get (Attrs.set d k v) k' = Attrs.get d k'.
Proof.
  intro Hne. induction d as [|[k0 v0] d IH]; cbn.
  - apply String.eqb_neq in Hne. rewrite Hne. reflexivity.
  - destruct (k0 =? k) eqn:E; cbn.
    + apply String.eqb_eq in E. subst k0.
      apply String.eqb_neq in Hne. rewrite Hne. reflexivity.
    + rewrite IH. reflexivity.
Qed.

(** What an attribute holds after fields with distinct names were stored. *)
Lemma stored_get (its : dict) :
  NoDup (map fst its) ->
  forall a k,
    Attrs.get (stored its a) k =
    match Dict.get its k with
    | Some v => Some (VJson v)
    | None => Attrs.get a k
    end.
Proof.
  induction its as [|[k0 v0] its IH]; intros Hnd a k; [reflexivity|].
  inversion Hnd as [|? ? Hnotin Hnd']; subst.
  change (stored ((k0, v0) :: its) a) with (stored its (Attrs.set a k0 (VJson v0))).
  rewrite (IH Hnd'). cbn [Dict.get].
  destruct (String.eqb_spec k0 k) as [->|Hne].
  - rewrite (DictFacts.get_None_keys its k Hnotin). apply attr_set_same.
  - destruct (Dict.get its k); [reflexivity|]. apply attr_set_other. exact Hne.
Qed.

End AttrsFacts.

Lemma setattr_plain (name : string) (v : json) (s : api_state) :
  plain_name name = true ->
  BaseAPI.setattr name v s =
    Some (Return tt, mkApi (session_world s) (Attrs.set (attrs s) name (VJson v))).
Proof.
  unfold plain_name. cbn [existsb]. rewrite !negb_orb.
  intro H. repeat (apply andb_true_iff in H as [?H H]).
  repeat match goal with
         | H : negb (_ =? _) = true |- _ => apply negb_true_iff in H
         end.
  unfold BaseAPI.setattr.
  repeat match goal with
         | H : (name =? ?x) = false |- _ => rewrite H; clear H
         end.
  reflexivity.
Qed.

Lemma setattr_all_plain (its : dict) :
  Forall (fun kv => plain_name (fst kv) = true) its ->
  forall s,
    BaseAPI.setattr_all its s =
      Some (Return tt, mkApi (session_world s) (stored its (attrs s))).
Proof.
  induction 1 as [|[k v] its Hk _ IH]; intro s; [destruct s; reflexivity|].
  cbn [BaseAPI.setattr_all]. unfold api_bind.
  rewrite (setattr_plain k v s Hk), IH. reflexivity.
Qed.

Lemma items_from_incl (d : dict) (seen : list string) (kv : string * json) :
  In kv (Dict.items_from seen d) -> In kv d.
Proof.
  revert seen. induction d as [|[k v] d IH]; intros seen; cbn; [tauto|].
  destruct (existsb (String.eqb k) seen).
  - intro H. right. eapply IH. exact H.
  - intros [H|H]; [left; exact H | right; eapply IH; exact H].
Qed.

Lemma items_plain (d : dict) :
  forallb (fun kv => plain_name (fst kv)) d = true ->
  Forall (fun kv => plain_name (fst kv) = true) (Dict.items d).
Proof.
  rewrite forallb_forall. intro H. apply Forall_forall. intros kv Hin.
  apply H. eapply items_from_incl. exact Hin.
Qed.

(** [load] copies the fields of the response onto the instance: when the
    balance request returns a mapping whose keys are all plain names, every
    key of the mapping is afterwards an attribute holding the mapping's
    value, and every other attribute is as it was. *)
Theorem load_copies_fields {L : PyLib} (s : api_state) (d : dict) (w' : world) :
  Attrs.get (attrs s) "get_data" = None ->
  Attrs.get (attrs s) "_requester" = Some VRequester ->
  get_data "customers/my/balance" GET None (session_world s) = (Return (JDict d), w') ->
  forallb (fun kv => plain_name (fst kv)) d = true ->
  exists a,
    Balance.load s = Some (Return tt, mkApi w' a) /\
    forall k,
      Attrs.get a k =
      match Dict.get d k with
      | Some v => Some (VJson v)
      | None => Attrs.get (attrs s) k
      end.
Proof.
  intros Hg Hr E Hplain.
  exists (stored (Dict.items d) (attrs s)). split.
  - unfold Balance.load. rewrite Hg. unfold api_bind, BaseAPI.get_data.
    rewrite Hr. unfold on_session. rewrite E.
    rewrite (setattr_all_plain _ (items_plain d Hplain)). reflexivity.
  - intro k. rewrite (AttrsFacts.stored_get _ (DictFacts.items_NoDup d)).
    rewrite DictFacts.items_get. reflexivity.
Qed.

Lemma load_copies_fields_witness :
  exists a w',
    Balance.load (L := run_lib)
      (mkApi (one_token_world [page_response "4998" balance_page]) new_balance) =
      Some (Return tt, mkApi w' a) /\
    Attrs.get a "account_balance" = Some (VJson (JStr "12.23")) /\
    Attrs.get a "_requester" = Some VRequester.
Proof.
  destruct (load_copies_fields (L := run_lib)
              (mkApi (one_token_world [page_response "4998" balance_page]) new_balance)
              balance_page
              (snd (get_data (L := run_lib) "customers/my/balance" GET None
                      (one_token_world [page_response "4998" balance_page]))))
    as (a & Hl & Ha).
  - reflexivity.
  - reflexivity.
  - vm_compute. reflexivity.
  - reflexivity.
  - exists a. eexists. split; [exact Hl|]. rewrite !Ha. split; reflexivity.
Defined.

(** When the balance request does not return a mapping, [load] sets no
    attribute: an exception of [get_data] comes out as it is, and the
    [True] of a 204 response makes [load] raise [AttributeError]. *)
Theorem load_without_mapping {L : PyLib} (s : api_state) (o : outcome json) (w' : world) :
  Attrs.get (attrs s) "get_data" = None ->
  Attrs.get (attrs s) "_requester" = Some VRequester ->
  get_data "customers/my/balance" GET None (session_world s) = (o, w') ->
  (forall d, o <> Return (JDict d)) ->
  Balance.load s =
    Some (match o with
          | Return _ => Raise AttributeError
          | Raise e => Raise e
          | Stalled => Stalled
          end, mkApi w' (attrs s)).
Proof.
  intros Hg Hr E Hd.
  unfold Balance.load. rewrite Hg. unfold api_bind, BaseAPI.get_data.
  rewrite Hr. unfold on_session. rewrite E.
  destruct o as [[| | | | |d]| |]; try reflexivity.
  exfalso. eapply Hd. reflexivity.
Qed.

Lemma load_without_mapping_witness :
  exists w',
    Balance.load (L := run_lib) (mkApi (one_token_world [no_content]) new_balance) =
    Some (Raise AttributeError, mkApi w' new_balance).
Proof.
  eexists.
  rewrite (load_without_mapping (L := run_lib)
             (mkApi (one_token_world [no_content]) new_balance)
             (Return (JBool true))
             (snd (get_data (L := run_lib) "customers/my/balance" GET None
                     (one_token_world [no_content])))).
  - reflexivity.
  - reflexivity.
  - reflexivity.
  - vm_compute. reflexivity.
  - intros d H. discriminate.
Defined.

Lemma setattr_all_app (before rest : dict) :
  Forall (fun kv => plain_name (fst kv) = true) before ->
  forall s,
    BaseAPI.setattr_all (before ++ rest) s =
    BaseAPI.setattr_all rest (mkApi (session_world s) (stored before (attrs s))).
Proof.
  induction 1 as [|[k v] its Hk _ IH]; intro s; [destruct s; reflexivity|].
  cbn [app BaseAPI.setattr_all]. unfold api_bind at 1.
  rewrite (setattr_plain k v s Hk), IH. reflexivity.
Qed.

Lemma stored_get_absent (its : dict) (a : instance) (k : string) :
  ~ In k (map fst its) -> Attrs.get (stored its a) k = Attrs.get a k.
Proof.
  revert a. induction its as [|[k0 v0] its IH]; intros a Hnot; [reflexivity|].
  change (stored ((k0, v0) :: its) a) with (stored its (Attrs.set a k0 (VJson v0))).
  rewrite IH by (intro H; apply Hnot; right; exact H).
  apply AttrsFacts.attr_set_other. intro H. apply Hnot. left. exact H.
Qed.

Lemma load_run {L : PyLib} (s : api_state) (d : dict) (w' : world) :
  Attrs.get (attrs s) "get_data" = None ->
  Attrs.get (attrs s) "_requester" = Some VRequester ->
  get_data "customers/my/balance" GET None (session_world s) = (Return (JDict d), w') ->
  Balance.load s = BaseAPI.setattr_all (Dict.items d) (mkApi w' (attrs s)).
Proof.
  intros Hg Hr E. unfold Balance.load. rewrite Hg. unfold api_bind, BaseAPI.get_data.
  rewrite Hr. unfold on_session. rewrite E. reflexivity.
Qed.

(** A response with a field named "end_point" makes [load] raise
    [AttributeError] (the wrapper's [end_point] is a property without a
    setter): the fields that precede it in the response have been stored by
    then, the fields that follow it are not. *)
Theorem load_end_point_field {L : PyLib} (s : api_state) (d : dict) (w' : world)
    (before after : dict) (v : json) :
  Attrs.get (attrs s) "get_data" = None ->
  Attrs.get (attrs s) "_requester" = Some VRequester ->
  get_data "customers/my/balance" GET None (session_world s) = (Return (JDict d), w') ->
  Dict.items d = before ++ ("end_point", v) :: after ->
  forallb (fun kv => plain_name (fst kv)) before = true ->
  Balance.load s = Some (Raise AttributeError, mkApi w' (stored before (attrs s))).
Proof.
  intros Hg Hr E Hits Hplain.
  rewrite (load_run s d w' Hg Hr E), Hits.
  rewrite setattr_all_app
    by (apply Forall_forall; rewrite forallb_forall in Hplain; exact Hplain).
  reflexivity.
Qed.

Lemma load_end_point_field_witness :
  exists w' a,
    Balance.load (L := run_lib)
      (mkApi (one_token_world
                [page_response "4998"
                   [("account_balance", JStr "12.23");
                    ("end_point", JStr "https://example.org/");
                    ("generated_at", JStr "2019-07-09T15:01:12Z")]])
             new_balance) =
      Some (Raise AttributeError, mkApi w' a) /\
    Attrs.get a "account_balance" = Some (VJson (JStr "12.23")) /\
    Attrs.get a "generated_at" = Some (VJson JNull).
Proof.
  do 2 eexists. split.
  - apply (load_end_point_field (L := run_lib) _
             [("account_balance", JStr "12.23");
              ("end_point", JStr "https://example.org/");
              ("generated_at", JStr "2019-07-09T15:01:12Z")]
             _ [("account_balance", JStr "12.23")]
             [("generated_at", JStr "2019-07-09T15:01:12Z")]
             (JStr "https://example.org/")).
    + reflexivity.
    + reflexivity.
    + vm_compute. reflexivity.
    + reflexivity.
    + reflexivity.
  - split; reflexivity.
Defined.

(** A response with a field named "token" re-keys the session the instance
    shares: [load] hands the field to the [token] setter, so afterwards the
    session holds the tokens of the response with its cursor at zero, while
    the other fields are stored as attributes. *)
Theorem load_token_field {L : PyLib} (s : api_state) (d : dict) (w' : world)
    (before after : dict) (v : json) (t : token_arg) :
  Attrs.get (attrs s) "get_data" = None ->
  Attrs.get (attrs s) "_requester" = Some VRequester ->
  get_data "customers/my/balance" GET None (session_world s) = (Return (JDict d), w') ->
  Dict.items d = before ++ ("token", v) :: after ->
  forallb (fun kv => plain_name (fst kv)) (before ++ after) = true ->
  ~ In "_requester" (map fst before) ->
  setter_arg v = Some t ->
  exists s',
    Balance.load s = Some (Return tt, s') /\
    self (session_world s') = assign_token t (self w') /\
    attrs s' = stored (before ++ after) (attrs s) /\
    Attrs.get (attrs s') "token" = Attrs.get (attrs s) "token".
Proof.
  intros Hg Hr E Hits Hplain Hnot Hv.
  rewrite forallb_app in Hplain. apply andb_true_iff in Hplain as [Hb Ha].
  assert (Fb : Forall (fun kv => plain_name (fst kv) = true) before)
    by (apply Forall_forall; rewrite forallb_forall in Hb; exact Hb).
  assert (Fa : Forall (fun kv => plain_name (fst kv) = true) after)
    by (apply Forall_forall; rewrite forallb_forall in Ha; exact Ha).
  rewrite (load_run s d w' Hg Hr E), Hits.
  rewrite (setattr_all_app _ _ Fb).
  cbn [BaseAPI.setattr_all session_world attrs].
  unfold api_bind at 1. unfold BaseAPI.setattr. cbn [String.eqb Ascii.eqb Bool.eqb].
  unfold BaseAPI.set_on_requester. cbn [attrs session_world].
  rewrite (stored_get_absent _ _ _ Hnot), Hr.
  cbn [String.eqb Ascii.eqb Bool.eqb]. rewrite Hv.
  unfold on_session. cbn [session_world attrs].
  unfold token_setter, bind, get_self, set_self.
  cbn [self params os_environ network sent token_reads].
  rewrite (setattr_all_plain _ Fa). cbn [session_world attrs].
  eexists. split; [reflexivity|]. cbn [session_world attrs self].
  split; [reflexivity|]. split.
  - unfold stored. rewrite fold_left_app. reflexivity.
  - unfold stored. rewrite <- fold_left_app. fold (stored (before ++ after) (attrs s)).
    apply stored_get_absent.
    intro Hin. apply in_map_iff in Hin as ([k x] & Hk & Hin). cbn in Hk. subst k.
    apply in_app_or in Hin.
    assert (Hp : plain_name "token" = true).
    { destruct Hin as [Hin|Hin];
        [rewrite forallb_forall in Hb; exact (Hb _ Hin)
        | rewrite forallb_forall in Ha; exact (Ha _ Hin)]. }
    discriminate Hp.
Qed.

Lemma load_token_field_witness :
  exists s',
    Balance.load (L := run_lib)
      (mkApi (one_token_world
                [page_response "4998"
                   [("account_balance", JStr "12.23"); ("token", JStr "from_the_server")]])
             new_balance) = Some (Return tt, s') /\
    tokens (self (session_world s')) = ["from_the_server"] /\
    _last_used (self (session_world s')) = 0.
Proof.
  destruct (load_token_field (L := run_lib)
              (mkApi (one_token_world
                        [page_response "4998"
                           [("account_balance", JStr "12.23");
                            ("token", JStr "from_the_server")]])
                     new_balance)
              [("account_balance", JStr "12.23"); ("token", JStr "from_the_server")]
              (snd (get_data (L := run_lib) "customers/my/balance" GET None
                      (one_token_world
                         [page_response "4998"
                            [("account_balance", JStr "12.23");
                             ("token", JStr "from_the_server")]])))
              [("account_balance", JStr "12.23")] [] (JStr "from_the_server")
              (TokStr "from_the_server"))
    as (s' & Hl & Hs & _).
  - reflexivity.
  - reflexivity.
  - vm_compute. reflexivity.
  - reflexivity.
  - reflexivity.
  - cbn. intros [H|[]]. discriminate.
  - reflexivity.
  - exists s'. split; [exact Hl|]. rewrite Hs. split; reflexivity.
Defined.

(** A response can disable the instance: [load] stores the keys of the
    response without regard to the names the instance needs.  After a call
    of [load] whose mapping holds a field named "load" or "get_data", the
    next call raises [TypeError] (the field shadows the method and cannot be
    called); after one that holds neither but a field named "_requester",
    the next call raises [AttributeError] (the field has replaced the
    session); either way the second call sends nothing.  A mapping with none
    of the three names leaves the instance working: the next call gets the
    balance again and stores its fields. *)
Theorem load_can_disable_instance {L : PyLib} (s : api_state) (d : dict) (w' : world) :
  Attrs.get (attrs s) "load" = None ->
  Attrs.get (attrs s) "get_data" = None ->
  Attrs.get (attrs s) "_requester" = Some VRequester ->
  get_data "customers/my/balance" GET None (session_world s) = (Return (JDict d), w') ->
  forallb (fun kv => plain_name (fst kv)) d = true ->
  exists s',
    Balance.call_load s = Some (Return tt, s') /\
    session_world s' = w' /\
    (Dict.mem "load" d = true \/ Dict.mem "get_data" d = true ->
     Balance.call_load s' = Some (Raise TypeError, s')) /\
    (Dict.mem "load" d = false -> Dict.mem "get_data" d = false ->
     Dict.mem "_requester" d = true ->
     Balance.call_load s' = Some (Raise AttributeError, s')) /\
    (Dict.mem "load" d = false -> Dict.mem "get_data" d = false ->
     Dict.mem "_requester" d = false ->
     forall d2 w2,
       get_data "customers/my/balance" GET None w' = (Return (JDict d2), w2) ->
       forallb (fun kv => plain_name (fst kv)) d2 = true ->
       Balance.call_load s' =
         Some (Return tt, mkApi w2 (stored (Dict.items d2) (attrs s')))).
Proof.
  intros Hl Hg Hr E Hplain.
  exists (mkApi w' (stored (Dict.items d) (attrs s))).
  assert (Hget : forall k,
            Attrs.get (stored (Dict.items d) (attrs s)) k =
            match Dict.get d k with
            | Some v => Some (VJson v)
            | None => Attrs.get (attrs s) k
            end).
  { intro k. rewrite (AttrsFacts.stored_get _ (DictFacts.items_NoDup d)).
    rewrite DictFacts.items_get. reflexivity. }
  split; [|split; [reflexivity|split; [|split]]].
  - unfold Balance.call_load. rewrite Hl.
    rewrite (load_run s d w' Hg Hr E).
    rewrite (setattr_all_plain _ (items_plain d Hplain)). reflexivity.
  - unfold Dict.mem. intro Hm. unfold Balance.call_load. cbn [attrs].
    rewrite Hget. destruct (Dict.get d "load"); [reflexivity|].
    rewrite Hl. unfold Balance.load. cbn [attrs]. rewrite Hget.
    destruct (Dict.get d "get_data"); [reflexivity|].
    destruct Hm; discriminate.
  - unfold Dict.mem. intros Hm1 Hm2 Hq. unfold Balance.call_load. cbn [attrs].
    rewrite Hget. destruct (Dict.get d "load"); [discriminate|]. rewrite Hl.
    unfold Balance.load. cbn [attrs].
    rewrite Hget. destruct (Dict.get d "get_data"); [discriminate|]. rewrite Hg.
    unfold api_bind, BaseAPI.get_data. cbn [attrs]. rewrite Hget.
    destruct (Dict.get d "_requester"); [reflexivity | discriminate].
  - unfold Dict.mem. intros Hm1 Hm2 Hm3 d2 w2 E2 Hplain2.
    unfold Balance.call_load. cbn [attrs].
    rewrite Hget. destruct (Dict.get d "load") eqn:G1; [discriminate|]. rewrite Hl.
    rewrite (load_run _ d2 w2).
    + rewrite (setattr_all_plain _ (items_plain d2 Hplain2)). reflexivity.
    + cbn [attrs]. rewrite Hget.
      destruct (Dict.get d "get_data"); [discriminate | exact Hg].
    + cbn [attrs]. rewrite Hget.
      destruct (Dict.get d "_requester"); [discriminate | exact Hr].
    + exact E2.
Qed.

(** A response with the fields "_requester" and "load": the next call of
    [load] fails on the name "load", before it comes to the session. *)
Lemma load_can_disable_instance_witness :
  exists s',
    Balance.call_load (L := run_lib)
      (mkApi (one_token_world
                [page_response "4998" [("_requester", JStr "none"); ("load", JStr "x")];
                 empty_page])
             new_balance) = Some (Return tt, s') /\
    Balance.call_load (L := run_lib) s' = Some (Raise TypeError, s').
Proof.
  destruct (load_can_disable_instance (L := run_lib)
              (mkApi (one_token_world
                        [page_response "4998"
                           [("_requester", JStr "none"); ("load", JStr "x")];
                         empty_page])
                     new_balance)
              [("_requester", JStr "none"); ("load", JStr "x")]
              (snd (get_data (L := run_lib) "customers/my/balance" GET None
                      (one_token_world
                         [page_response "4998"
                            [("_requester", JStr "none"); ("load", JStr "x")];
                          empty_page]))))
    as (s' & Hl & _ & Ht & _).
  - reflexivity.
  - reflexivity.
  - reflexivity.
  - vm_compute. reflexivity.
  - reflexivity.
  - exists s'. split; [exact Hl|]. apply Ht. left. reflexivity.
Defined.

(** ** Construction of the wrappers *)

Lemma balance_init_given {L : PyLib} (w : world) :
  Balance.init true [] (mkApi w []) = Some (Return tt, mkApi w new_balance).
Proof. reflexivity. Qed.

(** [get_object] around a session: the instance it returns holds the four
    balance fields, [None] unless the response gives them, every other field
    of the response, and the session it was given. *)
Theorem get_object_loads {L : PyLib} (s : api_state) (d : dict) (w' : world) :
  get_data "customers/my/balance" GET None (session_world s) = (Return (JDict d), w') ->
  forallb (fun kv => plain_name (fst kv)) d = true ->
  exists a,
    Balance.get_object true s = Some (Return tt, mkApi w' a) /\
    forall k,
      Attrs.get a k =
      match Dict.get d k with
      | Some v => Some (VJson v)
      | None => Attrs.get new_balance k
      end.
Proof.
  intros E Hplain.
  unfold Balance.get_object. unfold api_bind at 1. rewrite balance_init_given.
  exists (stored (Dict.items d) new_balance). split.
  - rewrite (load_run (mkApi (session_world s) new_balance) d w' eq_refl eq_refl E).
    rewrite (setattr_all_plain _ (items_plain d Hplain)). reflexivity.
  - intro k. rewrite (AttrsFacts.stored_get _ (DictFacts.items_NoDup d)).
    rewrite DictFacts.items_get. reflexivity.
Qed.

Lemma get_object_loads_witness :
  exists w' a,
    Balance.get_object (L := run_lib) true
      (mkApi (one_token_world
                [page_response "4998" [("account_balance", JStr "12.23")]]) []) =
      Some (Return tt, mkApi w' a) /\
    Attrs.get a "account_balance" = Some (VJson (JStr "12.23")) /\
    Attrs.get a "generated_at" = Some (VJson JNull).
Proof.
  destruct (get_object_loads (L := run_lib)
              (mkApi (one_token_world
                        [page_response "4998" [("account_balance", JStr "12.23")]]) [])
              [("account_balance", JStr "12.23")]
              (snd (get_data (L := run_lib) "customers/my/balance" GET None
                      (one_token_world
                         [page_response "4998" [("account_balance", JStr "12.23")]]))))
    as (a & Hl & Ha).
  - vm_compute. reflexivity.
  - reflexivity.
  - eexists. exists a. split; [exact Hl|]. rewrite !Ha. split; reflexivity.
Defined.

Lemma get_filter_other (config : dict) (k k' : string) :
  k <> k' ->
  Dict.get (filter (fun kv => negb (fst kv =? k)) config) k' = Dict.get config k'.
Proof.
  intro Hne. induction config as [|[k0 v0] config IH]; [reflexivity|].
  cbn [filter fst Dict.get]. destruct (String.eqb_spec k0 k) as [->|H0]; cbn [negb].
  - apply String.eqb_neq in Hne. rewrite Hne. exact IH.
  - cbn [Dict.get]. rewrite IH. reflexivity.
Qed.

Lemma get_filter_same (config : dict) (k : string) :
  Dict.get (filter (fun kv => negb (fst kv =? k)) config) k = None.
Proof.
  induction config as [|[k0 v0] config IH]; [reflexivity|].
  cbn [filter fst]. destruct (k0 =? k) eqn:E; cbn [negb]; [exact IH|].
  cbn [Dict.get]. rewrite E. exact IH.
Qed.

Lemma create_consumes_its_keys_aux {L : PyLib} (env : environ) (config : dict)
    (res : exn + Requester) (rest : dict) :
  Requester_create env config = Some (res, rest) ->
  Dict.get rest "token" = None /\ Dict.get rest "end_point" = None.
Proof.
  unfold Requester_create, pop.
  destruct (constructor_token (Dict.get config "token")) as [t|]; [|discriminate].
  destruct (constructor_end_point _) as [e|]; [|discriminate].
  intro H. inversion H; subst res rest; clear H. split.
  - rewrite get_filter_other by discriminate. apply get_filter_same.
  - apply get_filter_same.
Qed.

(** [Requester.create] takes "token" and "end_point" out of the mapping it
    is given and leaves every other key as it was; the session is the one
    the constructor builds from the two values, a missing or falsy one being
    replaced by the environment's (or the default). *)
Theorem create_consumes_its_keys {L : PyLib} (env : environ) (config : dict)
    (res : exn + Requester) (rest : dict) :
  Requester_create env config = Some (res, rest) ->
  Dict.get rest "token" = None /\
  Dict.get rest "end_point" = None /\
  (forall k, k <> "token" -> k <> "end_point" -> Dict.get rest k = Dict.get config k) /\
  exists t e,
    constructor_token (Dict.get config "token") = Some t /\
    constructor_end_point (Dict.get config "end_point") = Some e /\
    res = Requester_init env t e.
Proof.
  unfold Requester_create, pop.
  rewrite (get_filter_other config "token" "end_point") by discriminate.
  destruct (constructor_token (Dict.get config "token")) as [t|]; [|discriminate].
  destruct (constructor_end_point (Dict.get config "end_point")) as [e|]; [|discriminate].
  intro H. inversion H; subst res rest; clear H.
  split; [|split; [|split]].
  - rewrite get_filter_other by discriminate. apply get_filter_same.
  - apply get_filter_same.
  - intros k H1 H2. rewrite !get_filter_other by congruence. reflexivity.
  - exists t, e. repeat split.
Qed.

Lemma create_consumes_its_keys_witness :
  exists res rest,
    Requester_create (L := run_lib) no_environ
      [("token", JStr "dop_v1_secret"); ("name", JStr "mine")] = Some (res, rest) /\
    Dict.get rest "token" = None /\
    Dict.get rest "name" = Some (JStr "mine").
Proof.
  do 2 eexists. split; [reflexivity|].
  destruct (create_consumes_its_keys (L := run_lib) no_environ
              [("token", JStr "dop_v1_secret"); ("name", JStr "mine")]
              _ _ eq_refl) as (Ht & _ & Hk & _).
  split; [exact Ht|]. rewrite Hk; [reflexivity | discriminate | discriminate].
Defined.

(** The keywords of the constructor.  Without a session, "token" and
    "end_point" go to the session that is built, which becomes the session
    of the instance, and are not stored on the instance; every other keyword
    is stored.  With a session, the keyword "end_point" makes the
    constructor raise [AttributeError], the keywords before it being
    stored. *)
Theorem init_keywords {L : PyLib} (kwargs : dict) (s : api_state) :
  (forall r rest,
     Requester_create (os_environ (session_world s)) kwargs = Some (inr r, rest) ->
     forallb (fun kv => plain_name (fst kv)) rest = true ->
     exists s',
       BaseAPI.init false kwargs s = Some (Return tt, s') /\
       self (session_world s') = r /\
       attrs s' =
         stored (Dict.items rest)
           (Attrs.set (Attrs.set (attrs s) "_log" VLogger) "_requester" VRequester) /\
       Dict.get rest "token" = None /\ Dict.get rest "end_point" = None) /\
  (forall before after v,
     Dict.items kwargs = before ++ ("end_point", v) :: after ->
     forallb (fun kv => plain_name (fst kv)) before = true ->
     BaseAPI.init true kwargs s =
       Some (Raise AttributeError,
             mkApi (session_world s)
               (stored before
                  (Attrs.set (Attrs.set (attrs s) "_log" VLogger)
                     "_requester" VRequester)))).
Proof.
  split.
  - intros r rest Hc Hplain.
    destruct (create_consumes_its_keys_aux _ _ _ _ Hc) as (Ht & He).
    unfold BaseAPI.init. unfold api_bind at 1. cbn [set_attr session_world attrs].
    rewrite Hc.
    unfold api_bind at 1. unfold on_session. cbn [set_self session_world attrs].
    unfold api_bind at 1. cbn [set_attr session_world attrs].
    rewrite (setattr_all_plain _ (items_plain rest Hplain)).
    cbn [session_world attrs].
    eexists. split; [reflexivity|]. cbn [session_world attrs self]. auto.
  - intros before after v Hits Hplain.
    unfold BaseAPI.init. unfold api_bind at 1. cbn [set_attr session_world attrs].
    unfold api_bind at 1. cbn [set_attr session_world attrs].
    rewrite Hits.
    rewrite setattr_all_app
      by (apply Forall_forall; rewrite forallb_forall in Hplain; exact Hplain).
    reflexivity.
Qed.

Lemma init_keywords_witness :
  exists s',
    BaseAPI.init (L := run_lib) false
      [("token", JStr "dop_v1_secret"); ("name", JStr "mine")]
      (mkApi (world_of (session_with []) []) []) = Some (Return tt, s') /\
    tokens (self (session_world s')) = ["dop_v1_secret"] /\
    Attrs.get (attrs s') "name" = Some (VJson (JStr "mine")) /\
    Attrs.get (attrs s') "token" = None.
Proof.
  destruct (proj1 (init_keywords (L := run_lib)
                     [("token", JStr "dop_v1_secret"); ("name", JStr "mine")]
                     (mkApi (world_of (session_with []) []) []))
              _ _ eq_refl eq_refl) as (s' & Hi & Hs & Ha & _).
  exists s'. split; [exact Hi|]. rewrite Hs, Ha. repeat split.
Defined.

(** Without a session [get_object] builds one from the environment: when the
    parse of the environment's (or the default) end point has no scheme or
    no host it raises [EndPointError], and nothing has been sent. *)
Theorem get_object_without_session {L : PyLib} (s : api_state) :
  scheme (urlparse (effective_end_point (os_environ (session_world s)) None)) = "" \/
  netloc (urlparse (effective_end_point (os_environ (session_world s)) None)) = "" ->
  exists a,
    Balance.get_object false s =
      Some (Raise (EndPointError
                     "Provided end point is not a valid URL. Please use a valid URL"),
            mkApi (session_world s) a).
Proof.
  intro H.
  assert (Hinit : Requester_init (os_environ (session_world s)) None None =
                  inl (EndPointError
                         "Provided end point is not a valid URL. Please use a valid URL")).
  { unfold Requester_init. cbv zeta.
    destruct H as [H|H]; rewrite H; cbn [String.eqb orb]; [reflexivity|].
    rewrite orb_true_r. reflexivity. }
  unfold Balance.get_object, Balance.init, BaseAPI.init.
  repeat (unfold api_bind at 1; cbn [set_attr session_world attrs]).
  unfold Requester_create, pop. cbn [Dict.get filter constructor_token constructor_end_point].
  rewrite Hinit. eexists. reflexivity.
Qed.

Lemma get_object_without_session_witness :
  exists a,
    Balance.get_object (L := run_lib) false
      (mkApi (mkWorld (session_with []) [] (mkEnviron None (Some "api.example.org") None)
                [empty_page] [] 0) []) =
      Some (Raise (EndPointError
                     "Provided end point is not a valid URL. Please use a valid URL"),
            mkApi (mkWorld (session_with []) [] (mkEnviron None (Some "api.example.org") None)
                     [empty_page] [] 0) a).
Proof.
  apply (get_object_without_session (L := run_lib)
           (mkApi (mkWorld (session_with []) [] (mkEnviron None (Some "api.example.org") None)
                     [empty_page] [] 0) [])).
  left. reflexivity.
Defined.

(** Reading the [token] property through the wrapper is a read like any
    other: it moves the cursor.  With two tokens, after one such read every
    request carries the second token where it would have carried the
    first. *)
Theorem wrapper_read_shifts_rotation {L : PyLib} (s : api_state) (t0 t1 : string)
    (calls : list (string * string * option dict)) :
  Attrs.get (attrs s) "_requester" = Some VRequester ->
  tokens (self (session_world s)) = [t0; t1] ->
  _last_used (self (session_world s)) = 0 ->
  t0 <> "" -> t1 <> "" ->
  Forall (fun c => In (snd (fst c)) verbs) calls ->
  exists s',
    BaseAPI.token s = Some (Return t1, s') /\
    (exists rqs,
       sent (perform_requests calls (session_world s')) = sent (session_world s) ++ rqs /\
       length rqs = length calls /\
       Forall (fun rq => authorization rq = Some ("Bearer " ++ t1)%string) rqs).
Proof.
  intros Hr Ht Hc H0 H1 Hverbs.
  unfold BaseAPI.token. rewrite Hr. unfold on_session. rewrite token_run.
  rewrite read_token_step by (rewrite Ht; discriminate).
  rewrite Ht, Hc. cbn [length Nat.add fst snd nth Nat.modulo Nat.divmod Nat.sub].
  eexists. split; [reflexivity|]. cbn [session_world].
  match goal with |- context [perform_requests calls ?w1] => set (wa := w1) end.
  destruct (requests_stride calls Hverbs wa) as (rqs & Hs & Hmap & _).
  { subst wa. unfold usable. cbn [with_self self tokens].
    split; [discriminate | repeat constructor; assumption]. }
  exists rqs. split; [exact Hs|].
  assert (Hlen : length rqs = length calls).
  { rewrite <- (length_map authorization rqs), Hmap, length_map, length_seq. reflexivity. }
  split; [exact Hlen|].
  apply Forall_forall. intros rq Hin.
  assert (Ha : In (authorization rq) (map authorization rqs)) by (apply in_map; exact Hin).
  rewrite Hmap in Ha. apply in_map_iff in Ha as (k & Hk & _).
  subst wa. cbn [with_self self tokens _last_used length] in Hk.
  replace ((1 + 2 * k) mod 2) with 1 in Hk.
  - symmetry. exact Hk.
  - rewrite (Nat.mul_comm 2 k), Nat.Div0.mod_add. reflexivity.
Qed.

Lemma wrapper_read_shifts_rotation_witness :
  exists s' rqs,
    BaseAPI.token
      (mkApi (world_of (session_with ["a"; "b"]) []) new_balance) = Some (Return "b", s') /\
    sent (perform_requests (L := run_lib) [("account", GET, None); ("keys", GET, None)]
            (session_world s')) = rqs /\
    Forall (fun rq => authorization rq = Some "Bearer b") rqs.
Proof.
  destruct (wrapper_read_shifts_rotation (L := run_lib)
              (mkApi (world_of (session_with ["a"; "b"]) []) new_balance) "a" "b"
              [("account", GET, None); ("keys", GET, None)])
    as (s' & Ht & rqs & Hs & _ & Hall); try reflexivity; try discriminate.
  - repeat (apply Forall_cons; [unfold verbs; cbn [In fst snd]; auto 10 |]).
    apply Forall_nil.
  - exists s', rqs. split; [exact Ht|]. split; [exact Hs | exact Hall].
Defined.

(** Five droplets on three pages, by the walk of any length. *)
Lemma walk_of_any_length_witness :
  exists m,
    fst (get_data (L := run_lib) "droplets" GET None three_pages_world) = Return (JDict m) /\
    Dict.get m "droplets" = Some (JList [JNum 1; JNum 2; JNum 3; JNum 4; JNum 5]) /\
    Dict.get m "page" = Some (JNum 3).
Proof.
  destruct (walk_of_any_length (L := run_lib) "droplets" None three_pages_world
              (page_response "4998" droplets_page_1)
              [page_response "4997" droplets_page_2; page_response "4996" droplets_page_3]
              [] droplets_page_1 [droplets_page_2; droplets_page_3])
    as (m & w' & Hrun & Hget & _).
  - exact usable_one_token.
  - reflexivity.
  - repeat split; discriminate.
  - reflexivity.
  - repeat constructor.
  - reflexivity.
  - reflexivity.
  - reflexivity.
  - exists m. rewrite Hrun. split; [reflexivity|]. rewrite !Hget. split; reflexivity.
Defined.
